(** * keep-up-with-ai-papers: the paper puller and the daily summary job

    A shallow embedding of [pull_papers.py] and [daily_paper_job.py], and
    the properties of the filename codec, the document fetcher, the
    listing resolver, the batch downloader and the summary generator.

    - Python [str] values are modelled by [string]: sequences of the code
      points 0..255.  On that range the regular-expression class [\d] is
      exactly the ten characters 0..9 and [.] is every character but the
      line feed.
    - Integers are [nat]: Python integers are unbounded.  The limit
      CPython puts on the length of a number converted from or to text
      (4300 digits unless configured otherwise) is not modelled.
    - Exceptions are values of [exn]; a call that can raise returns a
      [result].
    - [strftime] writes dates as the C library of Linux does: [%Y] is
      the year without padding, so a year below 1000 takes fewer than
      four digits; [%m] and [%d] take two digits each.  [strptime]
      follows the patterns of CPython's [_strptime], where [%Y] is
      exactly four digits.
    - The file system is a finite map from paths to contents.  Creating
      the output directory, opening a file for writing and writing to it
      always succeed: the runs described are those whose destination is
      writable, and an error of the file system is not among the
      exceptions a call can raise here.  Log records, prints, HTTP
      requests and sleeps are appended to a trace.
    - The network, the HTML parser, the converter and the directory
      listing are parameters of the sections that use them. *)

From Stdlib Require Import Ascii DecimalString DecimalNat Lia.
From stdpp Require Import gmap strings list fin_maps.

#[local] Set Warnings "-abstract-large-number".

Local Open Scope stdpp_scope.
#[local] Arguments String.append !_ _ / : simpl nomatch.

(** ** Python strings *)

Module Str.

Fixpoint all (p : ascii -> bool) (s : string) : bool :=
  match s with
  | EmptyString => true
  | String c s' => p c && all p s'
  end.

Fixpoint mem (c : ascii) (s : string) : bool :=
  match s with
  | EmptyString => false
  | String x s' => Ascii.eqb c x || mem c s'
  end.

(** [s[:n]] *)
Fixpoint take (n : nat) (s : string) : string :=
  match n, s with
  | S n', String c s' => String c (take n' s')
  | _, _ => EmptyString
  end.

(** [s[n:]] *)
Fixpoint drop (n : nat) (s : string) : string :=
  match n, s with
  | S n', String _ s' => drop n' s'
  | _, _ => s
  end.

(** [s.startswith(p)] *)
Fixpoint startswith (p s : string) : bool :=
  match p, s with
  | EmptyString, _ => true
  | String a p', String b s' => Ascii.eqb a b && startswith p' s'
  | String _ _, EmptyString => false
  end.

(** [p in s] *)
Fixpoint contains (p s : string) : bool :=
  startswith p s ||
  match s with
  | EmptyString => false
  | String _ s' => contains p s'
  end.

(** [s.endswith("/")], used by [os.path.join] *)
Fixpoint ends_with_char (c : ascii) (s : string) : bool :=
  match s with
  | EmptyString => false
  | String x EmptyString => Ascii.eqb x c
  | String _ s' => ends_with_char c s'
  end.

(** The part of [s] after its last [c], the whole of [s] when there is
    none: [s[s.rfind(c) + 1:]], which is also [s.split(c)[-1]]. *)
Fixpoint after_last (c : ascii) (s : string) : string :=
  match s with
  | EmptyString => EmptyString
  | String x s' => if mem c s' then after_last c s'
                   else if Ascii.eqb x c then s' else s
  end.

(** The text before the first [c], the whole of [s] when there is
    none: [s.split(c)[0]]. *)
Fixpoint before (c : ascii) (s : string) : string :=
  match s with
  | EmptyString => EmptyString
  | String x s' => if Ascii.eqb x c then EmptyString else String x (before c s')
  end.

(** The text after the first [c], empty when there is none:
    [s.partition(c)[2]]. *)
Fixpoint after_first (c : ascii) (s : string) : string :=
  match s with
  | EmptyString => EmptyString
  | String x s' => if Ascii.eqb x c then s' else after_first c s'
  end.

(** The text up to the first line feed: the first line of a file. *)
Fixpoint first_line (s : string) : string :=
  match s with
  | EmptyString => EmptyString
  | String c s' => if Ascii.eqb c "010"%char then EmptyString
                   else String c (first_line s')
  end.

Definition is_digit (c : ascii) : bool :=
  match c with
  | "0" | "1" | "2" | "3" | "4" | "5" | "6" | "7" | "8" | "9" => true
  | _ => false
  end%char.

Definition digit_val (c : ascii) : nat :=
  match c with
  | "1" => 1 | "2" => 2 | "3" => 3 | "4" => 4 | "5" => 5
  | "6" => 6 | "7" => 7 | "8" => 8 | "9" => 9 | _ => 0
  end%char.

Fixpoint int_acc (acc : nat) (s : string) : nat :=
  match s with
  | EmptyString => acc
  | String c s' => int_acc (10 * acc + digit_val c) s'
  end.

Fixpoint lstrip (s : string) : string :=
  match s with
  | String " "%char s' => lstrip s'
  | _ => s
  end.

(** [int(s)] on a string of decimal digits, leading blanks skipped. *)
Definition int (s : string) : nat := int_acc 0 (lstrip s).

(** [str(n)], also [f"{n}"] *)
Definition of_nat (n : nat) : string :=
  NilZero.string_of_uint (Nat.to_uint n).

Definition digit_char (n : nat) : ascii :=
  match n with
  | 0 => "0" | 1 => "1" | 2 => "2" | 3 => "3" | 4 => "4"
  | 5 => "5" | 6 => "6" | 7 => "7" | 8 => "8" | _ => "9"
  end%char.

(** The [width] low decimal digits of [n]: [f"{n:02d}"] for [n < 100],
    [f"{n:04d}"] for [n < 10000].  This is how [strftime] writes the
    month and the day (two digits each) and how [str] writes the year
    of a [datetime] (four digits). *)
Fixpoint fixed (width n : nat) : string :=
  match width with
  | 0 => EmptyString
  | S w => fixed w (n / 10) +:+ String (digit_char (n mod 10)) EmptyString
  end.

End Str.

(** ** Exceptions and results *)

Inductive exn_class :=
  | ValueError | KeyError | OverflowError | OSError
  | RequestException    (* [requests.exceptions.RequestException] and subclasses *)
  | ConversionError.    (* whatever the converter raises *)

Record exn := Exn { exn_kind : exn_class; exn_msg : string }.

Inductive result (A : Type) :=
  | Ok (a : A)
  | Raise (e : exn).
Arguments Ok {A} a.
Arguments Raise {A} e.

(** ** Regular expressions, as the [re] module runs them

    A backtracking matcher: alternatives are tried from left to right,
    [+] is greedy, a group records the text it consumed, and [re.match]
    anchors the pattern at the start of the text only. *)

Module Re.

Inductive cclass :=
  | Digit                      (* \d    *)
  | Dot                        (* .     *)
  | Lit (c : ascii)            (* c     *)
  | Range (lo hi : ascii).     (* [l-h] *)

Definition cc_match (cc : cclass) (x : ascii) : bool :=
  match cc with
  | Digit => Str.is_digit x
  | Dot => negb (Ascii.eqb x "010"%char)
  | Lit c => Ascii.eqb x c
  | Range lo hi => (nat_of_ascii lo <=? nat_of_ascii x) && (nat_of_ascii x <=? nat_of_ascii hi)
  end.

Inductive regex :=
  | Chr (cc : cclass)
  | Eps
  | Cat (r1 r2 : regex)
  | Alt (r1 r2 : regex)
  | Plus (cc : cclass)         (* cc+, greedy *)
  | Group (r : regex).         (* ( r ) *)

(** A literal text. *)
Fixpoint lit (s : string) : regex :=
  match s with
  | EmptyString => Eps
  | String c s' => Cat (Chr (Lit c)) (lit s')
  end.

(** [r{n}] *)
Fixpoint rep (n : nat) (r : regex) : regex :=
  match n with
  | 0 => Eps
  | S n' => Cat r (rep n' r)
  end.

Fixpoint seq (rs : list regex) : regex :=
  match rs with
  | [] => Eps
  | r :: rs' => Cat r (seq rs')
  end.

Fixpoint alts (r : regex) (rs : list regex) : regex :=
  match rs with
  | [] => r
  | r' :: rs' => Alt r (alts r' rs')
  end.

(** A match: the groups in order, and the text left after the match. *)
Definition found : Type := list string * string.

(** The text consumed between [s] and its suffix [s']. *)
Definition consumed (s s' : string) : string :=
  Str.take (String.length s - String.length s') s.

(** Greedy repetition: take one more character when possible, and fall
    back to stopping here when the rest of the pattern then fails. *)
Fixpoint star (cc : cclass) (s : string) (k : string -> option found) : option found :=
  match s with
  | String x s' =>
      if cc_match cc x then
        match star cc s' k with
        | Some m => Some m
        | None => k s
        end
      else k s
  | EmptyString => k s
  end.

Fixpoint run (r : regex) (s : string) (caps : list string)
    (k : string -> list string -> option found) : option found :=
  match r with
  | Chr cc =>
      match s with
      | String x s' => if cc_match cc x then k s' caps else None
      | EmptyString => None
      end
  | Eps => k s caps
  | Cat r1 r2 => run r1 s caps (fun s' caps' => run r2 s' caps' k)
  | Alt r1 r2 =>
      match run r1 s caps k with
      | Some m => Some m
      | None => run r2 s caps k
      end
  | Plus cc =>
      match s with
      | String x s' => if cc_match cc x then star cc s' (fun t => k t caps) else None
      | EmptyString => None
      end
  | Group r' => run r' s caps (fun s' caps' => k s' (caps' ++ [consumed s s']))
  end.

(** [re.match(r, s)] *)
Definition re_match (r : regex) (s : string) : option found :=
  run r s [] (fun s' caps => Some (caps, s')).

End Re.

#[local] Arguments Re.consumed : simpl never.

(** ** Calendar dates

    A [datetime] at midnight: the scripts only use the date part. *)

Record datetime := Date { year : nat; month : nat; day : nat }.

Definition is_leap (y : nat) : bool :=
  (y mod 4 =? 0) && (negb (y mod 100 =? 0) || (y mod 400 =? 0)).

Definition days_in_month (y m : nat) : nat :=
  match m with
  | 2 => if is_leap y then 29 else 28
  | 4 | 6 | 9 | 11 => 30
  | _ => 31
  end.

(** [datetime.MAXYEAR] *)
Definition MAXYEAR : nat := 9999.

(** The dates [datetime] can hold: years 1 to [MAXYEAR]. *)
Definition valid_date (d : datetime) : bool :=
  (1 <=? year d) && (year d <=? MAXYEAR) &&
  (1 <=? month d) && (month d <=? 12) &&
  (1 <=? day d) && (day d <=? days_in_month (year d) (month d)).

(** [datetime(y, m, d)] *)
Definition datetime_new (y m d : nat) : result datetime :=
  if negb ((1 <=? y) && (y <=? MAXYEAR)) then
    Raise (Exn ValueError ("year " +:+ Str.of_nat y +:+ " is out of range"))
  else if negb ((1 <=? m) && (m <=? 12)) then
    Raise (Exn ValueError "month must be in 1..12")
  else if negb ((1 <=? d) && (d <=? days_in_month y m)) then
    Raise (Exn ValueError "day is out of range for month")
  else Ok (Date y m d).

(** [d1 <= d2] *)
Definition date_leb (d1 d2 : datetime) : bool :=
  (year d1 <? year d2) ||
  ((year d1 =? year d2) &&
   ((month d1 <? month d2) || ((month d1 =? month d2) && (day d1 <=? day d2)))).

(** [d.strftime('%Y%m%d')]: the year as it is, without padding (years
    1000 to 9999 take four digits, earlier years fewer), the month and
    the day on two digits each. *)
Definition strftime_Ymd (d : datetime) : string :=
  Str.of_nat (year d) +:+ Str.fixed 2 (month d) +:+ Str.fixed 2 (day d).

(** [d.strftime('%Y-%m-%d')] *)
Definition strftime_iso (d : datetime) : string :=
  Str.of_nat (year d) +:+ "-" +:+ Str.fixed 2 (month d) +:+ "-" +:+ Str.fixed 2 (day d).

(** The date a text [YYYYMMDD] names, read field by field. *)
Definition date_of_Ymd (s : string) : datetime :=
  Date (Str.int (Str.take 4 s))
       (Str.int (Str.take 2 (Str.drop 4 s)))
       (Str.int (Str.take 2 (Str.drop 6 s))).

(** The date a text [Y-MM-DD] names: the three numbers that its
    hyphens separate, [[int(x) for x in s.split("-")]]. *)
Definition date_of_iso (s : string) : datetime :=
  Date (Str.int (Str.before "-" s))
       (Str.int (Str.before "-" (Str.after_first "-" s)))
       (Str.int (Str.after_first "-" (Str.after_first "-" s))).

(** The pattern [strptime] compiles the format ['%Y%m%d'] to:
    [(\d\d\d\d)(1[0-2]|0[1-9]|[1-9])(3[01]|[12]\d|0[1-9]|[1-9]| [1-9])]. *)
Definition month_regex : Re.regex :=
  let c := fun x => Re.Chr (Re.Lit x) in
  let rg := fun a b => Re.Chr (Re.Range a b) in
  (Re.alts (Re.Cat (c "1") (rg "0" "2"))
           [Re.Cat (c "0") (rg "1" "9"); rg "1" "9"])%char.

Definition day_regex : Re.regex :=
  let c := fun x => Re.Chr (Re.Lit x) in
  let rg := fun a b => Re.Chr (Re.Range a b) in
  (Re.alts (Re.Cat (c "3") (rg "0" "1"))
           [Re.Cat (rg "1" "2") (Re.Chr Re.Digit); Re.Cat (c "0") (rg "1" "9");
            rg "1" "9"; Re.Cat (c " ") (rg "1" "9")])%char.

Definition Ymd_regex : Re.regex :=
  Re.seq [ Re.Group (Re.rep 4 (Re.Chr Re.Digit));
           Re.Group month_regex;
           Re.Group day_regex ].

(** [datetime.strptime(s, '%Y%m%d')]: match the pattern at the start of
    [s], refuse text left over, then build the date, which checks the
    ranges of its fields. *)
Definition strptime_Ymd (s : string) : result datetime :=
  match Re.re_match Ymd_regex s with
  | Some ([Y; m; d], EmptyString) => datetime_new (Str.int Y) (Str.int m) (Str.int d)
  | Some (_, rest) =>
      Raise (Exn ValueError ("unconverted data remains: " +:+ rest))
  | None =>
      Raise (Exn ValueError ("time data '" +:+ s +:+ "' does not match format '%Y%m%d'"))
  end.

(** ** Paths: [os.path] on POSIX *)

Module Path.

(** [os.path.basename(p)] *)
Definition basename (p : string) : string := Str.after_last "/"%char p.

(** [os.path.join(a, b)] *)
Definition join (a b : string) : string :=
  if Str.startswith "/" b then b
  else if (String.length a =? 0) || Str.ends_with_char "/"%char a then a +:+ b
  else a +:+ "/" +:+ b.

(** [os.path.splitext(p)[0]]: cut at the last dot of the last component,
    unless that component has only dots before it. *)
Fixpoint drop_ext (name : string) (seen_nondot : bool) : string :=
  match name with
  | EmptyString => EmptyString
  | String c rest =>
      if Ascii.eqb c "."%char && seen_nondot && negb (Str.mem "."%char rest)
      then EmptyString
      else String c (drop_ext rest (seen_nondot || negb (Ascii.eqb c "."%char)))
  end.

Definition splitext_root (p : string) : string :=
  let name := basename p in
  Str.take (String.length p - String.length name) p +:+ drop_ext name false.

End Path.

(** ** The filename codec *)

(** The dictionary [extract_paper_info] returns. *)
Record paper := Paper {
  p_date : string;
  p_number : nat;
  p_arxiv_id : string;
  p_filename : string;
  p_path : string
}.

(** [r'(\d{8})_paper(\d+)_(.+)\.pdf'] *)
Definition codec_pattern : Re.regex :=
  Re.seq
    [ Re.Group (Re.rep 8 (Re.Chr Re.Digit));
      Re.lit "_paper";
      Re.Group (Re.Plus Re.Digit);
      Re.lit "_";
      Re.Group (Re.Plus Re.Dot);
      Re.lit ".pdf" ].

(** [daily_paper_job.extract_paper_info] *)
Definition extract_paper_info (pdf_path : string) : result (option paper) :=
  let filename := Path.basename pdf_path in
  match Re.re_match codec_pattern filename with
  | Some ([date_str; paper_num; arxiv_id], _) =>
      match strptime_Ymd date_str with
      | Raise e => Raise e
      | Ok dt =>
          Ok (Some {| p_date := strftime_iso dt;
                      p_number := Str.int paper_num;
                      p_arxiv_id := arxiv_id;
                      p_filename := filename;
                      p_path := pdf_path |})
      end
  | _ => Ok None
  end.

(** The name [pull_papers.main] gives the [i]-th paper of date [dt]:
    [f"{dt.strftime('%Y%m%d')}_paper{i}_{arxiv_id}.pdf"]. *)
Definition encode_filename (dt : datetime) (i : nat) (arxiv_id : string) : string :=
  strftime_Ymd dt +:+ "_paper" +:+ Str.of_nat i +:+ "_" +:+ arxiv_id +:+ ".pdf".

(** ** The world the scripts act on

    Files are a finite map from path to content.  Everything else the
    scripts do to the outside is appended to a trace, in program order. *)

Inductive level := DEBUG | INFO | WARNING | ERROR.

Inductive event :=
  | Log (lvl : level) (msg : string)     (* [logger.<lvl>(msg)] *)
  | Print (msg : string)                 (* [print(msg)] *)
  | HttpGet (url : string)               (* [requests.get(url, ...)] *)
  | Sleep (seconds : nat)                (* [time.sleep(seconds)] *)
  | Makedirs (path : string).            (* [os.makedirs(path, exist_ok=True)] *)

Record world := World {
  files : gmap string string;
  trace : list event
}.

(** A computation: it reads and changes the world, and returns or raises. *)
Definition M (A : Type) : Type := world -> result A * world.

Definition ret {A} (a : A) : M A := fun w => (Ok a, w).

Definition raise {A} (e : exn) : M A := fun w => (Raise e, w).

Definition bind {A B} (m : M A) (f : A -> M B) : M B :=
  fun w =>
    match m w with
    | (Ok a, w') => f a w'
    | (Raise e, w') => (Raise e, w')
    end.

(** [try: m except Exception as e: h e] *)
Definition try_except {A} (m : M A) (h : exn -> M A) : M A :=
  fun w =>
    match m w with
    | (Ok a, w') => (Ok a, w')
    | (Raise e, w') => h e w'
    end.

Declare Scope M_scope.
Delimit Scope M_scope with M.
Notation "x <- m ;; k" := (bind m (fun x => k))
  (at level 100, m at next level, right associativity) : M_scope.
Notation "m ;; k" := (bind m (fun _ => k))
  (at level 100, right associativity) : M_scope.
Local Open Scope M_scope.

Definition emit (ev : event) : M unit :=
  fun w => (Ok tt, {| files := files w; trace := trace w ++ [ev] |}).

Definition log (lvl : level) (msg : string) : M unit := emit (Log lvl msg).
Definition print (msg : string) : M unit := emit (Print msg).
Definition sleep (seconds : nat) : M unit := emit (Sleep seconds).

(** [os.path.exists(path)] *)
Definition path_exists (path : string) : M bool :=
  fun w => (Ok (bool_decide (is_Some (files w !! path))), w).

(** [open(path, "wb")] / [open(path, "w")]: the file is created or
    emptied.  The destination is writable (see the head of the file):
    neither this nor [write] raises. *)
Definition open_truncate (path : string) : M unit :=
  fun w => (Ok tt, {| files := <[path := ""]> (files w); trace := trace w |}).

(** [f.write(data)] on the file open at [path] *)
Definition write (path data : string) : M unit :=
  fun w =>
    (Ok tt, {| files := <[path := default "" (files w !! path) +:+ data]> (files w);
               trace := trace w |}).

Fixpoint for_each {A} (l : list A) (body : A -> M unit) : M unit :=
  match l with
  | [] => ret tt
  | x :: l' => body x ;; for_each l' body
  end.

Definition nl : string := String "010"%char "".

(** [str(dt)] for a [datetime] at midnight: [dt.isoformat(sep=" ")],
    which writes the year on four digits whatever the year. *)
Definition str_datetime (dt : datetime) : string :=
  Str.fixed 4 (year dt) +:+ "-" +:+ Str.fixed 2 (month dt) +:+ "-" +:+
  Str.fixed 2 (day dt) +:+ " 00:00:00".

(** [str(l)] for a list of strings without quotes or backslashes *)
Definition str_list (l : list string) : string :=
  "[" +:+ String.concat ", " ((fun s => "'" +:+ s +:+ "'") <$> l) +:+ "]".

(** ** [pull_papers.py] *)

(** What [requests.get] hands back when it returns. *)
Record response := Response {
  status_code : nat;
  reason : string;
  text : string;                  (* the body, for [resp.text] *)
  chunks : list string;           (* the body, as [resp.iter_content] yields it *)
  stream_error : option exn       (* raised by [iter_content] after the chunks *)
}.

Inductive http_result :=
  | Responded (resp : response)
  | Failed (e : exn).            (* connection error, timeout, ... *)

(** [f"https://huggingface.co/papers/date/{date.strftime('%Y-%m-%d')}"] *)
Definition listing_url (date : datetime) : string :=
  "https://huggingface.co/papers/date/" +:+ strftime_iso date.

(** [f"https://arxiv.org/pdf/{arxiv_id}.pdf"] *)
Definition pdf_url (arxiv_id : string) : string :=
  "https://arxiv.org/pdf/" +:+ arxiv_id +:+ ".pdf".

Section PullPapers.

(** The network: the outcome of a request may depend on everything that
    happened before it. *)
Variable http_get : list event -> string -> http_result.

(** [BeautifulSoup(text, "html.parser").select("div.w-full h3 a")]: the
    matching anchors in document order, each with its [href] attribute
    when it has one. *)
Variable select_anchors : string -> list (option string).

(** [requests.get(url, headers=HEADERS)] *)
Definition requests_get (url : string) : M response :=
  fun w =>
    let w' := {| files := files w; trace := trace w ++ [HttpGet url] |} in
    match http_get (trace w) url with
    | Responded resp => (Ok resp, w')
    | Failed e => (Raise e, w')
    end.

(** [resp.raise_for_status()] *)
Definition raise_for_status (url : string) (resp : response) : M unit :=
  let s := status_code resp in
  if (400 <=? s) && (s <? 500) then
    raise (Exn RequestException
             (Str.of_nat s +:+ " Client Error: " +:+ reason resp +:+ " for url: " +:+ url))
  else if (500 <=? s) && (s <? 600) then
    raise (Exn RequestException
             (Str.of_nat s +:+ " Server Error: " +:+ reason resp +:+ " for url: " +:+ url))
  else ret tt.

(** [[a["href"].split("/")[-1] for a in anchors]] *)
Fixpoint hrefs_last_segment (anchors : list (option string)) : M (list string) :=
  match anchors with
  | [] => ret []
  | Some href :: rest =>
      ids <- hrefs_last_segment rest ;;
      ret (Str.after_last "/" href :: ids)
  | None :: _ => raise (Exn KeyError "'href'")
  end.

Definition get_arxiv_ids (date : datetime) : M (list string) :=
  let url := listing_url date in
  log INFO ("Fetching papers from " +:+ url) ;;
  try_except
    (resp <- requests_get url ;;
     raise_for_status url resp ;;
     let anchors := take 5 (select_anchors (text resp)) in
     arxiv_ids <- hrefs_last_segment anchors ;;
     log INFO ("Found " +:+ Str.of_nat (length arxiv_ids) +:+ " papers for "
               +:+ strftime_iso date) ;;
     log DEBUG ("ArXiv IDs: " +:+ str_list arxiv_ids) ;;
     ret arxiv_ids)
    (fun e =>
       match exn_kind e with
       | RequestException =>
           log ERROR ("Request failed for " +:+ url +:+ ": " +:+ exn_msg e) ;; raise e
       | _ =>
           log ERROR ("Error parsing papers from " +:+ url +:+ ": " +:+ exn_msg e) ;; raise e
       end).

Definition download_arxiv_pdf (arxiv_id dest_folder filename : string) : M unit :=
  let filepath := Path.join dest_folder filename in
  present <- path_exists filepath ;;
  if present then
    log INFO ("File already exists: " +:+ filepath +:+ ", skipping download") ;;
    print ("    ↳ Already downloaded: " +:+ filename)
  else
    let pdf_url := pdf_url arxiv_id in
    log INFO ("Downloading " +:+ pdf_url) ;;
    try_except
      (resp <- requests_get pdf_url ;;
       if status_code resp =? 200 then
         open_truncate filepath ;;
         for_each (chunks resp) (write filepath) ;;
         match stream_error resp with Some e => raise e | None => ret tt end ;;
         log INFO ("Successfully downloaded: " +:+ pdf_url +:+ " to " +:+ filepath) ;;
         print ("    ↳ Downloaded: " +:+ pdf_url)
       else
         log WARNING ("PDF not found for " +:+ arxiv_id +:+ " (status "
                      +:+ Str.of_nat (status_code resp) +:+ ")") ;;
         print ("    ❌ PDF not found for " +:+ arxiv_id +:+ " (status "
                +:+ Str.of_nat (status_code resp) +:+ ")"))
      (fun e =>
         log ERROR ("Error downloading " +:+ pdf_url +:+ ": " +:+ exn_msg e) ;; raise e).

(** [current += timedelta(days=1)]; no date follows the last day of
    [MAXYEAR]. *)
Definition next_day (d : datetime) : option datetime :=
  if day d <? days_in_month (year d) (month d) then
    Some (Date (year d) (month d) (S (day d)))
  else if month d <? 12 then Some (Date (year d) (S (month d)) 1)
  else if year d <? MAXYEAR then Some (Date (S (year d)) 1 1)
  else None.

(** The generator [daterange]: the dates it yields and whether it ends
    by raising [OverflowError] instead of stopping. *)
Fixpoint daterange_from (fuel : nat) (current end_date : datetime)
    : list datetime * bool :=
  match fuel with
  | 0 => ([], false)
  | S fuel' =>
      if date_leb current end_date then
        match next_day current with
        | Some next =>
            let '(ds, ovf) := daterange_from fuel' next end_date in
            (current :: ds, ovf)
        | None => ([current], true)
        end
      else ([], false)
  end.

(** More turns than the loop of [daterange] can take: fewer than 372
    dates begin in any one year. *)
Definition daterange (start_date end_date : datetime) : list datetime * bool :=
  daterange_from (372 * (year end_date - year start_date) + 373) start_date end_date.

(** One turn of the inner loop of [main]: the [i]-th identifier of [n]. *)
Definition download_one (dt : datetime) (out_dir : string) (n i : nat)
    (arxiv_id : string) : M unit :=
  let filename := encode_filename dt i arxiv_id in
  try_except
    (download_arxiv_pdf arxiv_id out_dir filename ;;
     if i <? n then
       log DEBUG "Sleeping for 1 second before next download" ;;
       sleep 1
     else ret tt)
    (fun e =>
       let error_msg := "Error downloading " +:+ arxiv_id +:+ ": " +:+ exn_msg e in
       log ERROR error_msg ;;
       print ("    ❌ " +:+ error_msg)).

(** [for i, arxiv_id in enumerate(arxiv_ids, 1): ...], from index [i] on *)
Fixpoint download_all (dt : datetime) (out_dir : string) (n i : nat)
    (arxiv_ids : list string) : M unit :=
  match arxiv_ids with
  | [] => ret tt
  | arxiv_id :: rest =>
      download_one dt out_dir n i arxiv_id ;;
      download_all dt out_dir n (S i) rest
  end.

(** The body of the outer loop of [main]. *)
Definition process_date (out_dir : string) (dt : datetime) : M unit :=
  log INFO ("Processing date: " +:+ strftime_iso dt) ;;
  print (nl +:+ "=== " +:+ strftime_iso dt +:+ " ===") ;;
  listing <-
    try_except
      (arxiv_ids <- get_arxiv_ids dt ;; ret (Some arxiv_ids))
      (fun e =>
         let error_msg := "Failed to get paper links for " +:+ str_datetime dt
                          +:+ ": " +:+ exn_msg e in
         log ERROR error_msg ;;
         print ("❌ " +:+ error_msg) ;;
         ret None) ;;
  match listing with
  | Some arxiv_ids => download_all dt out_dir (length arxiv_ids) 1 arxiv_ids
  | None => ret tt                                           (* [continue] *)
  end.

(** The statements of [main] before its loop.  [os.makedirs] is
    recorded as an event; the destination being writable, it does not
    raise. *)
Definition main_prelude (start_date end_date : datetime) (out_dir : string) : M unit :=
  log INFO ("Starting paper download from " +:+ strftime_iso start_date
            +:+ " to " +:+ strftime_iso end_date) ;;
  log INFO ("Output directory: " +:+ out_dir) ;;
  emit (Makedirs out_dir) ;;
  log DEBUG ("Ensured output directory exists: " +:+ out_dir).

Definition main (start_date end_date : datetime) (out_dir : string) : M unit :=
  main_prelude start_date end_date out_dir ;;
  let '(dates, overflow) := daterange start_date end_date in
  for_each dates (process_date out_dir) ;;
  if overflow then raise (Exn OverflowError "date value out of range") else ret tt.

End PullPapers.

(** ** [daily_paper_job.py]: the summary generator *)

Definition of_result {A} (r : result A) : M A := fun w => (r, w).

Section DailyPaperJob.

(** [markitdown.convert(path).text_content]: the text extracted from the
    document at [path], or the exception the converter raises. *)
Variable markitdown_convert : string -> result string.

(** [os.listdir(path)]: the names in a directory, in the order the
    system lists them. *)
Variable listdir : string -> list string.

(** Modelled from the spec: the range test of the part of
    [generate_markdown] that the source elides.  The spec: it discards
    the files "whose decoded date falls outside the range". *)
Definition in_range (start_date end_date : datetime) (p : paper) : bool :=
  date_leb start_date (date_of_iso (p_date p)) &&
  date_leb (date_of_iso (p_date p)) end_date.

(** Modelled from the spec: the start of [generate_markdown], which the
    source elides ("... existing code ...") and which builds [papers]
    from the names in the directory.  The spec: it "enumerates files in
    the source directory, decodes each via Filename Codec, discards
    non-matching files and those whose decoded date falls outside the
    range".  An exception of the codec is not caught here: the spec
    names no handler for it. *)
Fixpoint collect_papers (papers_dir : string) (start_date end_date : datetime)
    (names : list string) : result (list paper) :=
  match names with
  | [] => Ok []
  | name :: rest =>
      match extract_paper_info (Path.join papers_dir name) with
      | Raise e => Raise e
      | Ok info =>
          match collect_papers papers_dir start_date end_date rest with
          | Raise e => Raise e
          | Ok papers =>
              match info with
              | Some p => if in_range start_date end_date p
                          then Ok (p :: papers) else Ok papers
              | None => Ok papers
              end
          end
      end
  end.

Definition arxiv_url (p : paper) : string :=
  "https://arxiv.org/abs/" +:+ p_arxiv_id p.

Definition huggingface_url (p : paper) : string :=
  "https://huggingface.co/papers/" +:+ p_arxiv_id p.

Definition md_path (markdown_dir : string) (p : paper) : string :=
  Path.join markdown_dir (Path.splitext_root (p_filename p) +:+ ".md").

(** The text written for a paper, given what the converter extracted. *)
Definition md_content (p : paper) (paper_summary : string) : string :=
  "# Paper: " +:+ p_arxiv_id p +:+ nl +:+ nl +:+
  "- **Date**: " +:+ p_date p +:+ nl +:+
  "- **Paper Number**: " +:+ Str.of_nat (p_number p) +:+ nl +:+
  "- **ArXiv ID**: [" +:+ p_arxiv_id p +:+ "](" +:+ arxiv_url p +:+ ")" +:+ nl +:+
  "- **HuggingFace Link**: [View on HuggingFace](" +:+ huggingface_url p +:+ ")"
    +:+ nl +:+ nl +:+
  (if String.eqb paper_summary "" then
     "## Summary" +:+ nl +:+ nl +:+ "Failed to extract paper as markdown." +:+ nl
   else
     "## Paper" +:+ nl +:+ nl +:+ paper_summary +:+ nl).

(** One turn of the loop of [generate_markdown]; [processed_files] is
    the list built so far. *)
Definition process_paper (markdown_dir : string) (processed_files : list string)
    (p : paper) : M (list string) :=
  try_except
    (log INFO ("Processing PDF with MarkItDown: " +:+ p_path p) ;;
     paper_summary <- of_result (markitdown_convert (p_path p)) ;;
     open_truncate (md_path markdown_dir p) ;;
     write (md_path markdown_dir p) (md_content p paper_summary) ;;
     log INFO ("Created markdown for paper: " +:+ md_path markdown_dir p) ;;
     ret (processed_files ++ [md_path markdown_dir p]))
    (fun e =>
       log ERROR ("Error processing PDF " +:+ p_path p +:+ ": " +:+ exn_msg e) ;;
       ret processed_files).

Fixpoint process_papers (markdown_dir : string) (processed_files : list string)
    (papers : list paper) : M (list string) :=
  match papers with
  | [] => ret processed_files
  | p :: rest =>
      processed_files' <- process_paper markdown_dir processed_files p ;;
      process_papers markdown_dir processed_files' rest
  end.

Definition generate_markdown (papers_dir markdown_dir : string)
    (start_date end_date : datetime) : M (list string) :=
  papers <- of_result (collect_papers papers_dir start_date end_date (listdir papers_dir)) ;;
  processed_files <- process_papers markdown_dir [] papers ;;
  log INFO ("Processed " +:+ Str.of_nat (length processed_files)
            +:+ " papers into markdown files") ;;
  ret processed_files.

End DailyPaperJob.

(** ** Vocabulary of the statements below *)

(** The shape [re.match] finds at the start of a name: eight digits, the
    paper number, a non-empty identifier on one line, [.pdf], and then
    whatever is left of the name. *)
Definition codec_shape (D N id rest name : string) : Prop :=
  name = D +:+ "_paper" +:+ N +:+ "_" +:+ id +:+ ".pdf" +:+ rest /\
  String.length D = 8 /\ Str.all Str.is_digit D = true /\
  N <> "" /\ Str.all Str.is_digit N = true /\
  id <> "" /\ Str.mem "010" id = false.

(** The eight digits that name a date in [YYYYMMDD] form, the year
    padded to four digits: the text [strptime] reads the date back from. *)
Definition Ymd_digits (d : datetime) : string :=
  Str.fixed 4 (year d) +:+ Str.fixed 2 (month d) +:+ Str.fixed 2 (day d).

(** The groups [c0] found before a match are kept in front of its own. *)
Definition lift (c0 : list string) (o : option Re.found) : option Re.found :=
  match o with
  | Some (c, rest) => Some (c0 ++ c, rest)
  | None => None
  end.

Definition digits : list ascii :=
  ["0"; "1"; "2"; "3"; "4"; "5"; "6"; "7"; "8"; "9"]%char.

Definition digits2 : list string :=
  a ← digits; b ← digits; [String a (String b "")].

Definition digits4 : list string :=
  a ← digits2; b ← digits2; [a +:+ b].

(** What [strptime] finds in the month and day part of a text. *)
Definition md_found (M4 : string) : option Re.found :=
  Re.run (Re.seq [Re.Group month_regex; Re.Group day_regex]) M4 []
    (fun s' caps => Some (caps, s')).

Definition md_check (M4 : string) : bool :=
  match md_found M4 with
  | Some ([m; d], "") =>
      String.eqb (m +:+ d) M4 &&
      String.eqb (Str.fixed 2 (Str.int m)) m && String.eqb (Str.fixed 2 (Str.int d)) d &&
      (1 <=? Str.int m) && (Str.int m <=? 12) && (1 <=? Str.int d)
  | Some ([_; _], _) => true
  | Some _ => false
  | None => true
  end.

Definition md_check_valid (md : nat * nat) : bool :=
  match md_found (Str.fixed 2 md.1 +:+ Str.fixed 2 md.2) with
  | Some ([m; d], "") =>
      String.eqb m (Str.fixed 2 md.1) && String.eqb d (Str.fixed 2 md.2)
  | _ => false
  end.

(** A measure of dates that grows with the calendar. *)
Definition day_key (d : datetime) : nat := 372 * year d + 31 * month d + day d.

(** The world a computation leaves. *)
Definition exec {A} (m : M A) (w : world) : world := (m w).2.

(** [emits P m]: whatever the world, [m] only appends events, all in [P]. *)
Definition emits {A} (P : event -> Prop) (m : M A) : Prop :=
  forall w, exists evs, trace (m w).2 = trace w ++ evs /\ Forall P evs.

(** The URLs requested in a trace, in order. *)
Definition requests (tr : list event) : list string :=
  tr ≫= (fun ev => match ev with HttpGet url => [url] | _ => [] end).

(** The number of seconds slept in a trace. *)
Definition slept (tr : list event) : nat :=
  sum_list_with (fun ev => match ev with Sleep n => n | _ => 0 end) tr.

(** [w'] comes after [w]: its trace continues the trace of [w]. *)
Definition after (w w' : world) : Prop := trace w `prefix_of` trace w'.

(** The world once [process_date] has announced the date [dt]. *)
Definition announced (dt : datetime) (w : world) : world :=
  exec (log INFO ("Processing date: " +:+ strftime_iso dt) ;;
        print (nl +:+ "=== " +:+ strftime_iso dt +:+ " ===")) w.

(** The loop of the generator [daterange], as a relation: from [current]
    it yields the dates [ds], and ends by stopping ([false]) or by the
    overflow of [current += timedelta(days=1)] ([true]). *)
Inductive yields (end_date : datetime) : datetime -> list datetime -> bool -> Prop :=
  | yields_stop current :
      date_leb current end_date = false ->
      yields end_date current [] false
  | yields_overflow current :
      date_leb current end_date = true ->
      next_day current = None ->
      yields end_date current [current] true
  | yields_step current next ds overflow :
      date_leb current end_date = true ->
      next_day current = Some next ->
      yields end_date next ds overflow ->
      yields end_date current (current :: ds) overflow.

(** ** Sample environments *)

Definition w_empty : world := {| files := ∅; trace := [] |}.

Definition sample_page : response :=
  {| status_code := 200; reason := "OK"; text := "<html>"; chunks := [];
     stream_error := None |}.

Definition sample_pdf : response :=
  {| status_code := 200; reason := "OK"; text := "";
     chunks := ["%PDF-"; "1.7"]; stream_error := None |}.

Definition sample_missing : response :=
  {| status_code := 404; reason := "Not Found"; text := ""; chunks := [];
     stream_error := None |}.

(** A listing host that answers and a document host that cannot be reached. *)
Definition http_docs_down (tr : list event) (url : string) : http_result :=
  if Str.startswith "https://huggingface.co/" url then Responded sample_page
  else Failed (Exn RequestException "connection refused").

(** Both hosts answer; every document is there. *)
Definition http_up (tr : list event) (url : string) : http_result :=
  if Str.startswith "https://huggingface.co/" url then Responded sample_page
  else Responded sample_pdf.

(** The document host answers 404 to everything. *)
Definition http_missing (tr : list event) (url : string) : http_result :=
  if Str.startswith "https://huggingface.co/" url then Responded sample_page
  else Responded sample_missing.

(** The listing host is down on 14 June 2024 only; documents are there. *)
Definition http_listing_down_once (tr : list event) (url : string) : http_result :=
  if String.eqb url (listing_url (Date 2024 6 14))
  then Failed (Exn RequestException "connection refused")
  else http_up tr url.

Definition two_anchors (text : string) : list (option string) :=
  [Some "/papers/2401.00001"; Some "/papers/2401.00002"].

Definition eight_anchors (text : string) : list (option string) :=
  Some <$> ["/papers/2401.00001"; "/papers/2401.00002"; "/papers/2401.00003";
            "/papers/2401.00004"; "/papers/2401.00005"; "/papers/2401.00006";
            "/papers/2401.00007"; "/papers/2401.00008"].

(** The paper of the end-to-end example, as decoded from a file of the
    directory [papers_dir]. *)
Definition sample_name : string := "20240615_paper1_2401.00001.pdf".

Definition sample_paper (papers_dir : string) : paper :=
  {| p_date := "2024-06-15";
     p_number := 1;
     p_arxiv_id := "2401.00001";
     p_filename := sample_name;
     p_path := Path.join papers_dir sample_name |}.

(** A converter that extracts the same text from every document, one
    that always fails, and a directory of two papers six months apart. *)
Definition convert_ok (path : string) : result string := Ok "Abstract.".

Definition convert_fails (path : string) : result string :=
  Raise (Exn ConversionError "not a PDF").

Definition two_papers (path : string) : list string :=
  [sample_name; "20240101_paper1_2312.00001.pdf"].

(** A world where the first paper of 15 June 2024 is already on disk. *)
Definition w_downloaded : world :=
  {| files := {[ "papers/20240615_paper1_2401.00001.pdf" := "%PDF-1.7" ]}; trace := [] |}.

(** ** Further definitions: the daily window, the command line and more
    sample environments *)

(** [today - timedelta(days=1)], as [daily_paper_job.main] computes
    yesterday; no date precedes the first day of year 1. *)
Definition prev_day (d : datetime) : option datetime :=
  if 1 <? day d then Some (Date (year d) (month d) (day d - 1))
  else if 1 <? month d then
    Some (Date (year d) (month d - 1) (days_in_month (year d) (month d - 1)))
  else if 1 <? year d then Some (Date (year d - 1) 12 31)
  else None.

(** A document whose transfer breaks after the first chunk, and a
    document host that serves it. *)
Definition sample_broken : response :=
  {| status_code := 200; reason := "OK"; text := "";
     chunks := ["%PDF-"];
     stream_error := Some (Exn RequestException "connection broken") |}.

Definition http_broken (tr : list event) (url : string) : http_result :=
  if Str.startswith "https://huggingface.co/" url then Responded sample_page
  else Responded sample_broken.

(** A host that answers 404 to everything, and a page whose second
    anchor has no [href]. *)
Definition http_gone (tr : list event) (url : string) : http_result :=
  Responded sample_missing.


(** [w'] keeps every file of [w] with its content, and every file it
    has more stands at a path that [P] allows. *)
Definition extends_at (P : string -> Prop) (w w' : world) : Prop :=
  (forall p c, files w !! p = Some c -> files w' !! p = Some c) /\
  (forall p, files w !! p = None -> is_Some (files w' !! p) -> P p).

(** The pattern [strptime] compiles the format ['%Y-%m-%d'] to:
    [(\d\d\d\d)-(1[0-2]|0[1-9]|[1-9])-(3[01]|[12]\d|0[1-9]|[1-9]| [1-9])]. *)
Definition iso_regex : Re.regex :=
  Re.seq [ Re.Group (Re.rep 4 (Re.Chr Re.Digit));
           Re.lit "-";
           Re.Group month_regex;
           Re.lit "-";
           Re.Group day_regex ].

(** [datetime.strptime(s, "%Y-%m-%d")], as [pull_papers.py] reads its
    [--start] and [--end] arguments. *)
Definition strptime_iso (s : string) : result datetime :=
  match Re.re_match iso_regex s with
  | Some ([Y; m; d], EmptyString) => datetime_new (Str.int Y) (Str.int m) (Str.int d)
  | Some (_, rest) =>
      Raise (Exn ValueError ("unconverted data remains: " +:+ rest))
  | None =>
      Raise (Exn ValueError ("time data '" +:+ s +:+ "' does not match format '%Y-%m-%d'"))
  end.

(** What [strptime] finds after the year of a text in ISO form. *)
Definition iso_md_found (tail : string) : option Re.found :=
  Re.run (Re.seq [Re.lit "-"; Re.Group month_regex; Re.lit "-"; Re.Group day_regex]) tail []
    (fun s' caps => Some (caps, s')).

Definition iso_check_valid (md : nat * nat) : bool :=
  match iso_md_found ("-" +:+ Str.fixed 2 md.1 +:+ "-" +:+ Str.fixed 2 md.2) with
  | Some ([m; d], "") =>
      String.eqb m (Str.fixed 2 md.1) && String.eqb d (Str.fixed 2 md.2)
  | _ => false
  end.

(** A second paper, of an earlier date, and a converter whose text
    tells which document it was given. *)
Definition earlier_paper (papers_dir : string) : paper :=
  {| p_date := "2024-01-01";
     p_number := 1;
     p_arxiv_id := "2312.00001";
     p_filename := "20240101_paper1_2312.00001.pdf";
     p_path := Path.join papers_dir "20240101_paper1_2312.00001.pdf" |}.

Definition convert_echo (path : string) : result string := Ok ("Text of " +:+ path).

(** ** Facts about strings *)

Section StrFacts.

Lemma app_assoc_s (a b c : string) : (a +:+ b) +:+ c = a +:+ (b +:+ c).
Proof. induction a as [|x a IH]; simpl; [done | by rewrite IH]. Qed.

Lemma app_nil_r_s (a : string) : a +:+ "" = a.
Proof. induction a as [|x a IH]; simpl; [done | by rewrite IH]. Qed.

Lemma length_app_s (a b : string) :
  String.length (a +:+ b) = String.length a + String.length b.
Proof. induction a as [|x a IH]; simpl; [done | by rewrite IH]. Qed.

Lemma take_app_s (a b : string) : Str.take (String.length a) (a +:+ b) = a.
Proof. induction a as [|x a IH]; simpl; [by destruct b | by rewrite IH]. Qed.

Lemma consumed_app (a b : string) : Re.consumed (a +:+ b) b = a.
Proof.
  unfold Re.consumed. rewrite length_app_s.
  replace (String.length a + String.length b - String.length b)
    with (String.length a) by lia.
  apply take_app_s.
Qed.

Lemma all_app_s p (a b : string) :
  Str.all p (a +:+ b) = Str.all p a && Str.all p b.
Proof. induction a as [|x a IH]; simpl; [done | by rewrite IH, andb_assoc]. Qed.

Lemma mem_app_s c (a b : string) :
  Str.mem c (a +:+ b) = Str.mem c a || Str.mem c b.
Proof. induction a as [|x a IH]; simpl; [done | by rewrite IH, orb_assoc]. Qed.

Lemma app_inv_head_s (a b c : string) : a +:+ b = a +:+ c -> b = c.
Proof. induction a as [|x a IH]; simpl; [done | intros [= H]; auto]. Qed.

End StrFacts.

(** ** Facts about the matcher *)

Section ReFacts.
Import Re.

(** A repetition that can go on takes the match found further on. *)
Lemma star_prefix_some cc (u v : string) k m :
  Str.all (cc_match cc) u = true ->
  star cc v k = Some m ->
  star cc (u +:+ v) k = Some m.
Proof.
  intros Hu Hv. induction u as [|x u IH]; simpl in *; [done|].
  apply andb_prop in Hu as [Hx Hu]. rewrite Hx, (IH Hu). done.
Qed.

(** A match of a repetition stops somewhere after a run of the class. *)
Lemma star_some_inv cc (s : string) k m :
  star cc s k = Some m ->
  exists u v, s = u +:+ v /\ Str.all (cc_match cc) u = true /\ k v = Some m.
Proof.
  revert m. induction s as [|x s IH]; simpl; intros m H.
  - exists "", "". done.
  - destruct (cc_match cc x) eqn:Hx.
    + destruct (star cc s k) as [m'|] eqn:Hs.
      * destruct (IH _ eq_refl) as (u & v & -> & Hu & Hk).
        exists (String x u), v. simpl. rewrite Hx, Hu. by simplify_eq.
      * exists "", (String x s). done.
    + exists "", (String x s). done.
Qed.

Lemma run_rep_class cc n (u s : string) caps k :
  String.length u = n ->
  Str.all (cc_match cc) u = true ->
  run (rep n (Chr cc)) (u +:+ s) caps k = k s caps.
Proof.
  revert u. induction n as [|n IH]; intros [|x u] Hl Hu; simplify_eq/=; [done|].
  apply andb_prop in Hu as [-> Hu]. by apply IH.
Qed.

Lemma run_rep_class_inv cc n (s : string) caps k m :
  run (rep n (Chr cc)) s caps k = Some m ->
  exists u v, s = u +:+ v /\ String.length u = n /\
              Str.all (cc_match cc) u = true /\ k v caps = Some m.
Proof.
  revert s. induction n as [|n IH]; simpl; intros s H.
  - exists "", s. done.
  - destruct s as [|x s]; [done|]. destruct (cc_match cc x) eqn:Hx; [|done].
    destruct (IH _ H) as (u & v & -> & Hl & Hu & Hk).
    exists (String x u), v. simpl. rewrite Hx, Hu, Hl. done.
Qed.

Lemma run_lit (p s : string) caps k :
  run (lit p) (p +:+ s) caps k = k s caps.
Proof.
  induction p as [|x p IH]; simpl; [done|]. by rewrite Ascii.eqb_refl.
Qed.

Lemma run_lit_inv (p s : string) caps k m :
  run (lit p) s caps k = Some m ->
  exists v, s = p +:+ v /\ k v caps = Some m.
Proof.
  revert s. induction p as [|x p IH]; simpl; intros s H.
  - by exists s.
  - destruct s as [|y s]; [done|]. destruct (Ascii.eqb y x) eqn:Hxy; [|done].
    apply Ascii.eqb_eq in Hxy as ->.
    destruct (IH _ H) as (v & -> & Hk). by exists v.
Qed.

Lemma run_Cat r1 r2 s caps k :
  run (Cat r1 r2) s caps k = run r1 s caps (fun s' caps' => run r2 s' caps' k).
Proof. done. Qed.

Lemma run_Group r s caps k :
  run (Group r) s caps k =
  run r s caps (fun s' caps' => k s' (caps' ++ [consumed s s'])).
Proof. done. Qed.

Lemma run_Eps s caps k : run Eps s caps k = k s caps.
Proof. done. Qed.

Lemma run_plus (cc : cclass) (u v : string) caps k m :
  u <> "" ->
  Str.all (cc_match cc) u = true ->
  star cc v (fun t => k t caps) = Some m ->
  run (Plus cc) (u +:+ v) caps k = Some m.
Proof.
  intros Hne Hu Hv. destruct u as [|x u]; [done|]. simpl in *.
  apply andb_prop in Hu as [-> Hu]. by apply star_prefix_some.
Qed.

Lemma run_plus_inv (cc : cclass) (s : string) caps k m :
  run (Plus cc) s caps k = Some m ->
  exists u v, s = u +:+ v /\ u <> "" /\ Str.all (cc_match cc) u = true /\
              k v caps = Some m.
Proof.
  simpl. destruct s as [|x s]; [done|]. destruct (cc_match cc x) eqn:Hx; [|done].
  intros H. apply star_some_inv in H as (u & v & -> & Hu & Hk).
  exists (String x u), v. simpl. by rewrite Hx, Hu.
Qed.

End ReFacts.


Lemma all_dot_mem (s : string) :
  Str.all (Re.cc_match Re.Dot) s = negb (Str.mem "010" s).
Proof.
  induction s as [|x s IH]; simpl; [done|]. rewrite IH, negb_orb.
  by rewrite (Ascii.eqb_sym x).
Qed.

Lemma codec_match_sound (name : string) caps rest :
  Re.re_match codec_pattern name = Some (caps, rest) ->
  exists D N id, caps = [D; N; id] /\ codec_shape D N id rest name.
Proof.
  unfold Re.re_match, codec_pattern. cbn [Re.seq].
  rewrite run_Cat, run_Group. intros H.
  apply run_rep_class_inv in H as (D & s1 & -> & HDl & HD & H).
  rewrite run_Cat in H.
  apply (run_lit_inv "_paper") in H as (s2 & -> & H).
  rewrite run_Cat, run_Group in H.
  apply run_plus_inv in H as (N & s3 & -> & HN0 & HN & H).
  rewrite run_Cat in H.
  apply (run_lit_inv "_") in H as (s4 & -> & H).
  rewrite run_Cat, run_Group in H.
  apply run_plus_inv in H as (id & s5 & -> & Hid0 & Hid & H).
  rewrite run_Cat in H.
  apply (run_lit_inv ".pdf") in H as (s6 & -> & H).
  rewrite run_Eps in H. 
  rewrite !consumed_app in H. injection H as <- <-.
  exists D, N, id. split; [done|]. unfold codec_shape.
  rewrite all_dot_mem in Hid. apply negb_true_iff in Hid.
  repeat split; try done.
Qed.

Lemma codec_match_complete (D N id : string) :
  String.length D = 8 -> Str.all Str.is_digit D = true ->
  N <> "" -> Str.all Str.is_digit N = true ->
  id <> "" -> Str.mem "010" id = false ->
  Re.re_match codec_pattern (D +:+ "_paper" +:+ N +:+ "_" +:+ id +:+ ".pdf")
  = Some ([D; N; id], "").
Proof.
  intros HDl HD HN0 HN Hid0 Hid.
  unfold Re.re_match, codec_pattern. cbn [Re.seq].
  rewrite run_Cat, run_Group, run_rep_class by done.
  rewrite run_Cat, (run_lit "_paper"), run_Cat, run_Group.
  apply run_plus; [done..|].
  rewrite !consumed_app.
  change (Re.star Re.Digit ("_" +:+ id +:+ ".pdf") ?k) with (k ("_" +:+ id +:+ ".pdf")).
  cbv beta. rewrite run_Cat, (run_lit "_"), run_Cat, run_Group.
  apply run_plus; [done| by rewrite all_dot_mem, Hid |].
  rewrite consumed_app. simpl. by rewrite (consumed_app id ".pdf").
Qed.

(** ** Decimal numerals *)

Section Decimal.

Lemma int_acc_uint (d : Decimal.uint) (acc : nat) :
  Str.int_acc acc (NilEmpty.string_of_uint d) = Nat.of_uint_acc d acc.
Proof.
  revert acc. induction d; intros acc; cbn [NilEmpty.string_of_uint Str.int_acc Nat.of_uint_acc];
    rewrite ?IHd, ?Nat.tail_mul_spec; try done; f_equal; simpl; lia.
Qed.

Lemma uint_digits (d : Decimal.uint) :
  Str.all Str.is_digit (NilEmpty.string_of_uint d) = true.
Proof. induction d; simpl; done. Qed.

Lemma of_nat_digits (n : nat) : Str.all Str.is_digit (Str.of_nat n) = true.
Proof.
  unfold Str.of_nat, NilZero.string_of_uint.
  destruct (Nat.to_uint n) eqn:E; try done; rewrite <- E; apply uint_digits.
Qed.

Lemma of_nat_nonempty (n : nat) : Str.of_nat n <> "".
Proof.
  unfold Str.of_nat, NilZero.string_of_uint. by destruct (Nat.to_uint n).
Qed.

Lemma lstrip_digits (s : string) :
  Str.all Str.is_digit s = true -> Str.lstrip s = s.
Proof.
  destruct s as [|c s]; [done|]. simpl. intros [Hc _]%andb_prop.
  destruct c as [[] [] [] [] [] [] [] []]; done.
Qed.

Lemma int_of_nat (n : nat) : Str.int (Str.of_nat n) = n.
Proof.
  unfold Str.int. rewrite lstrip_digits by apply of_nat_digits.
  unfold Str.of_nat, NilZero.string_of_uint.
  rewrite <- (Unsigned.of_to n) at 2. unfold Nat.of_uint.
  destruct (Nat.to_uint n) eqn:E; try done; rewrite <- int_acc_uint; done.
Qed.

End Decimal.

(** ** Exhaustive checks over digit strings *)

Section Digits.


Lemma is_digit_in (c : ascii) : Str.is_digit c = true -> c ∈ digits.
Proof.
  destruct c as [[] [] [] [] [] [] [] []]; try done; intros _; unfold digits;
    repeat first [apply list_elem_of_here | apply list_elem_of_further].
Qed.

Lemma digits2_complete a b :
  Str.is_digit a = true -> Str.is_digit b = true ->
  String a (String b "") ∈ digits2.
Proof.
  intros Ha%is_digit_in Hb%is_digit_in. unfold digits2.
  apply list_elem_of_bind. exists a. split; [|done].
  apply list_elem_of_bind. exists b. split; [|done]. apply list_elem_of_here.
Qed.

Lemma digits4_complete a b c d :
  Str.is_digit a = true -> Str.is_digit b = true ->
  Str.is_digit c = true -> Str.is_digit d = true ->
  String a (String b (String c (String d ""))) ∈ digits4.
Proof.
  intros Ha Hb Hc Hd. unfold digits4.
  apply list_elem_of_bind. exists (String a (String b "")).
  split; [|by apply digits2_complete].
  apply list_elem_of_bind. exists (String c (String d "")).
  split; [|by apply digits2_complete]. apply list_elem_of_here.
Qed.

Lemma forallb_elem {A} (P : A -> bool) (l : list A) x :
  forallb P l = true -> x ∈ l -> P x = true.
Proof. rewrite forallb_forall. intros H Hx. apply H. by apply list_elem_of_In. Qed.

Lemma digit_string_inv n (s : string) :
  String.length s = S n -> Str.all Str.is_digit s = true ->
  exists c s', s = String c s' /\ Str.is_digit c = true /\
               String.length s' = n /\ Str.all Str.is_digit s' = true.
Proof.
  destruct s as [|c s']; [done|]. simpl. intros [= Hl] [Hc Hs]%andb_prop.
  exists c, s'. done.
Qed.

End Digits.


(** ** Fixed-width fields *)

Section Fixed.

Lemma digit_char_val (c : ascii) :
  Str.is_digit c = true -> Str.digit_char (Str.digit_val c) = c.
Proof. destruct c as [[] [] [] [] [] [] [] []]; done. Qed.

Lemma digit_val_le (c : ascii) : Str.digit_val c <= 9.
Proof. destruct c as [[] [] [] [] [] [] [] []]; simpl; lia. Qed.

Lemma digit_val_char (n : nat) : n <= 9 -> Str.digit_val (Str.digit_char n) = n.
Proof. do 10 (destruct n as [|n]; [done|]). lia. Qed.

Lemma is_digit_char (n : nat) : Str.is_digit (Str.digit_char n) = true.
Proof. do 10 (destruct n as [|n]; [done|]). done. Qed.

Lemma length_fixed w n : String.length (Str.fixed w n) = w.
Proof.
  revert n. induction w as [|w IH]; intros n; simpl; [done|].
  rewrite length_app_s, IH. simpl. lia.
Qed.

Lemma fixed_digits w n : Str.all Str.is_digit (Str.fixed w n) = true.
Proof.
  revert n. induction w as [|w IH]; intros n; cbn [Str.fixed]; [done|].
  rewrite all_app_s, IH. simpl. by rewrite is_digit_char.
Qed.

Lemma int_acc_app acc (a b : string) :
  Str.int_acc acc (a +:+ b) = Str.int_acc (Str.int_acc acc a) b.
Proof. revert acc. induction a as [|x a IH]; intros acc; simpl; [done | by rewrite IH]. Qed.

Lemma int_acc_fixed w n : n < 10 ^ w -> Str.int_acc 0 (Str.fixed w n) = n.
Proof.
  revert n. induction w as [|w IH]; intros n Hn; cbn [Str.fixed].
  - simpl in *. lia.
  - rewrite int_acc_app, IH.
    + cbn [Str.int_acc]. rewrite digit_val_char.
      * pose proof (Nat.div_mod_eq n 10). lia.
      * pose proof (Nat.mod_upper_bound n 10). lia.
    + apply Nat.Div0.div_lt_upper_bound. by rewrite Nat.pow_succ_r' in Hn.
Qed.

Lemma int_fixed w n : n < 10 ^ w -> Str.int (Str.fixed w n) = n.
Proof.
  intros Hn. unfold Str.int. rewrite lstrip_digits by apply fixed_digits.
  by apply int_acc_fixed.
Qed.

End Fixed.

Section FixedInv.

Lemma snoc_inv w (s : string) :
  String.length s = S w ->
  exists s0 c, s = s0 +:+ String c "" /\ String.length s0 = w.
Proof.
  revert s. induction w as [|w IH]; intros [|x s] Hl; try done;
    simpl in Hl; injection Hl as Hl.
  - destruct s; [|done]. by exists "", x.
  - destruct (IH s Hl) as (s0 & c & -> & Hl0).
    exists (String x s0), c. simpl. by rewrite Hl0.
Qed.

Lemma int_acc_0_snoc (s0 : string) c :
  Str.int_acc 0 (s0 +:+ String c "") = 10 * Str.int_acc 0 s0 + Str.digit_val c.
Proof. by rewrite int_acc_app. Qed.

Lemma fixed_int_acc w (s : string) :
  String.length s = w -> Str.all Str.is_digit s = true ->
  Str.fixed w (Str.int_acc 0 s) = s /\ Str.int_acc 0 s < 10 ^ w.
Proof.
  revert s. induction w as [|w IH]; intros s Hl Hs.
  - destruct s; [|done]. simpl. split; [done | lia].
  - destruct (snoc_inv _ _ Hl) as (s0 & c & -> & Hl0).
    rewrite all_app_s in Hs. apply andb_prop in Hs as [Hs0 Hc].
    simpl in Hc. rewrite andb_true_r in Hc.
    destruct (IH s0 Hl0 Hs0) as [IH1 IH2].
    rewrite int_acc_0_snoc. pose proof (digit_val_le c) as Hle.
    cbn [Str.fixed].
    replace ((10 * Str.int_acc 0 s0 + Str.digit_val c) / 10) with (Str.int_acc 0 s0).
    2:{ apply Nat.div_unique with (Str.digit_val c); lia. }
    replace ((10 * Str.int_acc 0 s0 + Str.digit_val c) mod 10) with (Str.digit_val c).
    2:{ apply Nat.mod_unique with (Str.int_acc 0 s0); lia. }
    rewrite IH1, digit_char_val by done. split; [done|].
    rewrite Nat.pow_succ_r'. lia.
Qed.

Lemma fixed_int w (s : string) :
  String.length s = w -> Str.all Str.is_digit s = true ->
  Str.fixed w (Str.int s) = s /\ Str.int s < 10 ^ w.
Proof.
  intros Hl Hs. unfold Str.int. rewrite lstrip_digits by done.
  by apply fixed_int_acc.
Qed.

End FixedInv.

(** ** Numbers written without padding *)

Section OfNat.

Lemma nzhead_not_D0 (d d' : Decimal.uint) : Decimal.nzhead d <> Decimal.D0 d'.
Proof. induction d; simpl; done. Qed.

(** [str(n)] starts with a zero for [n = 0] only. *)
Lemma of_nat_head (n : nat) (s : string) : Str.of_nat n = String "0" s -> n = 0.
Proof.
  unfold Str.of_nat. intros H.
  pose proof (Unsigned.to_of (Nat.to_uint n)) as E. rewrite Unsigned.of_to in E.
  rewrite <- (Unsigned.of_to n).
  destruct (Nat.to_uint n) as [|d|d|d|d|d|d|d|d|d|d]; try done.
  unfold Decimal.unorm in E. cbn [Decimal.nzhead] in E.
  pose proof (nzhead_not_D0 d d) as Hnz.
  destruct (Decimal.nzhead d); try done. by injection E as ->.
Qed.

Lemma int_acc_ge acc (s : string) : acc * 10 ^ String.length s <= Str.int_acc acc s.
Proof.
  revert acc. induction s as [|c s IH]; intros acc; cbn [String.length Str.int_acc].
  - rewrite Nat.pow_0_r. lia.
  - etrans; [|apply IH]. rewrite Nat.pow_succ_r'. nia.
Qed.

Lemma digit_val_pos (c : ascii) :
  Str.is_digit c = true -> c <> "0"%char -> 1 <= Str.digit_val c.
Proof. destruct c as [[] [] [] [] [] [] [] []]; simpl; try done; lia. Qed.

(** A number takes as many digits as its size asks for. *)
Lemma of_nat_fixed w n : 10 ^ w <= n < 10 ^ S w -> Str.of_nat n = Str.fixed (S w) n.
Proof.
  intros [Hlo Hhi].
  pose proof (of_nat_digits n) as Hd. pose proof (int_of_nat n) as Hi.
  pose proof (of_nat_head n) as Hz.
  destruct (Str.of_nat n) as [|c s] eqn:E; [by destruct (of_nat_nonempty n)|].
  destruct (fixed_int (String.length (String c s)) (String c s) eq_refl Hd) as [Hf Hlt].
  rewrite Hi in Hf, Hlt. rewrite <- Hf. f_equal. cbn [String.length] in *.
  assert (10 ^ String.length s <= n) as Hge.
  { rewrite <- Hi. unfold Str.int. rewrite lstrip_digits by done.
    cbn [Str.int_acc Str.all] in *. apply andb_prop in Hd as [Hc _].
    etrans; [|apply int_acc_ge].
    assert (1 <= Str.digit_val c); [|nia].
    apply digit_val_pos; [done|]. intros ->.
    pose proof (Nat.pow_nonzero 10 w). specialize (Hz s eq_refl). lia. }
  assert (String.length s < S w) by (apply (Nat.pow_lt_mono_r_iff 10); lia).
  assert (w < S (String.length s)) by (apply (Nat.pow_lt_mono_r_iff 10); lia).
  lia.
Qed.

Lemma of_nat_short w n : n < 10 ^ S w -> String.length (Str.of_nat n) <= S w.
Proof.
  intros Hhi.
  pose proof (of_nat_digits n) as Hd. pose proof (int_of_nat n) as Hi.
  pose proof (of_nat_head n) as Hz.
  destruct (Str.of_nat n) as [|c s] eqn:E; [by destruct (of_nat_nonempty n)|].
  cbn [String.length]. destruct (decide (c = "0"%char)) as [->|Hc].
  - specialize (Hz s eq_refl). subst n.
    assert (Str.of_nat 0 = "0") as E0 by reflexivity. rewrite E0 in E.
    injection E as <-. cbn. lia.
  - assert (10 ^ String.length s <= n) as Hge.
    { rewrite <- Hi. unfold Str.int. rewrite lstrip_digits by done.
      cbn [Str.int_acc Str.all] in *. apply andb_prop in Hd as [Hc' _].
      etrans; [|apply int_acc_ge].
      pose proof (digit_val_pos c Hc' Hc). nia. }
    assert (String.length s < S w) by (apply (Nat.pow_lt_mono_r_iff 10); lia).
    lia.
Qed.

End OfNat.

(** ** Groups found so far do not influence the rest of a match *)

Section Frame.
Import Re.


Lemma star_frame c0 cc (s : string) (k0 k : string -> option found) :
  (forall t, k0 t = lift c0 (k t)) ->
  star cc s k0 = lift c0 (star cc s k).
Proof.
  intros Hk. induction s as [|x s IH]; simpl; [done|].
  destruct (cc_match cc x); [|done].
  rewrite IH. destruct (star cc s k) as [[c r]|]; simpl; done.
Qed.

Lemma run_frame c0 r : forall (s : string) caps k0 k,
  (forall s' c, k0 s' (c0 ++ c) = lift c0 (k s' c)) ->
  run r s (c0 ++ caps) k0 = lift c0 (run r s caps k).
Proof.
  induction r as [cc| |r1 IH1 r2 IH2|r1 IH1 r2 IH2|cc|r IH]; intros s caps k0 k Hk; simpl.
  - destruct s as [|x s]; [done|]. destruct (cc_match cc x); [done|done].
  - done.
  - apply IH1. intros s' c. by apply IH2.
  - rewrite (IH1 _ _ _ k), (IH2 _ _ _ k) by done.
    by destruct (run r1 s caps k) as [[c r]|].
  - destruct s as [|x s]; [done|]. destruct (cc_match cc x); [|done].
    apply star_frame. intros t. apply Hk.
  - apply IH. intros s' c. rewrite <- app_assoc. apply Hk.
Qed.

Lemma run_frame_final c0 r (s : string) :
  run r s c0 (fun s' caps => Some (caps, s')) =
  lift c0 (run r s [] (fun s' caps => Some (caps, s'))).
Proof.
  rewrite <- (app_nil_r c0) at 1. by apply run_frame.
Qed.

End Frame.

(** ** [strptime] against [strftime] *)


Lemma md_table : forallb md_check digits4 = true.
Proof. vm_compute. reflexivity. Qed.


Lemma md_table_valid :
  forallb md_check_valid (m ← seq 1 12; d ← seq 1 31; [(m, d)]) = true.
Proof. vm_compute. reflexivity. Qed.

Lemma MAXYEAR_lt : MAXYEAR < 10 ^ 4.
Proof. apply Nat.ltb_lt. vm_compute. reflexivity. Qed.

Lemma split_4_4 (D : string) :
  String.length D = 8 -> Str.all Str.is_digit D = true ->
  exists Y4 M4, D = Y4 +:+ M4 /\ String.length Y4 = 4 /\
                Str.all Str.is_digit Y4 = true /\ M4 ∈ digits4.
Proof.
  intros Hl Hd.
  destruct (digit_string_inv _ _ Hl Hd) as (a & s1 & -> & Ha & Hl1 & Hd1).
  destruct (digit_string_inv _ _ Hl1 Hd1) as (b & s2 & -> & Hb & Hl2 & Hd2).
  destruct (digit_string_inv _ _ Hl2 Hd2) as (c & s3 & -> & Hc & Hl3 & Hd3).
  destruct (digit_string_inv _ _ Hl3 Hd3) as (d & s4 & -> & Hd' & Hl4 & Hd4).
  destruct (digit_string_inv _ _ Hl4 Hd4) as (e & s5 & -> & He & Hl5 & Hd5).
  destruct (digit_string_inv _ _ Hl5 Hd5) as (f & s6 & -> & Hf & Hl6 & Hd6).
  destruct (digit_string_inv _ _ Hl6 Hd6) as (g & s7 & -> & Hg & Hl7 & Hd7).
  destruct (digit_string_inv _ _ Hl7 Hd7) as (h & s8 & -> & Hh & Hl8 & Hd8).
  destruct s8; [|done].
  exists (String a (String b (String c (String d "")))),
         (String e (String f (String g (String h "")))).
  split; [done|]. split; [done|]. split.
  - simpl. by rewrite Ha, Hb, Hc, Hd'.
  - by apply digits4_complete.
Qed.

Lemma Ymd_match (Y4 M4 : string) :
  String.length Y4 = 4 -> Str.all Str.is_digit Y4 = true ->
  Re.re_match Ymd_regex (Y4 +:+ M4) = lift [Y4] (md_found M4).
Proof.
  intros Hl Hd. unfold Re.re_match, Ymd_regex, md_found.
  change (Re.seq (?r :: ?rs)) with (Re.Cat r (Re.seq rs)).
  rewrite run_Cat, run_Group, run_rep_class by done.
  rewrite consumed_app. apply run_frame_final.
Qed.

Lemma datetime_new_ok y m d dt :
  datetime_new y m d = Ok dt -> dt = Date y m d /\ valid_date dt = true.
Proof.
  unfold datetime_new.
  destruct ((1 <=? y) && (y <=? MAXYEAR)) eqn:Hy; [|done].
  destruct ((1 <=? m) && (m <=? 12)) eqn:Hm; [|done].
  destruct ((1 <=? d) && (d <=? days_in_month y m)) eqn:Hd; [|done].
  cbn [negb]. intros [= <-]. split; [done|]. unfold valid_date. cbn [year month day].
  apply andb_prop in Hy as [Hy1 Hy2], Hm as [Hm1 Hm2], Hd as [Hd1 Hd2].
  by rewrite Hy1, Hy2, Hm1, Hm2, Hd1, Hd2.
Qed.

Lemma datetime_new_valid dt :
  valid_date dt = true -> datetime_new (year dt) (month dt) (day dt) = Ok dt.
Proof.
  unfold datetime_new, valid_date. destruct dt as [y m d]. simpl.
  intros H. repeat (apply andb_prop in H as [H ?]).
  repeat match goal with H : _ = true |- _ => rewrite H; clear H end. done.
Qed.

Lemma datetime_new_raise y m d e :
  datetime_new y m d = Raise e -> exn_kind e = ValueError.
Proof.
  unfold datetime_new. repeat case_match; intros [= <-]; done.
Qed.

Lemma strptime_raise_kind (s : string) e :
  strptime_Ymd s = Raise e -> exn_kind e = ValueError.
Proof.
  unfold strptime_Ymd. repeat case_match; try (intros [= <-]; done);
    apply datetime_new_raise.
Qed.

Lemma strptime_sound (D : string) dt :
  String.length D = 8 -> Str.all Str.is_digit D = true ->
  strptime_Ymd D = Ok dt ->
  valid_date dt = true /\ Ymd_digits dt = D.
Proof.
  intros Hl Hd. destruct (split_4_4 D Hl Hd) as (Y4 & M4 & -> & HYl & HYd & HM).
  unfold strptime_Ymd. rewrite Ymd_match by done.
  pose proof (forallb_elem _ _ _ md_table HM) as Hchk. unfold md_check in Hchk.
  destruct (md_found M4) as [[caps rest]|]; simpl; [|done].
  destruct caps as [|m [|d [|? ?]]]; try done; destruct rest; try done.
  simpl. intros Hnew. apply datetime_new_ok in Hnew as [-> Hv]. split; [done|].
  repeat (apply andb_prop in Hchk as [Hchk ?]).
  repeat match goal with H : String.eqb _ _ = true |- _ => apply String.eqb_eq in H end.
  unfold Ymd_digits. cbn [year month day].
  destruct (fixed_int 4 Y4 HYl HYd) as [-> _]. congruence.
Qed.

Lemma strptime_digits dt :
  valid_date dt = true -> strptime_Ymd (Ymd_digits dt) = Ok dt.
Proof.
  intros Hv. pose proof Hv as Hv'. unfold valid_date in Hv'.
  repeat (apply andb_prop in Hv' as [Hv' ?]).
  repeat match goal with H : (_ <=? _) = true |- _ => apply Nat.leb_le in H end.
  assert (Hdm : day dt <= 31).
  { etrans; [eassumption|]. unfold days_in_month. repeat case_match; lia. }
  assert (Hmd : (month dt, day dt) ∈ (m ← seq 1 12; d ← seq 1 31; [(m, d)])).
  { apply list_elem_of_bind. exists (month dt). split.
    - apply list_elem_of_bind. exists (day dt). split; [apply list_elem_of_here|].
      apply list_elem_of_In, in_seq. lia.
    - apply list_elem_of_In, in_seq. lia. }
  pose proof (forallb_elem _ _ _ md_table_valid Hmd) as Hchk.
  unfold md_check_valid in Hchk. cbn [fst snd] in Hchk.
  pose proof MAXYEAR_lt.
  unfold strptime_Ymd, Ymd_digits.
  rewrite Ymd_match by (apply length_fixed || apply fixed_digits).
  destruct (md_found _) as [[caps rest]|]; [|done].
  destruct caps as [|m [|d [|? ?]]]; try done; destruct rest; try done.
  apply andb_prop in Hchk as [->%String.eqb_eq ->%String.eqb_eq]. cbn [lift app].
  assert (month dt < 10 ^ 2 /\ day dt < 10 ^ 2) as [? ?]
    by (change (10 ^ 2) with 100; lia).
  rewrite !int_fixed by lia. by apply datetime_new_valid.
Qed.

(** ** Field-by-field reading of dates *)

Lemma drop_app_s (a b : string) : Str.drop (String.length a) (a +:+ b) = b.
Proof. induction a as [|x a IH]; simpl; [by destruct b | done]. Qed.

Lemma take_len (a b : string) n : String.length a = n -> Str.take n (a +:+ b) = a.
Proof. intros <-. apply take_app_s. Qed.

Lemma take_all (a : string) n : String.length a = n -> Str.take n a = a.
Proof. intros H. rewrite <- (app_nil_r_s a) at 1. by apply take_len. Qed.

Lemma drop_len (a b : string) n : String.length a = n -> Str.drop n (a +:+ b) = b.
Proof. intros <-. apply drop_app_s. Qed.

Lemma drop_add n m (s : string) : Str.drop (n + m) s = Str.drop m (Str.drop n s).
Proof.
  revert s. induction n as [|n IH]; intros s; simpl; [done|].
  destruct s as [|x s]; [by destruct m | apply IH].
Qed.

Lemma valid_date_bounds dt :
  valid_date dt = true ->
  year dt < 10 ^ 4 /\ month dt < 10 ^ 2 /\ day dt < 10 ^ 2.
Proof.
  intros Hv. unfold valid_date in Hv.
  repeat (apply andb_prop in Hv as [Hv ?]).
  repeat match goal with H : (_ <=? _) = true |- _ => apply Nat.leb_le in H end.
  assert (day dt <= 31).
  { etrans; [eassumption|]. unfold days_in_month. repeat case_match; lia. }
  pose proof MAXYEAR_lt. change (10 ^ 2) with 100. lia.
Qed.

Lemma date_of_Ymd_digits dt :
  valid_date dt = true -> date_of_Ymd (Ymd_digits dt) = dt.
Proof.
  intros (Hy & Hm & Hd)%valid_date_bounds.
  unfold date_of_Ymd, Ymd_digits. destruct dt as [y m d]. cbn [year month day] in *.
  rewrite (take_len _ _ 4) by apply length_fixed.
  rewrite (drop_len _ _ 4) by apply length_fixed.
  rewrite (take_len _ _ 2) by apply length_fixed.
  rewrite (drop_add 4 2), (drop_len _ _ 4), (drop_len _ _ 2) by apply length_fixed.
  rewrite (take_all _ 2) by apply length_fixed.
  by rewrite !int_fixed.
Qed.

(** From 1000 on, the year takes its four digits unpadded. *)
Lemma strftime_Ymd_digits dt :
  valid_date dt = true -> 1000 <= year dt -> strftime_Ymd dt = Ymd_digits dt.
Proof.
  intros (Hy & _)%valid_date_bounds Hlo. unfold strftime_Ymd, Ymd_digits.
  rewrite (of_nat_fixed 3); [done|]. change (10 ^ 3) with 1000. lia.
Qed.

Lemma strptime_strftime dt :
  valid_date dt = true -> 1000 <= year dt -> strptime_Ymd (strftime_Ymd dt) = Ok dt.
Proof. intros Hv Hlo. rewrite strftime_Ymd_digits by done. by apply strptime_digits. Qed.

Lemma digits_no_hyphen (s : string) :
  Str.all Str.is_digit s = true -> Str.mem "-" s = false.
Proof.
  induction s as [|x s IH]; simpl; [done|]. intros [Hx Hs]%andb_prop.
  rewrite (IH Hs), orb_false_r. destruct x as [[] [] [] [] [] [] [] []]; done.
Qed.

Lemma before_app c (a b : string) :
  Str.mem c a = false -> Str.before c (a +:+ String c b) = a.
Proof.
  induction a as [|x a IH]; cbn [Str.mem Str.before String.append].
  - by rewrite Ascii.eqb_refl.
  - intros [Hx Ha]%orb_false_elim. rewrite Ascii.eqb_sym in Hx. by rewrite Hx, IH.
Qed.

Lemma after_first_app c (a b : string) :
  Str.mem c a = false -> Str.after_first c (a +:+ String c b) = b.
Proof.
  induction a as [|x a IH]; cbn [Str.mem Str.after_first String.append].
  - by rewrite Ascii.eqb_refl.
  - intros [Hx Ha]%orb_false_elim. rewrite Ascii.eqb_sym in Hx. by rewrite Hx, IH.
Qed.

Lemma date_of_iso_strftime dt :
  valid_date dt = true -> date_of_iso (strftime_iso dt) = dt.
Proof.
  intros (Hy & Hm & Hd)%valid_date_bounds.
  unfold date_of_iso, strftime_iso. destruct dt as [y m d]. cbn [year month day] in *.
  assert (Hh : forall x : string, "-" +:+ x = String "-" x) by done.
  rewrite !Hh.
  rewrite (before_app "-" (Str.of_nat y)), (after_first_app "-" (Str.of_nat y))
    by apply digits_no_hyphen, of_nat_digits.
  rewrite (before_app "-" (Str.fixed 2 m)), (after_first_app "-" (Str.fixed 2 m))
    by apply digits_no_hyphen, fixed_digits.
  by rewrite int_of_nat, !int_fixed.
Qed.

(** ** Paths *)

Lemma after_last_none c (s : string) : Str.mem c s = false -> Str.after_last c s = s.
Proof.
  destruct s as [|x s]; simpl; [done|]. intros [Hx Hs]%orb_false_elim.
  rewrite Hs. rewrite Ascii.eqb_sym in Hx. by rewrite Hx.
Qed.

Lemma after_last_app c (a b : string) :
  Str.mem c b = false -> Str.after_last c (a +:+ String c b) = b.
Proof.
  intros Hb. induction a as [|x a IH]; simpl.
  - by rewrite Hb, Ascii.eqb_refl.
  - rewrite mem_app_s. simpl. by rewrite Ascii.eqb_refl, orb_true_r.
Qed.

Lemma ends_with_char_inv c (a : string) :
  Str.ends_with_char c a = true -> exists a', a = a' +:+ String c "".
Proof.
  induction a as [|x a IH]; simpl; [done|]. destruct a as [|y a].
  - intros ->%Ascii.eqb_eq. by exists "".
  - intros H. destruct (IH H) as [a' ->]. by exists (String x a').
Qed.

Lemma startswith_slash (name : string) :
  Str.mem "/" name = false -> Str.startswith "/" name = false.
Proof.
  destruct name as [|x name]; simpl; [done|].
  intros [Hx _]%orb_false_elim. by rewrite Hx.
Qed.

Lemma basename_join (dir name : string) :
  Str.mem "/" name = false ->
  Path.basename (Path.join dir name) = name.
Proof.
  intros Hn. unfold Path.basename, Path.join.
  rewrite startswith_slash by done.
  destruct (_ || _) eqn:E.
  - apply orb_prop in E as [E|E].
    + destruct dir; [|done]. by apply after_last_none.
    + apply ends_with_char_inv in E as [a' ->].
      rewrite app_assoc_s. by apply after_last_app.
  - by apply after_last_app.
Qed.

Lemma digits_no_slash (s : string) :
  Str.all Str.is_digit s = true -> Str.mem "/" s = false.
Proof.
  induction s as [|x s IH]; simpl; [done|]. intros [Hx Hs]%andb_prop.
  rewrite (IH Hs), orb_false_r. destruct x as [[] [] [] [] [] [] [] []]; done.
Qed.

Lemma Ymd_digits_shape dt :
  String.length (Ymd_digits dt) = 8 /\ Str.all Str.is_digit (Ymd_digits dt) = true.
Proof.
  unfold Ymd_digits. rewrite !length_app_s, !length_fixed, !all_app_s, !fixed_digits. done.
Qed.

Lemma strftime_Ymd_shape dt :
  4 < String.length (strftime_Ymd dt) /\ Str.all Str.is_digit (strftime_Ymd dt) = true.
Proof.
  unfold strftime_Ymd.
  rewrite !length_app_s, !length_fixed, !all_app_s, !fixed_digits, of_nat_digits.
  split; [|done]. pose proof (of_nat_nonempty (year dt)).
  destruct (Str.of_nat (year dt)); [done|]. cbn. lia.
Qed.

Lemma encode_no_slash dt i (id : string) :
  Str.mem "/" id = false -> Str.mem "/" (encode_filename dt i id) = false.
Proof.
  intros Hid. unfold encode_filename. rewrite !mem_app_s, Hid.
  rewrite (digits_no_slash (strftime_Ymd dt)) by apply strftime_Ymd_shape.
  rewrite (digits_no_slash (Str.of_nat i)) by apply of_nat_digits. done.
Qed.

Lemma join_nil (name : string) :
  Str.startswith "/" name = false -> Path.join "" name = name.
Proof. unfold Path.join. by intros ->. Qed.

(** The name the encoder builds decodes to the record it was built from. *)
Lemma encode_decodes (dir : string) dt i (id : string) :
  valid_date dt = true -> 1000 <= year dt ->
  id <> "" -> Str.mem "010" id = false -> Str.mem "/" id = false ->
  extract_paper_info (Path.join dir (encode_filename dt i id)) =
    Ok (Some {| p_date := strftime_iso dt;
                p_number := i;
                p_arxiv_id := id;
                p_filename := encode_filename dt i id;
                p_path := Path.join dir (encode_filename dt i id) |}).
Proof.
  intros Hv Hy Hid0 Hnl Hsl.
  unfold extract_paper_info. rewrite basename_join by by apply encode_no_slash.
  destruct (Ymd_digits_shape dt) as [Hl Hd].
  unfold encode_filename at 1. rewrite strftime_Ymd_digits by done.
  rewrite codec_match_complete;
    [|done|done|apply of_nat_nonempty|apply of_nat_digits|done|done].
  by rewrite strptime_digits, int_of_nat.
Qed.

(** C1, as amended: for every calendar date [dt] from the year 1000 on,
    every ordinal [i] and every non-empty identifier [id] that contains
    neither a slash nor a line feed, decoding the name the encoder
    builds (alone or under any directory [dir]) returns the record with
    the date as YYYY-MM-DD, the ordinal [i] as an integer and the
    identifier [id] unchanged; and the date text YYYY-MM-DD names the
    date [dt] again. *)
Theorem codec_roundtrip (dir : string) dt i (id : string) :
  valid_date dt = true -> 1000 <= year dt ->
  id <> "" -> Str.mem "010" id = false -> Str.mem "/" id = false ->
  extract_paper_info (Path.join dir (encode_filename dt i id)) =
    Ok (Some {| p_date := strftime_iso dt;
                p_number := i;
                p_arxiv_id := id;
                p_filename := encode_filename dt i id;
                p_path := Path.join dir (encode_filename dt i id) |}) /\
  extract_paper_info (encode_filename dt i id) =
    Ok (Some {| p_date := strftime_iso dt;
                p_number := i;
                p_arxiv_id := id;
                p_filename := encode_filename dt i id;
                p_path := encode_filename dt i id |}) /\
  date_of_iso (strftime_iso dt) = dt.
Proof.
  intros Hv Hy Hid0 Hnl Hsl. split; [by apply encode_decodes|].
  split; [|by apply date_of_iso_strftime].
  pose proof (encode_decodes "" dt i id Hv Hy Hid0 Hnl Hsl) as H.
  by rewrite join_nil in H by by apply startswith_slash, encode_no_slash.
Qed.

(** The round trip on the name of the end-to-end example, with an
    identifier that contains a dot. *)
Lemma codec_roundtrip_witness :
  extract_paper_info (Path.join "papers" (encode_filename (Date 2024 6 15) 1 "2401.00001")) =
    Ok (Some {| p_date := "2024-06-15";
                p_number := 1;
                p_arxiv_id := "2401.00001";
                p_filename := "20240615_paper1_2401.00001.pdf";
                p_path := "papers/20240615_paper1_2401.00001.pdf" |}) /\
  extract_paper_info (encode_filename (Date 2024 6 15) 1 "2401.00001") =
    Ok (Some {| p_date := "2024-06-15";
                p_number := 1;
                p_arxiv_id := "2401.00001";
                p_filename := "20240615_paper1_2401.00001.pdf";
                p_path := "20240615_paper1_2401.00001.pdf" |}) /\
  date_of_iso "2024-06-15" = Date 2024 6 15.
Proof.
  apply (codec_roundtrip "papers" (Date 2024 6 15) 1 "2401.00001");
    [reflexivity|apply Nat.leb_le; reflexivity|done|reflexivity|reflexivity].
Defined.

(** C1 as stated fails: the name built for the identifier [a/b] does not
    decode (its base name is [b.pdf]), and neither does the name built
    for an identifier with a line feed in it, which [.] does not match.
    It fails for early dates too: the name built for 1 January 999
    starts with seven digits, [9990101], where the pattern asks for
    eight, and does not decode. *)
Lemma codec_roundtrip_counterexamples :
  extract_paper_info (encode_filename (Date 2024 1 1) 1 "a/b") = Ok None /\
  extract_paper_info
    (encode_filename (Date 2024 1 1) 1 (String "a" (String "010" (String "b" "")))) = Ok None /\
  valid_date (Date 999 1 1) = true /\
  encode_filename (Date 999 1 1) 1 "x" = "9990101_paper1_x.pdf" /\
  extract_paper_info (encode_filename (Date 999 1 1) 1 "x") = Ok None.
Proof. repeat split; vm_compute; reflexivity. Qed.

(** C2 at a failing input: the claim has [extract_paper_info] return none
    for a name with text after [.pdf]; on [20240101_paper1_x.pdf.bak] it
    returns the record of [20240101_paper1_x.pdf], because [re.match]
    does not look at what follows the pattern. *)
Theorem decode_accepts_trailing_text :
  extract_paper_info "20240101_paper1_x.pdf.bak" =
    Ok (Some {| p_date := "2024-01-01";
                p_number := 1;
                p_arxiv_id := "x";
                p_filename := "20240101_paper1_x.pdf.bak";
                p_path := "20240101_paper1_x.pdf.bak" |}).
Proof. vm_compute. reflexivity. Qed.

(** The other two names of C2 are refused, as the claim says. *)
Lemma decode_none_examples :
  extract_paper_info "notes.txt" = Ok None /\
  extract_paper_info "2024-01-01_paper1_x.pdf" = Ok None.
Proof. split; vm_compute; reflexivity. Qed.

(** Whenever [extract_paper_info] returns a record, the name starts with
    text of the codec's shape; what follows that text is not looked at. *)
Lemma decode_some_shape (pdf_path : string) p :
  extract_paper_info pdf_path = Ok (Some p) ->
  exists D N rest dt,
    codec_shape D N (p_arxiv_id p) rest (Path.basename pdf_path) /\
    strptime_Ymd D = Ok dt /\ p_date p = strftime_iso dt /\
    p_number p = Str.int N /\
    p_filename p = Path.basename pdf_path /\ p_path p = pdf_path.
Proof.
  unfold extract_paper_info.
  destruct (Re.re_match _ _) as [[caps rest]|] eqn:E; [|done].
  destruct (codec_match_sound _ _ _ E) as (D & N & id & -> & Hs).
  destruct (strptime_Ymd D) as [dt|] eqn:Hdt; [|done]. intros [= <-]. simpl.
  exists D, N, rest, dt. done.
Qed.

(** A name that does not start with text of the codec's shape decodes to
    none. *)
Lemma decode_none_unless_shape (pdf_path : string) :
  (forall D N id rest, ~ codec_shape D N id rest (Path.basename pdf_path)) ->
  extract_paper_info pdf_path = Ok None.
Proof.
  intros Hno. unfold extract_paper_info.
  destruct (Re.re_match _ _) as [[caps rest]|] eqn:E; [|done].
  destruct (codec_match_sound _ _ _ E) as (D & N & id & -> & Hs).
  by destruct (Hno D N id rest).
Qed.

(** C10: when the name matches the codec pattern with date group [D] and
    [D], read as YYYYMMDD, is not a calendar date, [extract_paper_info]
    raises the [ValueError] of the date parser: it returns neither none
    nor a record. *)
Theorem decode_raises_on_invalid_date (pdf_path D N id rest : string) :
  Re.re_match codec_pattern (Path.basename pdf_path) = Some ([D; N; id], rest) ->
  valid_date (date_of_Ymd D) = false ->
  exists e, extract_paper_info pdf_path = Raise e /\ exn_kind e = ValueError.
Proof.
  intros Hm Hinv. unfold extract_paper_info. rewrite Hm.
  destruct (codec_match_sound _ _ _ Hm) as (D' & N' & id' & [= <- <- <-] & Hs).
  destruct Hs as (_ & Hl & Hd & _).
  destruct (strptime_Ymd D) as [dt|e] eqn:E.
  - apply strptime_sound in E as [Hv <-]; [|done..].
    rewrite date_of_Ymd_digits in Hinv by done. congruence.
  - exists e. split; [done|]. by eapply strptime_raise_kind.
Qed.

(** The claim's example, [20241399_paper1_x.pdf]. *)
Lemma decode_raises_on_invalid_date_witness :
  exists e, extract_paper_info "20241399_paper1_x.pdf" = Raise e /\ exn_kind e = ValueError.
Proof.
  apply (decode_raises_on_invalid_date "20241399_paper1_x.pdf" "20241399" "1" "x" "");
    vm_compute; reflexivity.
Defined.

(** ** More on paths *)

Lemma after_last_no_mem c (s : string) : Str.mem c (Str.after_last c s) = false.
Proof.
  induction s as [|x s IH]; simpl; [done|].
  destruct (Str.mem c s) eqn:Hm; [done|].
  destruct (Ascii.eqb x c) eqn:Hx; [done|]. simpl.
  by rewrite Ascii.eqb_sym, Hx, Hm.
Qed.

Lemma splitext_root_name (name : string) :
  Str.mem "/" name = false -> Path.splitext_root name = Path.drop_ext name false.
Proof.
  intros H. unfold Path.splitext_root, Path.basename.
  rewrite after_last_none by done. by rewrite Nat.sub_diag.
Qed.

Lemma drop_ext_split (name : string) b :
  exists e, name = Path.drop_ext name b +:+ e /\
            (e = "" \/ exists e', e = String "." e' /\ Str.mem "." e' = false).
Proof.
  revert b. induction name as [|c name IH]; intros b; simpl.
  - exists "". split; [done | by left].
  - destruct (Ascii.eqb c "." && b && negb (Str.mem "." name)) eqn:Hc.
    + apply andb_prop in Hc as [[Hc _]%andb_prop Hm].
      apply Ascii.eqb_eq in Hc as ->. apply negb_true_iff in Hm.
      exists (String "." name). split; [done|]. right. by exists name.
    + destruct (IH (b || negb (Ascii.eqb c "."))) as (e & He & Hcase).
      exists e. split; [|done]. simpl. by rewrite <- He.
Qed.

Lemma drop_ext_no_slash (name : string) b :
  Str.mem "/" name = false -> Str.mem "/" (Path.drop_ext name b) = false.
Proof.
  revert b. induction name as [|c name IH]; intros b; simpl; [done|].
  intros [Hc Hn]%orb_false_elim. destruct (_ && _); [done|]. simpl.
  by rewrite Hc, IH.
Qed.

Lemma app_inv_tail_s (a b c : string) : a +:+ c = b +:+ c -> a = b.
Proof.
  revert b. induction a as [|x a IH]; intros [|y b]; simpl; try done.
  - intros H. apply (f_equal String.length) in H. simpl in H.
    rewrite length_app_s in H. lia.
  - intros H. apply (f_equal String.length) in H. simpl in H.
    rewrite length_app_s in H. lia.
  - intros [= -> H]. by rewrite (IH b H).
Qed.

Lemma join_inj (dir a b : string) :
  Str.startswith "/" a = false -> Str.startswith "/" b = false ->
  Path.join dir a = Path.join dir b -> a = b.
Proof.
  unfold Path.join. intros -> ->. destruct (_ || _).
  - apply app_inv_head_s.
  - intros H%app_inv_head_s. by injection H.
Qed.

Lemma startswith_app_l (p s : string) : Str.startswith p (p +:+ s) = true.
Proof. induction p as [|x p IH]; simpl; [done|]. by rewrite Ascii.eqb_refl. Qed.

Lemma contains_app_r (p a b : string) :
  Str.contains p b = true -> Str.contains p (a +:+ b) = true.
Proof.
  intros H. induction a as [|x a IH]; simpl; [done|].
  destruct (a +:+ b) eqn:E; rewrite IH; apply orb_true_r.
Qed.

(** ** The date range generator *)

Section DateRange.

Lemma days_in_month_bounds y m : 28 <= days_in_month y m <= 31.
Proof. unfold days_in_month. repeat case_match; lia. Qed.

Lemma valid_date_inv d :
  valid_date d = true ->
  1 <= year d <= MAXYEAR /\ 1 <= month d <= 12 /\
  1 <= day d <= days_in_month (year d) (month d).
Proof.
  unfold valid_date. intros H. repeat (apply andb_prop in H as [H ?]).
  repeat match goal with H : (_ <=? _) = true |- _ => apply Nat.leb_le in H end. lia.
Qed.

Lemma valid_date_intro y m d :
  1 <= y <= MAXYEAR -> 1 <= m <= 12 -> 1 <= d <= days_in_month y m ->
  valid_date (Date y m d) = true.
Proof.
  intros [? ?] [? ?] [? ?]. unfold valid_date. cbn [year month day].
  repeat (apply andb_true_intro; split); by apply Nat.leb_le.
Qed.

Lemma date_leb_key d1 d2 :
  valid_date d1 = true -> valid_date d2 = true ->
  date_leb d1 d2 = true <-> day_key d1 <= day_key d2.
Proof.
  intros (Hy1 & Hm1 & Hd1)%valid_date_inv (Hy2 & Hm2 & Hd2)%valid_date_inv.
  pose proof (days_in_month_bounds (year d1) (month d1)).
  pose proof (days_in_month_bounds (year d2) (month d2)).
  unfold date_leb, day_key.
  destruct (Nat.ltb_spec (year d1) (year d2)); simpl; [split; [lia|done]|].
  destruct (Nat.eqb_spec (year d1) (year d2)); simpl; [|split; [done|lia]].
  destruct (Nat.ltb_spec (month d1) (month d2)); simpl; [split; [lia|done]|].
  destruct (Nat.eqb_spec (month d1) (month d2)); simpl; [|split; [done|lia]].
  rewrite Nat.leb_le. lia.
Qed.

Lemma next_day_valid d d' :
  valid_date d = true -> next_day d = Some d' ->
  valid_date d' = true /\ day_key d < day_key d'.
Proof.
  intros (Hy & Hm & Hd)%valid_date_inv. unfold next_day, day_key.
  pose proof (days_in_month_bounds (year d) (month d)).
  pose proof (days_in_month_bounds (year d) (S (month d))).
  pose proof (days_in_month_bounds (S (year d)) 1).
  destruct (Nat.ltb_spec (day d) (days_in_month (year d) (month d))).
  { intros [= <-]. cbn [year month day]. split; [apply valid_date_intro|]; lia. }
  destruct (Nat.ltb_spec (month d) 12).
  { intros [= <-]. cbn [year month day]. split; [apply valid_date_intro|]; lia. }
  destruct (Nat.ltb_spec (year d) MAXYEAR); [|done].
  intros [= <-]. cbn [year month day]. split; [apply valid_date_intro|]; lia.
Qed.

Lemma daterange_from_yields end_date fuel current :
  valid_date current = true -> valid_date end_date = true ->
  S (day_key end_date) - day_key current <= fuel ->
  yields end_date current (daterange_from fuel current end_date).1
                          (daterange_from fuel current end_date).2.
Proof.
  intros Hc He. revert current Hc. induction fuel as [|fuel IH]; intros current Hc Hf.
  - simpl. apply yields_stop. apply not_true_is_false.
    rewrite date_leb_key by done. lia.
  - simpl. destruct (date_leb current end_date) eqn:Hle; [|by apply yields_stop].
    destruct (next_day current) as [next|] eqn:Hn; [|by apply yields_overflow].
    destruct (next_day_valid _ _ Hc Hn) as [Hv Hk].
    specialize (IH next Hv). apply date_leb_key in Hle; [|done..].
    destruct (daterange_from fuel next end_date) as [ds ovf]. simpl in *.
    eapply yields_step; [by apply date_leb_key|done|]. apply IH. lia.
Qed.

(** The list [daterange] computes is the one the generator yields: the
    loop never runs out of turns. *)
Lemma daterange_yields start_date end_date :
  valid_date start_date = true -> valid_date end_date = true ->
  yields end_date start_date (daterange start_date end_date).1
                             (daterange start_date end_date).2.
Proof.
  intros Hs He. apply daterange_from_yields; [done..|].
  apply valid_date_inv in Hs as (Hy1 & Hm1 & Hd1), He as (Hy2 & Hm2 & Hd2).
  pose proof (days_in_month_bounds (year start_date) (month start_date)).
  pose proof (days_in_month_bounds (year end_date) (month end_date)).
  unfold day_key. lia.
Qed.

End DateRange.

(** ** Traces *)

Section Traces.

Lemma requests_app tr1 tr2 : requests (tr1 ++ tr2) = requests tr1 ++ requests tr2.
Proof. apply bind_app. Qed.

Lemma slept_app tr1 tr2 : slept (tr1 ++ tr2) = slept tr1 + slept tr2.
Proof. apply sum_list_with_app. Qed.

Lemma after_refl w : after w w.
Proof. by unfold after. Qed.

Lemma after_trans w1 w2 w3 : after w1 w2 -> after w2 w3 -> after w1 w3.
Proof. unfold after. by etrans. Qed.

Lemma after_elem w w' ev : after w w' -> ev ∈ trace w -> ev ∈ trace w'.
Proof. intros [tr ->] H. apply elem_of_app. by left. Qed.

End Traces.

(** ** What a computation adds to the trace *)


Section Emits.
Context (P : event -> Prop).

Lemma emits_ret {A} (a : A) : emits P (ret a).
Proof. intros w. exists []. by rewrite app_nil_r. Qed.

Lemma emits_raise {A} e : emits P (@raise A e).
Proof. intros w. exists []. by rewrite app_nil_r. Qed.

Lemma emits_of_result {A} (r : result A) : emits P (of_result r).
Proof. intros w. exists []. by rewrite app_nil_r. Qed.

Lemma emits_emit ev : P ev -> emits P (emit ev).
Proof. intros H w. exists [ev]. split; [done|]. by constructor. Qed.

Lemma emits_path_exists path : emits P (path_exists path).
Proof. intros w. exists []. by rewrite app_nil_r. Qed.

Lemma emits_open_truncate path : emits P (open_truncate path).
Proof. intros w. exists []. by rewrite app_nil_r. Qed.

Lemma emits_write path data : emits P (write path data).
Proof. intros w. exists []. by rewrite app_nil_r. Qed.

Lemma emits_bind {A B} (m : M A) (f : A -> M B) :
  emits P m -> (forall a, emits P (f a)) -> emits P (bind m f).
Proof.
  intros Hm Hf w. unfold bind. destruct (Hm w) as (e1 & H1 & HP1).
  destruct (m w) as [[a|e] w1]; simpl in *.
  - destruct (Hf a w1) as (e2 & H2 & HP2). exists (e1 ++ e2).
    rewrite H2, H1, app_assoc. split; [done|]. by apply Forall_app.
  - by exists e1.
Qed.

Lemma emits_try_except {A} (m : M A) (h : exn -> M A) :
  emits P m -> (forall e, emits P (h e)) -> emits P (try_except m h).
Proof.
  intros Hm Hh w. unfold try_except. destruct (Hm w) as (e1 & H1 & HP1).
  destruct (m w) as [[a|e] w1]; simpl in *.
  - by exists e1.
  - destruct (Hh e w1) as (e2 & H2 & HP2). exists (e1 ++ e2).
    rewrite H2, H1, app_assoc. split; [done|]. by apply Forall_app.
Qed.

Lemma emits_for_each {A} (l : list A) (body : A -> M unit) :
  (forall x, emits P (body x)) -> emits P (for_each l body).
Proof.
  intros Hb. induction l as [|x l IH]; simpl.
  - apply emits_ret.
  - apply emits_bind; [apply Hb | intros _; apply IH].
Qed.

Lemma emits_requests_get http_get url :
  P (HttpGet url) -> emits P (requests_get http_get url).
Proof.
  intros H w. unfold requests_get. exists [HttpGet url].
  split; [by destruct (http_get _ _) | by constructor].
Qed.

Lemma emits_if {A} (b : bool) (m1 m2 : M A) :
  emits P m1 -> emits P m2 -> emits P (if b then m1 else m2).
Proof. by destruct b. Qed.

End Emits.

Lemma emits_after {A} P (m : M A) w : emits P m -> after w (m w).2.
Proof. intros H. unfold after. destruct (H w) as (evs & -> & _). by exists evs. Qed.

Lemma emits_slept {A} (m : M A) w :
  emits (fun ev => forall n, ev <> Sleep n) m -> slept (trace (m w).2) = slept (trace w).
Proof.
  intros H. destruct (H w) as (evs & -> & HP). rewrite slept_app.
  assert (slept evs = 0) as ->; [|lia].
  induction HP as [|ev evs Hev _ IH]; [done|].
  change (slept (ev :: evs)) with
    (match ev with Sleep n => n | _ => 0 end + slept evs).
  rewrite IH. destruct ev; try done. by destruct (Hev seconds).
Qed.

Ltac emits_tac :=
  repeat first
    [ progress intros
    | apply emits_ret | apply emits_raise | apply emits_of_result
    | apply emits_path_exists | apply emits_open_truncate | apply emits_write
    | apply emits_bind | apply emits_try_except | apply emits_for_each
    | apply emits_requests_get | apply emits_emit
    | apply emits_if
    | match goal with |- emits _ (match ?x with _ => _ end) => destruct x end
    | done ].

(** ** The document fetcher *)

Section Fetcher.

Variable http_get : list event -> string -> http_result.

(** With the file in place the fetcher only logs and prints. *)
Lemma fetch_skip_run (arxiv_id dest_folder filename : string) (w : world) :
  is_Some (files w !! Path.join dest_folder filename) ->
  exists w',
    download_arxiv_pdf http_get arxiv_id dest_folder filename w = (Ok tt, w') /\
    files w' = files w /\
    requests (trace w') = requests (trace w).
Proof.
  intros Hex. unfold download_arxiv_pdf, bind, path_exists.
  rewrite bool_decide_eq_true_2 by done. eexists. split; [reflexivity|].
  split; [done|]. simpl. rewrite !requests_app, !app_nil_r. done.
Qed.

(** C3: when a file already exists at the destination path, the call
    returns normally, leaves every file as it was and requests nothing
    from the network; and so does a second call on the same path. *)
Theorem fetch_skips_existing_file (arxiv_id dest_folder filename : string) (w : world) :
  is_Some (files w !! Path.join dest_folder filename) ->
  exists w',
    download_arxiv_pdf http_get arxiv_id dest_folder filename w = (Ok tt, w') /\
    files w' = files w /\
    requests (trace w') = requests (trace w) /\
    exists w'',
      download_arxiv_pdf http_get arxiv_id dest_folder filename w' = (Ok tt, w'') /\
      files w'' = files w /\
      requests (trace w'') = requests (trace w).
Proof.
  intros Hex.
  destruct (fetch_skip_run arxiv_id dest_folder filename w Hex) as (w' & Hrun & Hf & Hr).
  exists w'. repeat split; try done.
  destruct (fetch_skip_run arxiv_id dest_folder filename w') as (w'' & Hrun' & Hf' & Hr').
  { by rewrite Hf. }
  exists w''. repeat split; try done; congruence.
Qed.

(** C4: when no file exists at the destination path and the response
    to the request has a status other than 200, the call returns
    normally (it does not raise), logs a warning, and changes no file:
    there is still no file at the destination path. *)
Theorem fetch_soft_failure (arxiv_id dest_folder filename : string) (w : world) resp :
  files w !! Path.join dest_folder filename = None ->
  http_get (trace w ++ [Log INFO ("Downloading " +:+ pdf_url arxiv_id)]) (pdf_url arxiv_id)
    = Responded resp ->
  status_code resp <> 200 ->
  exists w',
    download_arxiv_pdf http_get arxiv_id dest_folder filename w = (Ok tt, w') /\
    files w' = files w /\
    files w' !! Path.join dest_folder filename = None /\
    Log WARNING ("PDF not found for " +:+ arxiv_id +:+ " (status "
                 +:+ Str.of_nat (status_code resp) +:+ ")") ∈ trace w'.
Proof.
  intros Hnone Hresp Hst.
  unfold download_arxiv_pdf, bind, path_exists, try_except, requests_get, log, print, emit.
  rewrite bool_decide_eq_false_2 by (rewrite Hnone; by intros [? ?]).
  cbn [trace files]. rewrite Hresp.
  apply Nat.eqb_neq in Hst. rewrite Hst. cbn [trace files].
  eexists. split; [reflexivity|]. cbn [trace files]. split; [done|]. split; [done|].
  rewrite !elem_of_app, !list_elem_of_singleton. left. by right.
Qed.

Lemma write_chunks path (l : list string) (w : world) c :
  files w !! path = Some c ->
  exists w', for_each l (write path) w = (Ok tt, w') /\
             trace w' = trace w /\
             files w' !! path = Some (c +:+ String.concat "" l) /\
             forall p, p <> path -> files w' !! p = files w !! p.
Proof.
  revert w c. induction l as [|x l IH]; intros w c Hc.
  - exists w. simpl. by rewrite app_nil_r_s.
  - cbn [for_each]. unfold bind, write at 1. rewrite Hc. cbn [default].
    edestruct (IH {| files := <[path := c +:+ x]> (files w); trace := trace w |} (c +:+ x))
      as (w' & Hrun & Htr & Hf & Hother).
    { cbn [files]. apply lookup_insert_eq. }
    exists w'. split; [done|]. split; [done|]. split.
    + rewrite Hf. f_equal. rewrite app_assoc_s. f_equal.
      destruct l; simpl; [by rewrite app_nil_r_s | done].
    + intros p Hp. rewrite Hother by done. cbn [files]. by rewrite lookup_insert_ne.
Qed.

(** A fresh download writes the file; fetching the same path again then
    asks nothing of the network. *)
Lemma fetch_fresh_then_skip (arxiv_id dest_folder filename : string) (w : world) resp :
  files w !! Path.join dest_folder filename = None ->
  http_get (trace w ++ [Log INFO ("Downloading " +:+ pdf_url arxiv_id)]) (pdf_url arxiv_id)
    = Responded resp ->
  status_code resp = 200 -> stream_error resp = None ->
  exists w' w'',
    download_arxiv_pdf http_get arxiv_id dest_folder filename w = (Ok tt, w') /\
    files w' !! Path.join dest_folder filename = Some (String.concat "" (chunks resp)) /\
    requests (trace w') = requests (trace w) ++ [pdf_url arxiv_id] /\
    download_arxiv_pdf http_get arxiv_id dest_folder filename w' = (Ok tt, w'') /\
    files w'' = files w' /\
    requests (trace w'') = requests (trace w').
Proof.
  intros Hnone Hresp Hst Herr.
  assert (exists w', download_arxiv_pdf http_get arxiv_id dest_folder filename w = (Ok tt, w') /\
    files w' !! Path.join dest_folder filename = Some (String.concat "" (chunks resp)) /\
    requests (trace w') = requests (trace w) ++ [pdf_url arxiv_id]) as (w' & Hrun & Hf & Hr).
  { unfold download_arxiv_pdf, bind at 1, path_exists.
    rewrite bool_decide_eq_false_2 by (rewrite Hnone; by intros [? ?]).
    unfold bind at 1, log at 1, emit at 1. unfold try_except, bind at 1, requests_get.
    cbn [trace files]. rewrite Hresp, Hst, Nat.eqb_refl.
    unfold bind at 1, open_truncate. unfold bind at 1.
    edestruct (write_chunks (Path.join dest_folder filename) (chunks resp)) as
      (w1 & -> & Htr & Hf & _); [cbn [files]; apply lookup_insert_eq|].
    rewrite Herr. unfold bind, ret, log, print, emit. rewrite Htr. cbn [trace files].
    eexists. split; [reflexivity|]. cbn [trace files]. split; [done|].
    rewrite !requests_app. simpl. by rewrite !app_nil_r. }
  destruct (fetch_skip_run arxiv_id dest_folder filename w')
    as (w'' & Hrun' & Hf' & Hr'); [by rewrite Hf|].
  by exists w', w''.
Qed.

Lemma fetch_emits P (arxiv_id dest_folder filename : string) :
  (forall ev, (forall n, ev <> Sleep n) -> P ev) ->
  emits P (download_arxiv_pdf http_get arxiv_id dest_folder filename).
Proof.
  intros HP. unfold download_arxiv_pdf, log, print. emits_tac; apply HP; done.
Qed.

End Fetcher.

(** ** The listing resolver *)

Section Listing.

Variable http_get : list event -> string -> http_result.
Variable select_anchors : string -> list (option string).

Lemma hrefs_last_segment_run (anchors : list (option string)) (w : world) :
  hrefs_last_segment anchors w =
    match mapM id anchors with
    | Some hrefs => (Ok (Str.after_last "/" <$> hrefs), w)
    | None => (Raise (Exn KeyError "'href'"), w)
    end.
Proof.
  induction anchors as [|[href|] anchors IH]; simpl; [done| |done].
  unfold bind. rewrite IH. by destruct (mapM id anchors).
Qed.

Lemma mapM_id_Some (hrefs : list string) : mapM id (Some <$> hrefs) = Some hrefs.
Proof.
  apply mapM_Some. induction hrefs as [|h hrefs IH]; simpl; by constructor.
Qed.

(** C5: when the listing page is fetched without error, the call
    returns the last path segment of the link target of each of the
    first five matching anchors, in document order (and raises the
    [KeyError] of a missing [href] when one of those five has no link
    target).  With eight anchors it returns five identifiers, those of
    the first five; with no anchor it returns the empty list. *)
Theorem listing_takes_first_five (date : datetime) (w : world) resp :
  http_get (trace w ++ [Log INFO ("Fetching papers from " +:+ listing_url date)])
           (listing_url date) = Responded resp ->
  status_code resp < 400 \/ 600 <= status_code resp ->
  let anchors := select_anchors (text resp) in
  let returned := (get_arxiv_ids http_get select_anchors date w).1 in
  returned = match mapM id (take 5 anchors) with
             | Some hrefs => Ok (Str.after_last "/" <$> hrefs)
             | None => Raise (Exn KeyError "'href'")
             end /\
  (forall hrefs, anchors = Some <$> hrefs ->
     returned = Ok (Str.after_last "/" <$> take 5 hrefs) /\
     length (take 5 hrefs) <= 5 /\
     (length hrefs = 8 -> length (take 5 hrefs) = 5)) /\
  (anchors = [] -> returned = Ok []).
Proof.
  intros Hresp Hst anchors returned.
  assert (Hmain : returned = match mapM id (take 5 anchors) with
             | Some hrefs => Ok (Str.after_last "/" <$> hrefs)
             | None => Raise (Exn KeyError "'href'")
             end).
  { unfold returned, get_arxiv_ids, bind at 1, log at 1, emit at 1.
    unfold try_except, bind at 1, requests_get. cbn [trace files].
    rewrite Hresp. unfold bind at 1, raise_for_status.
    assert ((400 <=? status_code resp) && (status_code resp <? 500) = false) as ->.
    { apply andb_false_iff. rewrite Nat.leb_gt, Nat.ltb_ge. lia. }
    assert ((500 <=? status_code resp) && (status_code resp <? 600) = false) as ->.
    { apply andb_false_iff. rewrite Nat.leb_gt, Nat.ltb_ge. lia. }
    unfold ret at 1. unfold bind at 1. rewrite hrefs_last_segment_run.
    fold anchors. destruct (mapM id (take 5 anchors)); simpl; done. }
  split; [done|]. split.
  - intros hrefs Ha. rewrite Hmain, Ha, <- fmap_take, mapM_id_Some.
    split; [done|]. rewrite length_take. split; [lia|]. intros ->. done.
  - intros Ha. by rewrite Hmain, Ha.
Qed.

End Listing.

(** ** The batch downloader *)

Section Batch.

Variable http_get : list event -> string -> http_result.
Variable select_anchors : string -> list (option string).

(** What one turn of the inner loop does, case by case. *)
Lemma download_one_run dt out n i id (w : world) :
  download_one http_get dt out n i id w =
    match download_arxiv_pdf http_get id out (encode_filename dt i id) w with
    | (Ok _, w1) =>
        if i <? n then
          (Ok tt, {| files := files w1;
                     trace := trace w1 ++ [Log DEBUG "Sleeping for 1 second before next download";
                                           Sleep 1] |})
        else (Ok tt, w1)
    | (Raise e, w1) =>
        (Ok tt, {| files := files w1;
                   trace := trace w1 ++
                     [Log ERROR ("Error downloading " +:+ id +:+ ": " +:+ exn_msg e);
                      Print ("    ❌ " +:+ "Error downloading " +:+ id +:+ ": " +:+ exn_msg e)] |})
    end.
Proof.
  unfold download_one, try_except, bind at 1.
  destruct (download_arxiv_pdf http_get _ _ _ _) as [[[]|e] w1].
  - destruct (i <? n); [|done]. unfold bind, log, sleep, emit. cbn [trace files].
    by rewrite <- app_assoc.
  - unfold bind, log, print, emit. cbn [trace files]. by rewrite <- app_assoc.
Qed.

Lemma download_one_ok dt out n i id w : (download_one http_get dt out n i id w).1 = Ok tt.
Proof.
  rewrite download_one_run. destruct (download_arxiv_pdf http_get _ _ _ _) as [[[]|e] w1]; [|done].
  by destruct (i <? n).
Qed.

Lemma download_all_ok dt out n i ids w : (download_all http_get dt out n i ids w).1 = Ok tt.
Proof.
  revert i w. induction ids as [|id ids IH]; intros i w; simpl; [done|].
  unfold bind. pose proof (download_one_ok dt out n i id w) as H.
  destruct (download_one http_get _ _ _ _ _ _) as [r w1]. simpl in H. subst r. apply IH.
Qed.

Lemma download_all_app dt out n i ids1 ids2 w :
  download_all http_get dt out n i (ids1 ++ ids2) w =
  download_all http_get dt out n (i + length ids1) ids2 (exec (download_all http_get dt out n i ids1) w).
Proof.
  revert i w. induction ids1 as [|id ids1 IH]; intros i w; simpl.
  - by rewrite Nat.add_0_r.
  - unfold exec, bind. pose proof (download_one_ok dt out n i id w) as H.
    destruct (download_one http_get _ _ _ _ _ _) as [r w1]. simpl in H. subst r.
    rewrite IH. by rewrite Nat.add_succ_r.
Qed.

Lemma download_all_snoc dt out n i ids id w :
  exec (download_all http_get dt out n i (ids ++ [id])) w =
  exec (download_one http_get dt out n (i + length ids) id) (exec (download_all http_get dt out n i ids) w).
Proof.
  unfold exec at 1. rewrite download_all_app. simpl. unfold bind, exec.
  by destruct (download_one http_get _ _ _ _ _ _) as [[[]|e] w1].
Qed.

Lemma process_date_ok out dt w : (process_date http_get select_anchors out dt w).1 = Ok tt.
Proof.
  unfold process_date, bind at 1, log at 1, emit at 1.
  unfold bind at 1, print at 1, emit at 1. unfold bind at 1, try_except, bind at 1.
  destruct (get_arxiv_ids http_get select_anchors _ _) as [[ids|e] w1].
  - unfold ret. apply download_all_ok.
  - unfold bind, log, print, emit, ret. done.
Qed.

Lemma for_each_ok {A} (body : A -> M unit) l w :
  (forall x w, (body x w).1 = Ok tt) -> (for_each l body w).1 = Ok tt.
Proof.
  intros Hb. revert w. induction l as [|x l IH]; intros w; simpl; [done|].
  unfold bind. pose proof (Hb x w) as H. destruct (body x w) as [r w1].
  simpl in H. subst r. apply IH.
Qed.

Lemma for_each_app {A} (body : A -> M unit) l1 l2 w :
  (forall x w, (body x w).1 = Ok tt) ->
  for_each (l1 ++ l2) body w = for_each l2 body (exec (for_each l1 body) w).
Proof.
  intros Hb. revert w. induction l1 as [|x l1 IH]; intros w; simpl; [done|].
  unfold exec, bind. pose proof (Hb x w) as H. destruct (body x w) as [r w1].
  simpl in H. subst r. apply IH.
Qed.

Lemma fetch_after id out f w : after w (exec (download_arxiv_pdf http_get id out f) w).
Proof. apply (emits_after (fun _ => True)). by apply fetch_emits. Qed.

Lemma download_one_after dt out n i id w : after w (exec (download_one http_get dt out n i id) w).
Proof.
  apply (emits_after (fun _ => True)). unfold download_one, log, print, sleep.
  emits_tac.
Qed.

Lemma download_all_emits dt out n i ids : emits (fun _ => True) (download_all http_get dt out n i ids).
Proof.
  revert i. induction ids as [|id ids IH]; intros i; simpl; emits_tac.
Qed.

Lemma hrefs_emits anchors : emits (fun _ => True) (hrefs_last_segment anchors).
Proof. induction anchors as [|[h|] l IH]; simpl; emits_tac. Qed.

Lemma get_arxiv_ids_emits dt : emits (fun _ => True) (get_arxiv_ids http_get select_anchors dt).
Proof.
  unfold get_arxiv_ids, log, raise_for_status. emits_tac; apply hrefs_emits.
Qed.

Lemma process_date_emits out dt : emits (fun _ => True) (process_date http_get select_anchors out dt).
Proof.
  unfold process_date, log, print.
  apply emits_bind; [emits_tac|intros _]. apply emits_bind; [emits_tac|intros _].
  apply emits_bind.
  - apply emits_try_except.
    + apply emits_bind; [apply get_arxiv_ids_emits | emits_tac].
    + emits_tac.
  - intros [ids|]; [apply download_all_emits | emits_tac].
Qed.

Lemma for_each_after {A} (body : A -> M unit) l w :
  (forall x, emits (fun _ => True) (body x)) -> after w (exec (for_each l body) w).
Proof. intros H. apply (emits_after (fun _ => True)). by apply emits_for_each. Qed.

End Batch.

Section Isolation.

Variable http_get : list event -> string -> http_result.
Variable select_anchors : string -> list (option string).

(** A guarded request shows in the trace, whatever follows it. *)
Lemma try_request_trace {A} url (f : response -> M A) (h : exn -> M A) (w : world) :
  (forall resp, emits (fun _ => True) (f resp)) ->
  (forall e, emits (fun _ => True) (h e)) ->
  exists evs,
    trace (exec (try_except (resp <- requests_get http_get url ;; f resp) h) w) =
    trace w ++ [HttpGet url] ++ evs.
Proof.
  intros Hf Hh.
  assert (Hm : emits (fun _ => True)
                 (try_except (resp <- requests_get http_get url ;; f resp) h)).
  { apply emits_try_except; [|done]. apply emits_bind; [|done].
    by apply emits_requests_get. }
  unfold exec, try_except, bind, requests_get.
  set (w1 := {| files := files w; trace := trace w ++ [HttpGet url] |}).
  destruct (http_get (trace w) url) as [resp|e].
  - destruct (Hf resp w1) as (e1 & H1 & _).
    destruct (f resp w1) as [[a|e] w2]; cbn [snd] in *.
    + exists e1. rewrite H1. subst w1. cbn [trace]. by rewrite <- app_assoc.
    + destruct (Hh e w2) as (e2 & H2 & _). exists (e1 ++ e2).
      rewrite H2, H1. subst w1. cbn [trace]. by rewrite <- !app_assoc.
  - destruct (Hh e w1) as (e2 & H2 & _). exists e2.
    rewrite H2. subst w1. cbn [trace]. by rewrite <- app_assoc.
Qed.

Lemma get_arxiv_ids_requests dt (w : world) :
  HttpGet (listing_url dt) ∈ trace (exec (get_arxiv_ids http_get select_anchors dt) w).
Proof.
  unfold exec, get_arxiv_ids, bind at 1, log at 1, emit at 1.
  match goal with |- context [try_except (bind _ ?f) ?h ?w1] =>
    destruct (try_request_trace (listing_url dt) f h w1) as (evs & Hevs)
  end.
  - intros resp. unfold raise_for_status, log. emits_tac; apply hrefs_emits.
  - intros e. unfold log. emits_tac.
  - unfold exec in Hevs. rewrite Hevs. rewrite !elem_of_app, list_elem_of_singleton.
    right. left. done.
Qed.

(** What [process_date] does once the listing is known. *)
Lemma process_date_run out dt (w : world) :
  process_date http_get select_anchors out dt w =
    match get_arxiv_ids http_get select_anchors dt (announced dt w) with
    | (Ok ids, wl) => download_all http_get dt out (length ids) 1 ids wl
    | (Raise e, wl) =>
        (Ok tt,
         {| files := files wl;
            trace := trace wl ++
              [Log ERROR ("Failed to get paper links for " +:+ str_datetime dt
                          +:+ ": " +:+ exn_msg e);
               Print ("❌ " +:+ "Failed to get paper links for " +:+ str_datetime dt
                      +:+ ": " +:+ exn_msg e)] |})
    end.
Proof.
  unfold process_date, announced, exec.
  unfold bind at 1, log at 1, emit at 1. unfold bind at 1, print at 1, emit at 1.
  unfold bind at 1, try_except, bind at 1.
  unfold bind at 3, log at 2, emit at 1. unfold print at 2, emit at 1. cbn [snd trace files].
  destruct (get_arxiv_ids http_get select_anchors dt _) as [[ids|e] wl]; [done|].
  unfold bind, log, print, emit, ret. cbn [trace files]. by rewrite <- app_assoc.
Qed.

Lemma announced_trace dt w :
  trace (announced dt w) =
  trace w ++ [Log INFO ("Processing date: " +:+ strftime_iso dt);
              Print (nl +:+ "=== " +:+ strftime_iso dt +:+ " ===")].
Proof. unfold announced, exec, bind, log, print, emit. cbn. by rewrite <- app_assoc. Qed.

Lemma main_run start_date end_date out (w : world) :
  main http_get select_anchors start_date end_date out w =
    (if (daterange start_date end_date).2
     then Raise (Exn OverflowError "date value out of range") else Ok tt,
     exec (for_each (daterange start_date end_date).1 (process_date http_get select_anchors out))
          (exec (main_prelude start_date end_date out) w)).
Proof.
  unfold main, bind at 1.
  assert ((main_prelude start_date end_date out w).1 = Ok tt) as Hp by done.
  unfold exec at 2. destruct (main_prelude _ _ _ _) as [r w0]. simpl in Hp. subst r.
  destruct (daterange _ _) as [dates ovf]. cbn [fst snd]. unfold bind, exec.
  pose proof (for_each_ok (process_date http_get select_anchors out) dates w0 (process_date_ok http_get select_anchors out)) as Hl.
  destruct (for_each _ _ _) as [r w1]. simpl in Hl. subst r. by destruct ovf.
Qed.

(** C6: a run of [main] ends normally, or by the overflow of the date
    counter after the last date, never by a failure of the listing or of
    a download.  Every date of the range is processed in full after the
    dates before it, whatever happened there: its listing is requested;
    when that raises, the error is logged; when it returns identifiers,
    every one of them is attempted after those before it, and an
    attempt that raises is logged. *)
Theorem failure_isolation (start_date end_date : datetime) (out : string) (w : world) :
  let dates := (daterange start_date end_date).1 in
  let w0 := exec (main_prelude start_date end_date out) w in
  let w_end := exec (main http_get select_anchors start_date end_date out) w in
  (main http_get select_anchors start_date end_date out w).1 =
    (if (daterange start_date end_date).2
     then Raise (Exn OverflowError "date value out of range") else Ok tt) /\
  forall k dt, dates !! k = Some dt ->
    let wk := exec (for_each (take k dates) (process_date http_get select_anchors out)) w0 in
    after (exec (process_date http_get select_anchors out dt) wk) w_end /\
    Log INFO ("Processing date: " +:+ strftime_iso dt) ∈ trace w_end /\
    HttpGet (listing_url dt) ∈ trace w_end /\
    match get_arxiv_ids http_get select_anchors dt (announced dt wk) with
    | (Raise e, _) =>
        Log ERROR ("Failed to get paper links for " +:+ str_datetime dt
                   +:+ ": " +:+ exn_msg e) ∈ trace w_end
    | (Ok ids, wl) =>
        forall j id, ids !! j = Some id ->
          let wj := exec (download_all http_get dt out (length ids) 1 (take j ids)) wl in
          let attempt := download_arxiv_pdf http_get id out (encode_filename dt (S j) id) wj in
          after attempt.2 w_end /\
          forall e, attempt.1 = Raise e ->
            Log ERROR ("Error downloading " +:+ id +:+ ": " +:+ exn_msg e) ∈ trace w_end
    end.
Proof.
  intros dates w0 w_end. split; [by rewrite main_run|].
  intros k dt Hk wk.
  assert (Hend : w_end = exec (for_each (drop (S k) dates) (process_date http_get select_anchors out))
                           (exec (process_date http_get select_anchors out dt) wk)).
  { unfold w_end, exec at 1. rewrite main_run. cbn [snd]. fold dates w0.
    rewrite <- (take_drop_middle dates k dt Hk) at 1.
    unfold exec at 1. rewrite for_each_app by apply process_date_ok.
    fold wk. cbn [for_each]. unfold bind, exec.
    pose proof (process_date_ok http_get select_anchors out dt wk) as Hp.
    destruct (process_date http_get select_anchors out dt wk) as [r w1]. simpl in Hp. by subst r. }
  assert (Hafter : after (exec (process_date http_get select_anchors out dt) wk) w_end).
  { rewrite Hend. apply for_each_after, process_date_emits. }
  split; [done|].
  assert (Hann : after (announced dt wk) (exec (process_date http_get select_anchors out dt) wk)).
  { unfold exec. rewrite process_date_run.
    pose proof (emits_after _ _ (announced dt wk)
                  (get_arxiv_ids_emits http_get select_anchors dt)) as Hg.
    destruct (get_arxiv_ids http_get select_anchors dt _) as [[ids|e] wl]; cbn [snd] in *.
    - eapply after_trans; [done|].
      apply (emits_after (fun _ => True)), download_all_emits.
    - eapply after_trans; [done|]. unfold after. cbn [trace]. by eexists. }
  split.
  { eapply after_elem; [done|]. eapply after_elem; [done|].
    rewrite announced_trace, !elem_of_app, !elem_of_cons. right. by left. }
  assert (Hlist : after (exec (get_arxiv_ids http_get select_anchors dt) (announced dt wk))
                    (exec (process_date http_get select_anchors out dt) wk)).
  { unfold exec. rewrite process_date_run.
    destruct (get_arxiv_ids http_get select_anchors dt _) as [[ids|e] wl]; cbn [snd].
    - apply (emits_after (fun _ => True)), download_all_emits.
    - unfold after. cbn [trace]. by eexists. }
  split.
  { eapply after_elem; [done|]. eapply after_elem; [done|].
    apply get_arxiv_ids_requests. }
  pose proof (process_date_run out dt wk) as Hrun.
  destruct (get_arxiv_ids http_get select_anchors dt (announced dt wk)) as [[ids|e] wl].
  - intros j id Hj wj attempt.
    assert (Hdate : exec (process_date http_get select_anchors out dt) wk =
              exec (download_all http_get dt out (length ids) (S (S j)) (drop (S j) ids))
                   (exec (download_one http_get dt out (length ids) (S j) id) wj)).
    { unfold exec at 1. rewrite Hrun.
      rewrite <- (take_drop_middle ids j id Hj) at 2.
      rewrite download_all_app. fold wj.
      rewrite length_take_le by (apply lookup_lt_Some in Hj; lia).
      cbn [download_all]. unfold bind, exec.
      pose proof (download_one_ok http_get dt out (length ids) (1 + j) id wj) as Ho.
      destruct (download_one http_get _ _ _ _ _ _) as [r w1]. simpl in Ho. by subst r. }
    assert (Hone : after (exec (download_one http_get dt out (length ids) (S j) id) wj) w_end).
    { eapply after_trans; [|done]. rewrite Hdate.
      apply (emits_after (fun _ => True)), download_all_emits. }
    unfold exec in Hone. rewrite download_one_run in Hone. fold attempt in Hone.
    destruct attempt as [[[]|e] w1]; cbn [fst snd].
    + split; [|done]. destruct (S j <? length ids); [|done].
      eapply after_trans; [|done]. unfold after. cbn [snd trace]. by eexists.
    + split.
      * eapply after_trans; [|done]. unfold after. cbn [snd trace]. by eexists.
      * intros e' [= <-]. eapply after_elem; [done|]. cbn [snd trace].
        rewrite !elem_of_app, !elem_of_cons. right. by left.
  - eapply after_elem; [exact Hafter|]. unfold exec. rewrite Hrun. cbn [snd trace].
    rewrite !elem_of_app, !elem_of_cons. right. by left.
Qed.

(** What separates one attempt from the next: the fetcher itself never
    sleeps; after an attempt that returns (a download, a skip or a soft
    failure) the loop sleeps one second unless the identifier is the
    last; after an attempt that raises it logs the error and does not
    sleep. *)
Lemma pacing_between_attempts dt (out : string) (ids : list string) j id (w : world) :
  ids !! j = Some id ->
  let n := length ids in
  let wj := exec (download_all http_get dt out n 1 (take j ids)) w in
  let attempt := download_arxiv_pdf http_get id out (encode_filename dt (S j) id) wj in
  let wj1 := exec (download_all http_get dt out n 1 (take (S j) ids)) w in
  slept (trace attempt.2) = slept (trace wj) /\
  match attempt.1 with
  | Ok _ =>
      if S j <? n
      then trace wj1 = trace attempt.2 ++
             [Log DEBUG "Sleeping for 1 second before next download"; Sleep 1]
      else wj1 = attempt.2
  | Raise e =>
      trace wj1 = trace attempt.2 ++
        [Log ERROR ("Error downloading " +:+ id +:+ ": " +:+ exn_msg e);
         Print ("    ❌ " +:+ "Error downloading " +:+ id +:+ ": " +:+ exn_msg e)]
  end.
Proof.
  intros Hj n wj attempt wj1. split.
  { apply emits_slept, fetch_emits. auto. }
  assert (wj1 = exec (download_one http_get dt out n (S j) id) wj) as ->.
  { unfold wj1. rewrite (take_S_r _ _ _ Hj), download_all_snoc.
    rewrite length_take_le by (apply lookup_lt_Some in Hj; lia). done. }
  unfold exec at 1 2 3. rewrite download_one_run. fold attempt.
  destruct attempt as [[[]|e] w1]; cbn [fst snd]; [|done].
  by destruct (S j <? n).
Qed.

End Isolation.

(** ** The summary generator *)

Section Summaries.

Variable markitdown_convert : string -> result string.
Variable listdir : string -> list string.

(** One turn of the loop: a summary is written, or the failure of the
    converter is logged and nothing is written. *)
Lemma process_paper_run md processed p (w : world) :
  process_paper markitdown_convert md processed p w =
    match markitdown_convert (p_path p) with
    | Ok summary =>
        (Ok (processed ++ [md_path md p]),
         {| files := <[md_path md p := md_content p summary]> (files w);
            trace := trace w ++
              [Log INFO ("Processing PDF with MarkItDown: " +:+ p_path p);
               Log INFO ("Created markdown for paper: " +:+ md_path md p)] |})
    | Raise e =>
        (Ok processed,
         {| files := files w;
            trace := trace w ++
              [Log INFO ("Processing PDF with MarkItDown: " +:+ p_path p);
               Log ERROR ("Error processing PDF " +:+ p_path p +:+ ": " +:+ exn_msg e)] |})
    end.
Proof.
  unfold process_paper, try_except, bind at 1, log at 1, emit at 1.
  unfold bind at 1, of_result. cbn [trace files].
  destruct (markitdown_convert (p_path p)) as [summary|e].
  - unfold bind, open_truncate, write, log, emit, ret. cbn [trace files].
    rewrite lookup_insert_eq, insert_insert_eq. cbn [default String.append].
    by rewrite <- app_assoc.
  - unfold bind, log, emit, ret. cbn [trace files]. by rewrite <- app_assoc.
Qed.

(** The loop changes only the summaries of the papers it is given. *)
Lemma process_papers_writes md papers : forall processed (w : world),
  exists written w',
    process_papers markitdown_convert md processed papers w = (Ok (processed ++ written), w') /\
    (forall path, path ∈ written -> exists p, p ∈ papers /\ path = md_path md p) /\
    (forall path, files w' !! path <> files w !! path -> path ∈ written).
Proof.
  induction papers as [|p papers IH]; intros processed w.
  - exists [], w. simpl. rewrite app_nil_r. split; [done|]. split; [|done].
    intros path H. by apply elem_of_nil in H.
  - cbn [process_papers]. unfold bind. rewrite process_paper_run.
    destruct (markitdown_convert (p_path p)) as [summary|e].
    + edestruct IH as (written & w' & -> & Hw & Hf).
      exists (md_path md p :: written), w'. split; [by rewrite <- app_assoc|]. split.
      * intros path [->|H]%elem_of_cons.
        -- exists p. split; [apply list_elem_of_here|done].
        -- destruct (Hw _ H) as (p' & Hp' & ->). exists p'.
           split; [by apply list_elem_of_further|done].
      * intros path Hne. destruct (decide (path = md_path md p)) as [->|Hp].
        -- apply list_elem_of_here.
        -- apply list_elem_of_further, Hf. cbn [files].
           by rewrite lookup_insert_ne.
    + edestruct IH as (written & w' & -> & Hw & Hf).
      exists written, w'. split; [done|]. split.
      * intros path H. destruct (Hw _ H) as (p' & Hp' & ->). exists p'.
        split; [by apply list_elem_of_further|done].
      * intros path Hne. by apply Hf.
Qed.

(** The papers collected are those the codec decodes within the range. *)
Lemma collect_papers_sound dir s e names papers :
  collect_papers dir s e names = Ok papers ->
  forall p, p ∈ papers ->
    exists name, name ∈ names /\
                 extract_paper_info (Path.join dir name) = Ok (Some p) /\
                 in_range s e p = true.
Proof.
  revert papers. induction names as [|name names IH]; intros papers; simpl.
  - intros [= <-] p H. by apply elem_of_nil in H.
  - destruct (extract_paper_info (Path.join dir name)) as [info|] eqn:Hx; [|done].
    destruct (collect_papers dir s e names) as [papers'|]; [|done].
    assert (Hrest : forall p, p ∈ papers' -> exists name0, name0 ∈ name :: names /\
              extract_paper_info (Path.join dir name0) = Ok (Some p) /\
              in_range s e p = true).
    { intros p Hp. destruct (IH _ eq_refl p Hp) as (n0 & Hn0 & ?).
      exists n0. split; [by apply list_elem_of_further|done]. }
    destruct info as [p0|]; [|by intros [= <-]].
    destruct (in_range s e p0) eqn:Hr; intros [= <-]; [|done].
    intros p [->|Hp]%elem_of_cons; [|by apply Hrest].
    exists name. split; [apply list_elem_of_here|done].
Qed.

Lemma collect_papers_complete dir s e names :
  (forall name, name ∈ names -> forall ex, extract_paper_info (Path.join dir name) <> Raise ex) ->
  exists papers,
    collect_papers dir s e names = Ok papers /\
    forall name p, name ∈ names ->
      extract_paper_info (Path.join dir name) = Ok (Some p) ->
      in_range s e p = true -> p ∈ papers.
Proof.
  induction names as [|name names IH]; intros Hno; simpl.
  - exists []. split; [done|]. intros name p H. by apply elem_of_nil in H.
  - destruct IH as (papers & -> & Hin).
    { intros n Hn. apply Hno. by apply list_elem_of_further. }
    destruct (extract_paper_info (Path.join dir name)) as [info|ex] eqn:Hx.
    2:{ by destruct (Hno name (list_elem_of_here _ _) ex). }
    destruct info as [p0|].
    + destruct (in_range s e p0) eqn:Hr.
      * exists (p0 :: papers). split; [done|].
        intros n p [->|Hn]%elem_of_cons Hp Hrp.
        -- rewrite Hx in Hp. injection Hp as ->. apply list_elem_of_here.
        -- apply list_elem_of_further. by eapply Hin.
      * exists papers. split; [done|].
        intros n p [->|Hn]%elem_of_cons Hp Hrp; [|by eapply Hin].
        rewrite Hx in Hp. injection Hp as ->. congruence.
    + exists papers. split; [done|].
      intros n p [->|Hn]%elem_of_cons Hp Hrp; [|by eapply Hin].
      rewrite Hx in Hp. done.
Qed.

(** Every name that decodes and whose summary would be
    [20240615_paper1_2401.00001.md] carries the same date, number and
    identifier. *)
Lemma same_summary_same_header (pdf_path md : string) p :
  extract_paper_info pdf_path = Ok (Some p) ->
  md_path md p = Path.join md "20240615_paper1_2401.00001.md" ->
  p_date p = "2024-06-15" /\ p_number p = 1 /\ p_arxiv_id p = "2401.00001".
Proof.
  intros Hx Hmd.
  destruct (decode_some_shape _ _ Hx)
    as (D & N & rest & dt & Hshape & Hdt & Hdate & Hnum & Hfn & _).
  destruct Hshape as (Hf & HDl & HD & HN0 & HN & Hid0 & Hid).
  set (f := Path.basename pdf_path) in *.
  assert (Hslash : Str.mem "/" f = false) by apply after_last_no_mem.
  assert (Hroot : Path.drop_ext f false = "20240615_paper1_2401.00001").
  { unfold md_path in Hmd. rewrite Hfn, splitext_root_name in Hmd by done.
    apply join_inj in Hmd; [|  | done].
    { change "20240615_paper1_2401.00001.md"
        with ("20240615_paper1_2401.00001" +:+ ".md") in Hmd.
      by apply app_inv_tail_s in Hmd. }
    apply startswith_slash. by rewrite mem_app_s, drop_ext_no_slash. }
  destruct (drop_ext_split f false) as (e & He & Hcase). rewrite Hroot in He.
  rewrite He in Hf. clear He Hroot Hmd Hfn Hslash Hx. clearbody f. clear f.
  do 8 (destruct D as [|? D]; [done|]). destruct D; [|done]. clear HDl HD.
  simpl in Hf. injection Hf as <- <- <- <- <- <- <- <- Hf.
  destruct N as [|n1 N]; [done|]. simpl in Hf. injection Hf as <- Hf.
  destruct N as [|n2 N]; simpl in Hf; injection Hf as Hf'.
  2:{ subst n2. simpl in HN. done. }
  clear HN HN0.
  assert (Hidv : p_arxiv_id p = "2401.00001").
  { destruct (p_arxiv_id p) as [|c1 id]; [done|]. simpl in Hf'. injection Hf' as <- Hf'.
    do 9 (destruct id as [|? id]; simpl in Hf'; [by simplify_eq|injection Hf' as <- Hf']).
    destruct id as [|c id]; [done|]. exfalso.
    destruct Hcase as [->|(e' & -> & He')]; [done|].
    simpl in Hf'. injection Hf' as <- Hf'. subst e'.
    rewrite mem_app_s in He'. simpl in He'. by rewrite orb_true_r in He'. }
  split; [|split; [by rewrite Hnum|done]].
  rewrite Hdate. vm_compute in Hdt. by injection Hdt as <-.
Qed.

(** A property of the content at path [P] that every summary written
    there has, holds at the end as soon as one such summary is written,
    and is kept once it holds. *)
Lemma process_papers_target md (P : string) (Q : string -> Prop) papers :
  (forall p summary, p ∈ papers -> md_path md p = P -> Q (md_content p summary)) ->
  forall processed (w : world),
    (exists c, files w !! P = Some c /\ Q c) \/
    (exists p summary, p ∈ papers /\ md_path md p = P /\
                       markitdown_convert (p_path p) = Ok summary) ->
    exists c, files (exec (process_papers markitdown_convert md processed papers) w) !! P
              = Some c /\ Q c.
Proof.
  induction papers as [|p papers IH]; intros HQ processed w Hor.
  - destruct Hor as [H|(p & ? & Hp & _)]; [done | by apply elem_of_nil in Hp].
  - unfold exec. cbn [process_papers]. unfold bind. rewrite process_paper_run.
    assert (HQ' : forall p0 summary, p0 ∈ papers -> md_path md p0 = P ->
                                      Q (md_content p0 summary)).
    { intros p0 t Hp0. apply HQ. by apply list_elem_of_further. }
    destruct (markitdown_convert (p_path p)) as [summary|e] eqn:Hc.
    + apply (IH HQ'). destruct (decide (md_path md p = P)) as [Heq|Hne].
      * left. exists (md_content p summary). cbn [files].
        rewrite Heq, lookup_insert_eq. split; [done|].
        apply HQ; [apply list_elem_of_here | done].
      * destruct Hor as [(c & Hc' & HQc)|(p0 & t & Hp0 & Hmp & Hconv)].
        -- left. exists c. cbn [files]. by rewrite lookup_insert_ne.
        -- apply elem_of_cons in Hp0 as [->|Hp0]; [done|]. right. by exists p0, t.
    + apply (IH HQ'). destruct Hor as [(c & Hc' & HQc)|(p0 & t & Hp0 & Hmp & Hconv)].
      * left. by exists c.
      * apply elem_of_cons in Hp0 as [->|Hp0]; [congruence|]. right. by exists p0, t.
Qed.

(** A paper the converter handles is in the list the loop returns. *)
Lemma process_papers_lists md papers p summary :
  p ∈ papers -> markitdown_convert (p_path p) = Ok summary ->
  forall processed (w : world),
    exists l, (process_papers markitdown_convert md processed papers w).1 = Ok l /\
              md_path md p ∈ l /\ (forall x, x ∈ processed -> x ∈ l).
Proof.
  intros Hp Hc. induction papers as [|p0 papers IH]; intros processed w.
  - by apply elem_of_nil in Hp.
  - cbn [process_papers]. unfold bind. rewrite process_paper_run.
    apply elem_of_cons in Hp as [<-|Hp].
    + rewrite Hc.
      destruct (process_papers_writes md papers
                  (processed ++ [md_path md p])
                  {| files := <[md_path md p := md_content p summary]> (files w);
                     trace := trace w ++
                       [Log INFO ("Processing PDF with MarkItDown: " +:+ p_path p);
                        Log INFO ("Created markdown for paper: " +:+ md_path md p)] |})
        as (written & w' & -> & _).
      eexists. split; [done|]. split.
      * rewrite !elem_of_app, list_elem_of_singleton. left. by right.
      * intros x Hx. rewrite !elem_of_app. left. by left.
    + destruct (markitdown_convert (p_path p0)).
      * edestruct (IH Hp) as (l & -> & Hl & Hsub). exists l. split; [done|].
        split; [done|]. intros x Hx. apply Hsub. apply elem_of_app. by left.
      * edestruct (IH Hp) as (l & -> & Hl & Hsub). exists l. done.
Qed.

Lemma generate_markdown_run papers_dir md s e (w : world) papers :
  collect_papers papers_dir s e (listdir papers_dir) = Ok papers ->
  exists l w1,
    process_papers markitdown_convert md [] papers w = (Ok l, w1) /\
    generate_markdown markitdown_convert listdir papers_dir md s e w =
      (Ok l, {| files := files w1;
                trace := trace w1 ++
                  [Log INFO ("Processed " +:+ Str.of_nat (length l)
                             +:+ " papers into markdown files")] |}).
Proof.
  intros Hc. unfold generate_markdown, bind at 1, of_result. rewrite Hc.
  destruct (process_papers_writes md papers [] w)
    as (written & w1 & Hrun & _).
  exists written, w1. split; [done|]. unfold bind. by rewrite Hrun.
Qed.

Lemma generate_markdown_raise papers_dir md s e (w : world) ex :
  collect_papers papers_dir s e (listdir papers_dir) = Raise ex ->
  generate_markdown markitdown_convert listdir papers_dir md s e w = (Raise ex, w).
Proof. intros Hc. unfold generate_markdown, bind, of_result. by rewrite Hc. Qed.

(** C8, as amended: whatever the directory and the range,
    [generate_markdown] changes a file, or returns a path, only if it is
    the summary of a file of the directory whose name the codec decodes
    to a date within the range.  With one such file in the directory
    and one that decodes to a date outside the range, in either order,
    exactly one summary is written and returned, for the file in the
    range, when the converter returns on that file; when the converter
    raises on it, none is. *)
Theorem summaries_only_for_decoded_in_range papers_dir md s e (w : world) :
  let out := generate_markdown markitdown_convert listdir papers_dir md s e w in
  let decoded_in_range := fun path =>
    exists name p, name ∈ listdir papers_dir /\
                   extract_paper_info (Path.join papers_dir name) = Ok (Some p) /\
                   in_range s e p = true /\ path = md_path md p in
  (forall path, files out.2 !! path <> files w !! path -> decoded_in_range path) /\
  (forall l path, out.1 = Ok l -> path ∈ l -> decoded_in_range path) /\
  (forall f_in f_out p_in p_out,
     listdir papers_dir = [f_in; f_out] \/ listdir papers_dir = [f_out; f_in] ->
     extract_paper_info (Path.join papers_dir f_in) = Ok (Some p_in) ->
     in_range s e p_in = true ->
     extract_paper_info (Path.join papers_dir f_out) = Ok (Some p_out) ->
     in_range s e p_out = false ->
     match markitdown_convert (p_path p_in) with
     | Ok summary =>
         out.1 = Ok [md_path md p_in] /\
         files out.2 = <[md_path md p_in := md_content p_in summary]> (files w)
     | Raise _ => out.1 = Ok [] /\ files out.2 = files w
     end).
Proof.
  intros out decoded_in_range.
  assert (Hgen : forall path,
    files out.2 !! path <> files w !! path \/ (exists l, out.1 = Ok l /\ path ∈ l) ->
    decoded_in_range path).
  { intros path Hpath. unfold out in Hpath.
    destruct (collect_papers papers_dir s e (listdir papers_dir)) as [papers|ex] eqn:Hc.
    - destruct (generate_markdown_run papers_dir md s e w papers Hc)
        as (l & w1 & Hrun & Hgm).
      rewrite Hgm in Hpath. cbn [fst snd files] in Hpath.
      destruct (process_papers_writes md papers [] w)
        as (written & w1' & Hrun' & Hw & Hf).
      rewrite Hrun in Hrun'. injection Hrun' as -> <-.
      assert (Hin : path ∈ written).
      { destruct Hpath as [Hne|(l & [= <-] & Hl)]; [by apply Hf | done]. }
      destruct (Hw _ Hin) as (p & Hp & ->).
      destruct (collect_papers_sound _ _ _ _ _ Hc p Hp) as (name & Hn & Hx & Hr).
      by exists name, p.
    - rewrite (generate_markdown_raise _ _ _ _ _ _ Hc) in Hpath.
      by destruct Hpath as [Hne|(l & [= ] & _)]. }
  split; [intros path H; apply Hgen; by left|].
  split; [intros l path Hl Hp; apply Hgen; right; by exists l|].
  intros f_in f_out p_in p_out Hdir Hin Hrin Hout Hrout.
  assert (Hc : collect_papers papers_dir s e (listdir papers_dir) = Ok [p_in]).
  { destruct Hdir as [-> | ->]; simpl; by rewrite Hin, Hout, Hrin, Hrout. }
  destruct (generate_markdown_run papers_dir md s e w [p_in] Hc) as (l & w1 & Hrun & Hgm).
  unfold out. rewrite Hgm. cbn [fst snd files].
  cbn [process_papers] in Hrun. unfold bind in Hrun. rewrite process_paper_run in Hrun.
  destruct (markitdown_convert (p_path p_in)); injection Hrun as <- <-; done.
Qed.

Lemma sample_paper_decodes papers_dir :
  extract_paper_info (Path.join papers_dir sample_name) = Ok (Some (sample_paper papers_dir)).
Proof.
  apply (encode_decodes papers_dir (Date 2024 6 15) 1 "2401.00001");
  [reflexivity | apply Nat.leb_le; reflexivity | done | reflexivity | reflexivity].
Qed.

Lemma sample_content_shape papers_dir summary :
  Str.first_line (md_content (sample_paper papers_dir) summary) = "# Paper: 2401.00001" /\
  Str.contains "https://arxiv.org/abs/2401.00001"
               (md_content (sample_paper papers_dir) summary) = true.
Proof. split; vm_compute; reflexivity. Qed.

(** C9: let the source directory contain
    [20240615_paper1_2401.00001.pdf] (and no name on which the codec
    raises), let the range cover 15 June 2024 and let the converter
    return on that file.  After [generate_markdown] the destination
    directory holds [20240615_paper1_2401.00001.md], which is among the
    paths returned; its first line is [# Paper: 2401.00001] and it
    contains [https://arxiv.org/abs/2401.00001].  Its text is one that
    [md_content] builds: what was at that path before is gone. *)
Theorem summary_document_shape papers_dir md s e (w : world) summary :
  sample_name ∈ listdir papers_dir ->
  (forall name, name ∈ listdir papers_dir ->
     forall ex, extract_paper_info (Path.join papers_dir name) <> Raise ex) ->
  date_leb s (Date 2024 6 15) = true -> date_leb (Date 2024 6 15) e = true ->
  markitdown_convert (Path.join papers_dir sample_name) = Ok summary ->
  let out := generate_markdown markitdown_convert listdir papers_dir md s e w in
  let target := Path.join md "20240615_paper1_2401.00001.md" in
  exists l content,
    out.1 = Ok l /\ target ∈ l /\
    files out.2 !! target = Some content /\
    Str.first_line content = "# Paper: 2401.00001" /\
    Str.contains "https://arxiv.org/abs/2401.00001" content = true /\
    exists text, content = md_content (sample_paper papers_dir) text.
Proof.
  intros Hin Hno Hs He Hconv out target.
  pose proof (sample_paper_decodes papers_dir) as Hx.
  assert (Hr : in_range s e (sample_paper papers_dir) = true).
  { unfold in_range. change (date_of_iso (p_date (sample_paper papers_dir)))
      with (date_of_iso "2024-06-15").
    replace (date_of_iso "2024-06-15") with (Date 2024 6 15) by (vm_compute; reflexivity).
    by rewrite Hs, He. }
  destruct (collect_papers_complete papers_dir s e (listdir papers_dir) Hno)
    as (papers & Hc & Hall).
  pose proof (Hall _ _ Hin Hx Hr) as Hp.
  destruct (generate_markdown_run papers_dir md s e w papers Hc) as (l & w1 & Hrun & Hgm).
  assert (Htarget : md_path md (sample_paper papers_dir) = target) by done.
  destruct (process_papers_lists md papers _ _ Hp Hconv [] w) as (l' & Hl' & Hlin & _).
  rewrite Hrun in Hl'. injection Hl' as <-.
  destruct (process_papers_target md target
              (fun c => exists text, c = md_content (sample_paper papers_dir) text) papers)
    with (processed := @nil string) (w := w) as (content & Hcontent & text & ->).
  { intros p t Hpin Hmp.
    destruct (collect_papers_sound _ _ _ _ _ Hc p Hpin) as (name & _ & Hxp & _).
    destruct (same_summary_same_header _ _ _ Hxp Hmp) as (Hd & Hn & Hi).
    exists t. unfold md_content, arxiv_url, huggingface_url. rewrite Hd, Hn, Hi. done. }
  { right. by exists (sample_paper papers_dir), summary. }
  unfold exec in Hcontent. rewrite Hrun in Hcontent.
  exists l, (md_content (sample_paper papers_dir) text).
  unfold out. rewrite Hgm. cbn [fst snd files].
  destruct (sample_content_shape papers_dir text) as [H1 H2].
  split; [done|]. split; [by rewrite <- Htarget|]. split; [done|].
  split; [done|]. split; [done|]. by exists text.
Qed.

End Summaries.

(** ** The theorems at sample inputs *)

(** C3 on a world that has the file: two calls in a row request nothing. *)
Lemma fetch_skips_existing_file_witness :
  exists w',
    download_arxiv_pdf http_up "2401.00001" "papers" "20240615_paper1_2401.00001.pdf"
      w_downloaded = (Ok tt, w') /\
    files w' = files w_downloaded /\
    requests (trace w') = requests (trace w_downloaded) /\
    exists w'',
      download_arxiv_pdf http_up "2401.00001" "papers" "20240615_paper1_2401.00001.pdf"
        w' = (Ok tt, w'') /\
      files w'' = files w_downloaded /\
      requests (trace w'') = requests (trace w_downloaded).
Proof.
  apply (fetch_skips_existing_file http_up "2401.00001" "papers"
           "20240615_paper1_2401.00001.pdf" w_downloaded).
  exists "%PDF-1.7". vm_compute. reflexivity.
Defined.

(** C4 against a host that answers 404. *)
Lemma fetch_soft_failure_witness :
  exists w',
    download_arxiv_pdf http_missing "2401.00001" "papers" "20240615_paper1_2401.00001.pdf"
      w_empty = (Ok tt, w') /\
    files w' = files w_empty /\
    files w' !! Path.join "papers" "20240615_paper1_2401.00001.pdf" = None /\
    Log WARNING ("PDF not found for " +:+ "2401.00001" +:+ " (status "
                 +:+ Str.of_nat (status_code sample_missing) +:+ ")") ∈ trace w'.
Proof.
  apply (fetch_soft_failure http_missing "2401.00001" "papers"
           "20240615_paper1_2401.00001.pdf" w_empty sample_missing);
    [vm_compute; reflexivity | reflexivity | discriminate].
Defined.

(** C5 on a page with eight anchors. *)
Lemma listing_takes_first_five_witness :
  (get_arxiv_ids http_up eight_anchors (Date 2024 6 15) w_empty).1 =
    Ok ["2401.00001"; "2401.00002"; "2401.00003"; "2401.00004"; "2401.00005"].
Proof.
  destruct (listing_takes_first_five http_up eight_anchors (Date 2024 6 15) w_empty
              sample_page) as (_ & H & _); [reflexivity | left; simpl; lia |].
  destruct (H ["/papers/2401.00001"; "/papers/2401.00002"; "/papers/2401.00003";
               "/papers/2401.00004"; "/papers/2401.00005"; "/papers/2401.00006";
               "/papers/2401.00007"; "/papers/2401.00008"]) as [H1 _]; [reflexivity|].
  exact H1.
Defined.

(** C6 on a run where the listing of the first of two dates fails: the
    failure is logged and the listing of the second date is requested. *)
Lemma failure_isolation_witness :
  let w_end := exec (main http_listing_down_once two_anchors
                       (Date 2024 6 14) (Date 2024 6 15) "papers") w_empty in
  Log ERROR ("Failed to get paper links for " +:+ str_datetime (Date 2024 6 14)
             +:+ ": " +:+ "connection refused") ∈ trace w_end /\
  HttpGet (listing_url (Date 2024 6 15)) ∈ trace w_end.
Proof.
  destruct (failure_isolation http_listing_down_once two_anchors
              (Date 2024 6 14) (Date 2024 6 15) "papers" w_empty) as [_ H].
  split.
  - destruct (H 0 (Date 2024 6 14)) as (_ & _ & _ & H0); [reflexivity|]. exact H0.
  - destruct (H 1 (Date 2024 6 15)) as (_ & _ & H1 & _); [reflexivity|]. exact H1.
Defined.

(** C7 at a failing input: the listing of 15 June 2024 gives two
    identifiers and the document host cannot be reached.  Both downloads
    are attempted, one right after the other: the run does not sleep
    between them, where the claim has a one-second sleep between every
    two consecutive attempts, those that raise included. *)
Theorem no_pause_after_failed_attempt :
  let w_end := exec (main http_docs_down two_anchors
                       (Date 2024 6 15) (Date 2024 6 15) "papers") w_empty in
  requests (trace w_end) =
    [listing_url (Date 2024 6 15); pdf_url "2401.00001"; pdf_url "2401.00002"] /\
  slept (trace w_end) = 0.
Proof. vm_compute. split; reflexivity. Qed.

(** The same run with the document host up sleeps once, between the two
    downloads, and not after the second. *)
Lemma pause_between_downloads :
  let w_end := exec (main http_up two_anchors
                       (Date 2024 6 15) (Date 2024 6 15) "papers") w_empty in
  slept (trace w_end) = 1 /\ last (trace w_end) = Some (Print ("    ↳ Downloaded: " +:+ pdf_url "2401.00002")).
Proof. vm_compute. split; reflexivity. Qed.

(** C8 on a directory of two papers, one in the range: one summary. *)
Lemma summaries_only_for_decoded_in_range_witness :
  let out := generate_markdown convert_ok two_papers "papers" "summaries"
               (Date 2024 6 15) (Date 2024 6 15) w_empty in
  out.1 = Ok ["summaries/20240615_paper1_2401.00001.md"] /\
  files out.2 = <[ "summaries/20240615_paper1_2401.00001.md" :=
                   md_content (sample_paper "papers") "Abstract." ]> ∅.
Proof.
  destruct (summaries_only_for_decoded_in_range convert_ok two_papers "papers" "summaries"
              (Date 2024 6 15) (Date 2024 6 15) w_empty) as (_ & _ & H).
  apply (H sample_name "20240101_paper1_2312.00001.pdf" (sample_paper "papers")
           {| p_date := "2024-01-01"; p_number := 1; p_arxiv_id := "2312.00001";
              p_filename := "20240101_paper1_2312.00001.pdf";
              p_path := "papers/20240101_paper1_2312.00001.pdf" |});
    [by left | vm_compute; reflexivity..].
Defined.

(** C8 as stated fails: with one paper in the range and one outside it,
    no summary is written when the converter raises on the paper in the
    range; the claim has exactly one written. *)
Lemma no_summary_when_converter_fails :
  let out := generate_markdown convert_fails two_papers "papers" "summaries"
               (Date 2024 6 15) (Date 2024 6 15) w_empty in
  (exists p_in p_out,
     extract_paper_info (Path.join "papers" sample_name) = Ok (Some p_in) /\
     in_range (Date 2024 6 15) (Date 2024 6 15) p_in = true /\
     extract_paper_info (Path.join "papers" "20240101_paper1_2312.00001.pdf")
       = Ok (Some p_out) /\
     in_range (Date 2024 6 15) (Date 2024 6 15) p_out = false) /\
  out.1 = Ok [] /\ files out.2 = ∅.
Proof.
  split.
  - eexists _, _. repeat split; vm_compute; reflexivity.
  - vm_compute. split; reflexivity.
Qed.

(** C9 on the directory of two papers, with a summary already there. *)
Lemma summary_document_shape_witness :
  let w := {| files := {[ "summaries/20240615_paper1_2401.00001.md" := "old" ]};
              trace := [] |} in
  let out := generate_markdown convert_ok two_papers "papers" "summaries"
               (Date 2024 6 14) (Date 2024 6 15) w in
  exists l content,
    out.1 = Ok l /\ "summaries/20240615_paper1_2401.00001.md" ∈ l /\
    files out.2 !! "summaries/20240615_paper1_2401.00001.md" = Some content /\
    Str.first_line content = "# Paper: 2401.00001" /\
    Str.contains "https://arxiv.org/abs/2401.00001" content = true /\
    exists text, content = md_content (sample_paper "papers") text.
Proof.
  apply (summary_document_shape convert_ok two_papers "papers" "summaries"
           (Date 2024 6 14) (Date 2024 6 15) _ "Abstract.").
  - apply list_elem_of_here.
  - intros name Hname ex. unfold two_papers in Hname.
    apply elem_of_cons in Hname as [->|Hname]; [vm_compute; discriminate|].
    apply list_elem_of_singleton in Hname as ->. vm_compute. discriminate.
  - reflexivity.
  - reflexivity.
  - reflexivity.
Defined.

(** ** The date range generator, continued *)

Section DateRangeMore.

Lemma date_leb_iff d1 d2 :
date_leb d1 d2 = true <->
year d1 < year d2 \/
(year d1 = year d2 /\ (month d1 < month d2 \/ (month d1 = month d2 /\ day d1 <= day d2))).
Proof.
unfold date_leb.
rewrite orb_true_iff, andb_true_iff, orb_true_iff, andb_true_iff.
rewrite !Nat.ltb_lt, !Nat.eqb_eq, Nat.leb_le. tauto.
Qed.

Lemma date_leb_refl d : date_leb d d = true.
Proof. apply date_leb_iff. lia. Qed.

Lemma date_leb_trans d1 d2 d3 :
date_leb d1 d2 = true -> date_leb d2 d3 = true -> date_leb d1 d3 = true.
Proof. rewrite !date_leb_iff. lia. Qed.

Lemma date_eq_fields d1 d2 :
year d1 = year d2 -> month d1 = month d2 -> day d1 = day d2 -> d1 = d2.
Proof. destruct d1, d2; simpl; congruence. Qed.

(** No date lies strictly between a date and the next one. *)
Lemma next_day_tight cur next end_date :
valid_date cur = true -> valid_date end_date = true ->
next_day cur = Some next ->
date_leb cur end_date = true -> date_leb next end_date = false ->
cur = end_date.
Proof.
intros (Hy & Hm & Hd)%valid_date_inv (Hy' & Hm' & Hd')%valid_date_inv Hn Hle Hnle.
apply date_leb_iff in Hle. apply not_true_iff_false in Hnle.
rewrite date_leb_iff in Hnle.
pose proof (days_in_month_bounds (year end_date) (month end_date)) as Hb.
unfold next_day in Hn.
destruct (Nat.ltb_spec (day cur) (days_in_month (year cur) (month cur))).
{ injection Hn as <-. cbn [year month day] in Hnle. apply date_eq_fields; lia. }
destruct (Nat.ltb_spec (month cur) 12).
{ injection Hn as <-. cbn [year month day] in Hnle.
  assert (year cur = year end_date) as Ey by lia.
  assert (month cur = month end_date) as Em by lia.
  rewrite <- Ey, <- Em in Hd'. apply date_eq_fields; lia. }
destruct (Nat.ltb_spec (year cur) MAXYEAR); [|done].
injection Hn as <-. cbn [year month day] in Hnle.
assert (year cur = year end_date) as Ey by lia.
assert (month cur = month end_date) as Em by lia.
rewrite <- Ey, <- Em in Hd'. apply date_eq_fields; lia.
Qed.

(** The last date [datetime] can hold is below no other. *)
Lemma next_day_none_max cur end_date :
valid_date cur = true -> valid_date end_date = true ->
next_day cur = None -> date_leb cur end_date = true -> cur = end_date.
Proof.
intros (Hy & Hm & Hd)%valid_date_inv (Hy' & Hm' & Hd')%valid_date_inv Hn Hle.
apply date_leb_iff in Hle.
pose proof (days_in_month_bounds (year end_date) (month end_date)) as Hb.
pose proof (days_in_month_bounds (year cur) (month cur)).
unfold next_day in Hn.
destruct (Nat.ltb_spec (day cur) (days_in_month (year cur) (month cur))); [done|].
destruct (Nat.ltb_spec (month cur) 12); [done|].
destruct (Nat.ltb_spec (year cur) MAXYEAR); [done|].
assert (year cur = year end_date) as Ey by lia.
assert (month cur = month end_date) as Em by lia.
rewrite <- Ey, <- Em in Hd'. apply date_eq_fields; lia.
Qed.

Lemma yields_spec end_date current ds overflow :
yields end_date current ds overflow ->
valid_date current = true -> valid_date end_date = true ->
date_leb current end_date = true ->
head ds = Some current /\ last ds = Some end_date /\
(forall i d d', ds !! i = Some d -> ds !! S i = Some d' -> next_day d = Some d') /\
(forall d, d ∈ ds -> valid_date d = true) /\
(overflow = true <-> next_day end_date = None).
Proof.
induction 1 as [cur Hle|cur Hle Hn|cur next ds ovf Hle Hn Hy IH]; intros Hc He Hle'.
- congruence.
- rewrite <- (next_day_none_max cur end_date) by done.
  split; [done|]. split; [done|]. split; [|split; [|done]].
  + intros [|i] d d' H1 H2; done.
  + by intros d ->%list_elem_of_singleton.
- destruct (next_day_valid _ _ Hc Hn) as [Hv _].
  destruct (date_leb next end_date) eqn:Hnext.
  + destruct (IH Hv He eq_refl) as (Hh & Hl & Hcons & Hval & Hovf).
    split; [done|]. split; [|split; [|split; [|done]]].
    * destruct ds; [done|]. by rewrite last_cons_cons.
    * intros [|i] d d' H1 H2; simpl in *.
      -- injection H1 as <-. destruct ds; simplify_eq/=. done.
      -- by eapply Hcons.
    * intros d [->|Hd]%elem_of_cons; [done | by apply Hval].
  + inversion Hy; subst; try congruence.
    rewrite <- (next_day_tight cur next end_date) by done.
    split; [done|]. split; [done|]. split; [|split].
    * intros [|i] d d' H1 H2; done.
    * by intros d ->%list_elem_of_singleton.
    * split; [done|]. congruence.
Qed.

Lemma yields_bounds end_date current ds overflow :
yields end_date current ds overflow ->
valid_date current = true -> valid_date end_date = true ->
forall d, d ∈ ds ->
  valid_date d = true /\ date_leb current d = true /\ date_leb d end_date = true.
Proof.
induction 1 as [cur Hle|cur Hle Hn|cur next ds ovf Hle Hn Hy IH]; intros Hc He d Hd.
- by apply elem_of_nil in Hd.
- apply list_elem_of_singleton in Hd as ->. by rewrite date_leb_refl.
- apply elem_of_cons in Hd as [->|Hd]; [by rewrite date_leb_refl|].
  destruct (next_day_valid _ _ Hc Hn) as [Hv Hk].
  destruct (IH Hv He d Hd) as (Hvd & Hnd & Hde). split; [done|]. split; [|done].
  apply date_leb_key; [done..|]. apply date_leb_key in Hnd; [lia|done..].
Qed.

(** X1: over valid dates, [daterange] yields nothing when the start is
  after the end; otherwise it yields the start first and the end last,
  each date being the day after the one before it, and it ends by
  raising exactly when the end is the last date there is. *)
Theorem daterange_inclusive start_date end_date :
valid_date start_date = true -> valid_date end_date = true ->
let dates := (daterange start_date end_date).1 in
(date_leb start_date end_date = false -> daterange start_date end_date = ([], false)) /\
(date_leb start_date end_date = true ->
   head dates = Some start_date /\ last dates = Some end_date /\
   (forall i d d', dates !! i = Some d -> dates !! S i = Some d' -> next_day d = Some d') /\
   (forall d, d ∈ dates -> valid_date d = true) /\
   ((daterange start_date end_date).2 = true <-> next_day end_date = None)).
Proof.
intros Hs He dates. pose proof (daterange_yields _ _ Hs He) as Hy. split.
- intros Hle. inversion Hy; try congruence.
  destruct (daterange start_date end_date). simpl in *. congruence.
- intros Hle. by apply yields_spec.
Qed.

Lemma daterange_inclusive_witness :
(daterange (Date 2024 2 28) (Date 2024 3 1)).1 =
  [Date 2024 2 28; Date 2024 2 29; Date 2024 3 1] /\
last (daterange (Date 2024 2 28) (Date 2024 3 1)).1 = Some (Date 2024 3 1) /\
daterange (Date 2024 3 1) (Date 2024 2 28) = ([], false).
Proof.
destruct (daterange_inclusive (Date 2024 2 28) (Date 2024 3 1)) as [_ H];
  [reflexivity..|].
destruct (H eq_refl) as (_ & Hl & _).
destruct (daterange_inclusive (Date 2024 3 1) (Date 2024 2 28)) as [H' _];
  [reflexivity..|].
split; [vm_compute; reflexivity|]. split; [exact Hl | exact (H' eq_refl)].
Defined.

End DateRangeMore.

(** ** The document fetcher, case by case *)

Section FetcherMore.

Variable http_get : list event -> string -> http_result.

Lemma concat_cons (x : string) (l : list string) :
String.concat "" (x :: l) = x +:+ String.concat "" l.
Proof. destruct l; simpl; [by rewrite app_nil_r_s | done]. Qed.

Lemma write_all path (l : list string) (f : gmap string string) tr c :
for_each l (write path) {| files := <[path := c]> f; trace := tr |} =
(Ok tt, {| files := <[path := c +:+ String.concat "" l]> f; trace := tr |}).
Proof.
revert c. induction l as [|x l IH]; intros c.
- simpl. by rewrite app_nil_r_s.
- cbn [for_each]. unfold bind, write at 1. cbn [files trace].
  rewrite lookup_insert_eq, insert_insert_eq. cbn [default].
  rewrite IH, concat_cons, app_assoc_s. done.
Qed.

(** Every way a call of the fetcher can go. *)
Lemma download_arxiv_pdf_run (arxiv_id dest_folder filename : string) (w : world) :
let path := Path.join dest_folder filename in
let url := pdf_url arxiv_id in
let tr := trace w ++ [Log INFO ("Downloading " +:+ url)] in
download_arxiv_pdf http_get arxiv_id dest_folder filename w =
  match files w !! path with
  | Some _ =>
      (Ok tt, {| files := files w;
                 trace := trace w ++
                   [Log INFO ("File already exists: " +:+ path +:+ ", skipping download");
                    Print ("    ↳ Already downloaded: " +:+ filename)] |})
  | None =>
      match http_get tr url with
      | Failed e =>
          (Raise e,
           {| files := files w;
              trace := tr ++ [HttpGet url;
                Log ERROR ("Error downloading " +:+ url +:+ ": " +:+ exn_msg e)] |})
      | Responded resp =>
          if status_code resp =? 200 then
            match stream_error resp with
            | None =>
                (Ok tt,
                 {| files := <[path := String.concat "" (chunks resp)]> (files w);
                    trace := tr ++ [HttpGet url;
                      Log INFO ("Successfully downloaded: " +:+ url +:+ " to " +:+ path);
                      Print ("    ↳ Downloaded: " +:+ url)] |})
            | Some e =>
                (Raise e,
                 {| files := <[path := String.concat "" (chunks resp)]> (files w);
                    trace := tr ++ [HttpGet url;
                      Log ERROR ("Error downloading " +:+ url +:+ ": " +:+ exn_msg e)] |})
            end
          else
            (Ok tt,
             {| files := files w;
                trace := tr ++ [HttpGet url;
                  Log WARNING ("PDF not found for " +:+ arxiv_id +:+ " (status "
                               +:+ Str.of_nat (status_code resp) +:+ ")");
                  Print ("    ❌ PDF not found for " +:+ arxiv_id +:+ " (status "
                         +:+ Str.of_nat (status_code resp) +:+ ")")] |})
      end
  end.
Proof.
intros path url tr. unfold download_arxiv_pdf, bind at 1, path_exists.
fold path url. destruct (files w !! path) as [c|] eqn:Hf.
- rewrite bool_decide_eq_true_2 by done.
  unfold bind, log, print, emit. cbn [trace files]. by rewrite <- app_assoc.
- rewrite bool_decide_eq_false_2 by (by intros [? ?]).
  unfold bind at 1, log at 1, emit at 1. unfold try_except, bind at 1, requests_get.
  cbn [trace files]. fold tr. destruct (http_get tr url) as [resp|e].
  + destruct (status_code resp =? 200).
    * unfold bind at 1, open_truncate. cbn [trace files]. unfold bind at 1.
      rewrite write_all. cbn [String.append].
      destruct (stream_error resp) as [e|].
      -- unfold bind, raise, log, emit. cbn [trace files]. by rewrite <- !app_assoc.
      -- unfold bind, ret, log, print, emit. cbn [trace files]. by rewrite <- !app_assoc.
    * unfold bind, log, print, emit. cbn [trace files]. by rewrite <- !app_assoc.
  + unfold bind, raise, log, emit. cbn [trace files]. by rewrite <- !app_assoc.
Qed.

(** X2: with no file at the destination, a response of status 200 whose
  body arrives whole is written to the destination, chunk after chunk;
  no other file changes, one request is made, and the call returns. *)
Theorem fetch_writes_body (arxiv_id dest_folder filename : string) (w : world) resp :
files w !! Path.join dest_folder filename = None ->
http_get (trace w ++ [Log INFO ("Downloading " +:+ pdf_url arxiv_id)]) (pdf_url arxiv_id)
  = Responded resp ->
status_code resp = 200 -> stream_error resp = None ->
exists w',
  download_arxiv_pdf http_get arxiv_id dest_folder filename w = (Ok tt, w') /\
  files w' = <[Path.join dest_folder filename := String.concat "" (chunks resp)]> (files w) /\
  requests (trace w') = requests (trace w) ++ [pdf_url arxiv_id].
Proof.
intros Hnone Hresp Hst Herr. rewrite download_arxiv_pdf_run. cbn zeta.
rewrite Hnone, Hresp, Hst, Herr. cbn [Nat.eqb].
eexists. split; [reflexivity|]. split; [done|].
cbn [trace]. rewrite !requests_app. simpl. by rewrite !app_nil_r.
Qed.

(** X3: when the transfer breaks after some chunks, the call raises the
  error of the transfer and the chunks received stay on disk as the
  destination file.  A later call on the same path then takes the
  truncated file for a finished download: it requests nothing and
  leaves the file as it is. *)
Theorem fetch_broken_transfer_leaves_partial_file
  (arxiv_id dest_folder filename : string) (w : world) resp e :
files w !! Path.join dest_folder filename = None ->
http_get (trace w ++ [Log INFO ("Downloading " +:+ pdf_url arxiv_id)]) (pdf_url arxiv_id)
  = Responded resp ->
status_code resp = 200 -> stream_error resp = Some e ->
exists w' w'',
  download_arxiv_pdf http_get arxiv_id dest_folder filename w = (Raise e, w') /\
  files w' !! Path.join dest_folder filename = Some (String.concat "" (chunks resp)) /\
  download_arxiv_pdf http_get arxiv_id dest_folder filename w' = (Ok tt, w'') /\
  files w'' = files w' /\
  requests (trace w'') = requests (trace w').
Proof.
intros Hnone Hresp Hst Herr.
assert (exists w', download_arxiv_pdf http_get arxiv_id dest_folder filename w = (Raise e, w') /\
  files w' !! Path.join dest_folder filename = Some (String.concat "" (chunks resp)))
  as (w' & Hrun & Hf).
{ rewrite download_arxiv_pdf_run. cbn zeta. rewrite Hnone, Hresp, Hst, Herr. cbn [Nat.eqb].
  eexists. split; [reflexivity|]. cbn [files].
  apply lookup_insert_eq. }
destruct (fetch_skip_run http_get arxiv_id dest_folder filename w')
  as (w'' & Hrun' & Hf' & Hr'); [by rewrite Hf|].
by exists w', w''.
Qed.

(** X4: no failure of a download goes unlogged.  Whenever the fetcher
  raises, there was no file at the destination, it has announced the
  download and made its request, and the last thing it did was to log
  the error that it then raises again. *)
Theorem fetch_logs_what_it_raises
  (arxiv_id dest_folder filename : string) (w : world) e w' :
download_arxiv_pdf http_get arxiv_id dest_folder filename w = (Raise e, w') ->
files w !! Path.join dest_folder filename = None /\
trace w' = trace w ++
  [Log INFO ("Downloading " +:+ pdf_url arxiv_id);
   HttpGet (pdf_url arxiv_id);
   Log ERROR ("Error downloading " +:+ pdf_url arxiv_id +:+ ": " +:+ exn_msg e)].
Proof.
rewrite download_arxiv_pdf_run. cbn zeta.
destruct (files w !! Path.join dest_folder filename); [done|].
destruct (http_get _ _) as [resp|e0] eqn:Hh.
- destruct (status_code resp =? 200) eqn:Hst; [|done].
  destruct (stream_error resp) as [e0|] eqn:He; [|done].
  intros [= <- <-]. split; [done|]. cbn [trace]. by rewrite <- app_assoc.
- intros [= <- <-]. split; [done|]. cbn [trace]. by rewrite <- app_assoc.
Qed.

Lemma download_arxiv_pdf_frame (arxiv_id dest_folder filename : string) (w : world) :
let w' := exec (download_arxiv_pdf http_get arxiv_id dest_folder filename) w in
(forall p c, files w !! p = Some c -> files w' !! p = Some c) /\
(forall p, p <> Path.join dest_folder filename -> files w' !! p = files w !! p) /\
(requests (trace w') = requests (trace w) \/
 requests (trace w') = requests (trace w) ++ [pdf_url arxiv_id]).
Proof.
unfold exec. rewrite download_arxiv_pdf_run. cbn zeta.
destruct (files w !! Path.join dest_folder filename) as [c0|] eqn:Hf.
{ cbn [snd files trace]. split; [done|]. split; [done|]. left.
  rewrite !requests_app. simpl. by rewrite !app_nil_r. }
assert (Hkeep : forall v p c, files w !! p = Some c ->
          <[Path.join dest_folder filename := v]> (files w) !! p = Some c).
{ intros v p c Hp. rewrite lookup_insert_ne; [done|]. intros <-. congruence. }
assert (Hreq : forall evs,
  requests ((trace w ++ [Log INFO ("Downloading " +:+ pdf_url arxiv_id)]) ++
            HttpGet (pdf_url arxiv_id) :: evs) =
  requests (trace w) ++ [pdf_url arxiv_id] ++ requests evs).
{ intros evs. change (HttpGet (pdf_url arxiv_id) :: evs) with ([HttpGet (pdf_url arxiv_id)] ++ evs).
  rewrite !requests_app. change (requests [Log INFO ("Downloading " +:+ pdf_url arxiv_id)]) with (@nil string).
  change (requests [HttpGet (pdf_url arxiv_id)]) with [pdf_url arxiv_id].
  by rewrite app_nil_r. }
destruct (http_get _ _) as [resp|e].
- destruct (status_code resp =? 200).
  + destruct (stream_error resp); cbn [snd files trace];
      (split; [by apply Hkeep|]); (split; [by intros p Hp; rewrite lookup_insert_ne|]);
      right; rewrite Hreq; simpl; done.
  + cbn [snd files trace]. split; [done|]. split; [done|]. right.
    rewrite Hreq. simpl. done.
- cbn [snd files trace]. split; [done|]. split; [done|]. right.
  rewrite Hreq. simpl. done.
Qed.

(** X5: whatever the network does, the fetcher leaves every file that
  exists as it is, changes no path but its destination, and makes at
  most one request, for the document of the identifier. *)
Theorem fetch_frame (arxiv_id dest_folder filename : string) (w : world) :
let w' := exec (download_arxiv_pdf http_get arxiv_id dest_folder filename) w in
(forall p c, files w !! p = Some c -> files w' !! p = Some c) /\
(forall p, p <> Path.join dest_folder filename -> files w' !! p = files w !! p) /\
(requests (trace w') = requests (trace w) \/
 requests (trace w') = requests (trace w) ++ [pdf_url arxiv_id]).
Proof. apply download_arxiv_pdf_frame. Qed.

End FetcherMore.

Lemma fetch_writes_body_witness :
  exists w',
    download_arxiv_pdf http_up "2401.00001" "papers" "20240615_paper1_2401.00001.pdf" w_empty
      = (Ok tt, w') /\
    files w' = <[Path.join "papers" "20240615_paper1_2401.00001.pdf" :=
                 String.concat "" (chunks sample_pdf)]> (files w_empty) /\
    requests (trace w') = requests (trace w_empty) ++ [pdf_url "2401.00001"].
Proof.
  apply (fetch_writes_body http_up "2401.00001" "papers" "20240615_paper1_2401.00001.pdf"
           w_empty sample_pdf); reflexivity.
Defined.

Lemma fetch_broken_transfer_leaves_partial_file_witness :
  exists w' w'',
    download_arxiv_pdf http_broken "2401.00001" "papers" "p.pdf" w_empty
      = (Raise (Exn RequestException "connection broken"), w') /\
    files w' !! Path.join "papers" "p.pdf" = Some (String.concat "" (chunks sample_broken)) /\
    download_arxiv_pdf http_broken "2401.00001" "papers" "p.pdf" w' = (Ok tt, w'') /\
    files w'' = files w' /\
    requests (trace w'') = requests (trace w').
Proof.
  apply (fetch_broken_transfer_leaves_partial_file http_broken "2401.00001" "papers" "p.pdf"
           w_empty sample_broken); reflexivity.
Defined.

Lemma fetch_logs_what_it_raises_witness :
  files w_empty !! Path.join "papers" "p.pdf" = None /\
  trace (download_arxiv_pdf http_docs_down "2401.00001" "papers" "p.pdf" w_empty).2 =
    trace w_empty ++
    [Log INFO ("Downloading " +:+ pdf_url "2401.00001");
     HttpGet (pdf_url "2401.00001");
     Log ERROR ("Error downloading " +:+ pdf_url "2401.00001" +:+ ": "
                +:+ exn_msg (Exn RequestException "connection refused"))].
Proof.
  apply (fetch_logs_what_it_raises http_docs_down "2401.00001" "papers" "p.pdf" w_empty
           (Exn RequestException "connection refused")).
  vm_compute. reflexivity.
Defined.

(** ** The listing fetcher, case by case *)

Section ListingMore.

Variable http_get : list event -> string -> http_result.
Variable select_anchors : string -> list (option string).

Lemma last_app_pair {A} (l : list A) a b : last (l ++ [a; b]) = Some b.
Proof. change [a; b] with ([a] ++ [b]). rewrite app_assoc. apply last_snoc. Qed.

(** The message [logger.error] writes in the handlers of [get_arxiv_ids]. *)
Lemma get_arxiv_ids_handler url e (w : world) :
(match exn_kind e with
 | RequestException =>
     log ERROR ("Request failed for " +:+ url +:+ ": " +:+ exn_msg e) ;; raise e
 | _ =>
     log ERROR ("Error parsing papers from " +:+ url +:+ ": " +:+ exn_msg e) ;; raise e
 end) w =
(Raise e : result (list string),
 {| files := files w;
    trace := trace w ++
      [Log ERROR ((match exn_kind e with
                   | RequestException => "Request failed for "
                   | _ => "Error parsing papers from "
                   end)
                  +:+ url +:+ ": " +:+ exn_msg e)] |}).
Proof. by destruct e as [[] msg]. Qed.

Lemma raise_for_status_run url resp (w : world) :
raise_for_status url resp w =
  (if (400 <=? status_code resp) && (status_code resp <? 600)
   then Raise (Exn RequestException
                 (Str.of_nat (status_code resp) +:+
                  (if status_code resp <? 500 then " Client Error: " else " Server Error: ")
                  +:+ reason resp +:+ " for url: " +:+ url))
   else Ok tt, w).
Proof.
unfold raise_for_status.
destruct (Nat.leb_spec 400 (status_code resp)), (Nat.ltb_spec (status_code resp) 500),
  (Nat.leb_spec 500 (status_code resp)), (Nat.ltb_spec (status_code resp) 600);
  try lia; reflexivity.
Qed.

(** The result and the world of [get_arxiv_ids], in every case. *)
Lemma get_arxiv_ids_run dt (w : world) :
let url := listing_url dt in
let tr := trace w ++ [Log INFO ("Fetching papers from " +:+ url)] in
let failed := fun e : exn =>
  (Raise e : result (list string),
   {| files := files w;
      trace := tr ++ [HttpGet url;
        Log ERROR ((match exn_kind e with
                    | RequestException => "Request failed for "
                    | _ => "Error parsing papers from "
                    end)
                   +:+ url +:+ ": " +:+ exn_msg e)] |}) in
get_arxiv_ids http_get select_anchors dt w =
  match http_get tr url with
  | Failed e => failed e
  | Responded resp =>
      if (400 <=? status_code resp) && (status_code resp <? 600) then
        failed (Exn RequestException
                  (Str.of_nat (status_code resp) +:+
                   (if status_code resp <? 500 then " Client Error: " else " Server Error: ")
                   +:+ reason resp +:+ " for url: " +:+ url))
      else
        match mapM id (take 5 (select_anchors (text resp))) with
        | None => failed (Exn KeyError "'href'")
        | Some hrefs =>
            let ids := Str.after_last "/" <$> hrefs in
            (Ok ids,
             {| files := files w;
                trace := tr ++ [HttpGet url;
                  Log INFO ("Found " +:+ Str.of_nat (length ids) +:+ " papers for "
                            +:+ strftime_iso dt);
                  Log DEBUG ("ArXiv IDs: " +:+ str_list ids)] |})
        end
  end.
Proof.
cbn zeta. unfold get_arxiv_ids, bind at 1, log at 1, emit at 1.
unfold try_except, bind at 1, requests_get. cbn [files trace].
destruct (http_get _ _) as [resp|e].
- unfold bind at 1. rewrite raise_for_status_run.
  destruct ((400 <=? status_code resp) && (status_code resp <? 600)).
  + rewrite get_arxiv_ids_handler. cbn [files trace]. by rewrite <- !app_assoc.
  + unfold bind at 1. rewrite hrefs_last_segment_run.
    destruct (mapM id _) as [hrefs|].
    * unfold bind, log, emit, ret. cbn [files trace]. by rewrite <- !app_assoc.
    * rewrite get_arxiv_ids_handler. cbn [files trace]. by rewrite <- !app_assoc.
- rewrite get_arxiv_ids_handler. cbn [files trace]. by rewrite <- !app_assoc.
Qed.

(** X6: a listing page answered with a status from 400 to 599 makes
  [get_arxiv_ids] raise a request error that names the status; the
  error is logged as a failed request and the page is never parsed. *)
Theorem listing_http_error_raises dt (w : world) resp :
http_get (trace w ++ [Log INFO ("Fetching papers from " +:+ listing_url dt)])
         (listing_url dt) = Responded resp ->
400 <= status_code resp < 600 ->
exists e w',
  get_arxiv_ids http_get select_anchors dt w = (Raise e, w') /\
  exn_kind e = RequestException /\
  Str.startswith (Str.of_nat (status_code resp)) (exn_msg e) = true /\
  files w' = files w /\
  last (trace w') = Some (Log ERROR ("Request failed for " +:+ listing_url dt
                                     +:+ ": " +:+ exn_msg e)).
Proof.
intros Hresp [Hlo Hhi]. rewrite get_arxiv_ids_run. cbn zeta. rewrite Hresp.
destruct (Nat.leb_spec 400 (status_code resp)); [|lia].
destruct (Nat.ltb_spec (status_code resp) 600); [|lia].
cbn [andb]. eexists _, _. split; [reflexivity|].
cbn [exn_kind exn_msg files trace]. split; [done|].
split; [apply startswith_app_l|]. split; [done|].
apply last_app_pair.
Qed.

Lemma get_arxiv_ids_frame dt (w : world) :
let out := get_arxiv_ids http_get select_anchors dt w in
files out.2 = files w /\
requests (trace out.2) = requests (trace w) ++ [listing_url dt] /\
slept (trace out.2) = slept (trace w) /\
forall ids, out.1 = Ok ids ->
  length ids <= 5 /\ forall id, id ∈ ids -> Str.mem "/" id = false.
Proof.
cbn zeta. rewrite get_arxiv_ids_run. cbn zeta.
assert (Hreq : forall evs, requests evs = [] ->
  requests ((trace w ++ [Log INFO ("Fetching papers from " +:+ listing_url dt)]) ++
            HttpGet (listing_url dt) :: evs) =
  requests (trace w) ++ [listing_url dt]).
{ intros evs Hevs.
  change (HttpGet (listing_url dt) :: evs) with ([HttpGet (listing_url dt)] ++ evs).
  rewrite !requests_app, Hevs.
  change (requests [Log INFO ("Fetching papers from " +:+ listing_url dt)])
    with (@nil string).
  change (requests [HttpGet (listing_url dt)]) with [listing_url dt].
  by rewrite !app_nil_r. }
assert (Hsl : forall evs, slept evs = 0 ->
  slept ((trace w ++ [Log INFO ("Fetching papers from " +:+ listing_url dt)]) ++
         HttpGet (listing_url dt) :: evs) = slept (trace w)).
{ intros evs Hevs.
  change (HttpGet (listing_url dt) :: evs) with ([HttpGet (listing_url dt)] ++ evs).
  rewrite !slept_app, Hevs.
  change (slept [Log INFO ("Fetching papers from " +:+ listing_url dt)]) with 0.
  change (slept [HttpGet (listing_url dt)]) with 0. lia. }
destruct (http_get _ _) as [resp|e].
- destruct ((400 <=? status_code resp) && (status_code resp <? 600)).
  { cbn [fst snd files trace]. rewrite Hreq, Hsl by done. done. }
  destruct (mapM id (take 5 (select_anchors (text resp)))) as [hrefs|] eqn:Hh.
  + cbn [fst snd files trace]. rewrite Hreq, Hsl by done.
    split; [done|]. split; [done|]. split; [done|].
    intros ids [= <-]. split.
    * rewrite length_fmap. apply length_mapM in Hh. rewrite <- Hh, length_take. lia.
    * intros id (href & -> & _)%list_elem_of_fmap. apply after_last_no_mem.
  + cbn [fst snd files trace]. rewrite Hreq, Hsl by done. done.
- cbn [fst snd files trace]. rewrite Hreq, Hsl by done. done.
Qed.

(** X7: whatever the network and the page are, [get_arxiv_ids] changes
  no file, sleeps no second and makes exactly one request, for the
  listing of the date; when it returns, it returns at most five
  identifiers, none of which contains a slash. *)
Theorem listing_frame dt (w : world) :
let out := get_arxiv_ids http_get select_anchors dt w in
files out.2 = files w /\
requests (trace out.2) = requests (trace w) ++ [listing_url dt] /\
slept (trace out.2) = slept (trace w) /\
forall ids, out.1 = Ok ids ->
  length ids <= 5 /\ forall id, id ∈ ids -> Str.mem "/" id = false.
Proof. apply get_arxiv_ids_frame. Qed.


End ListingMore.

Lemma listing_http_error_raises_witness :
  exists e w',
    get_arxiv_ids http_gone two_anchors (Date 2024 6 15) w_empty = (Raise e, w') /\
    exn_kind e = RequestException /\
    Str.startswith (Str.of_nat (status_code sample_missing)) (exn_msg e) = true /\
    files w' = files w_empty /\
    last (trace w') = Some (Log ERROR ("Request failed for " +:+ listing_url (Date 2024 6 15)
                                       +:+ ": " +:+ exn_msg e)).
Proof.
  apply (listing_http_error_raises http_gone two_anchors (Date 2024 6 15) w_empty
           sample_missing); [reflexivity | simpl; lia].
Defined.


(** ** What a run of [main] does to the files and to the network *)

Section MainMore.

Variable http_get : list event -> string -> http_result.
Variable select_anchors : string -> list (option string).

Lemma extends_at_files P (w w' : world) : files w' = files w -> extends_at P w w'.
Proof.
intros E. split; rewrite E; [done|]. intros p Hn [c Hc]. congruence.
Qed.

Lemma extends_at_trans P (w1 w2 w3 : world) :
extends_at P w1 w2 -> extends_at P w2 w3 -> extends_at P w1 w3.
Proof.
intros [K1 N1] [K2 N2]. split; [by eauto|].
intros p Hn Hs. destruct (files w2 !! p) as [c|] eqn:E.
- apply N1; [done | by exists c].
- by apply N2.
Qed.

Lemma extends_at_mono (P Q : string -> Prop) (w w' : world) :
(forall p, P p -> Q p) -> extends_at P w w' -> extends_at Q w w'.
Proof. intros HPQ [K N]. split; [done|]. intros p Hn Hs. by apply HPQ, N. Qed.

Lemma fetch_extends id out f (w : world) :
extends_at (fun p => p = Path.join out f) w (exec (download_arxiv_pdf http_get id out f) w).
Proof.
destruct (download_arxiv_pdf_frame http_get id out f w) as (K & N & _).
split; [done|]. intros p Hn Hs.
destruct (decide (p = Path.join out f)) as [|Hne]; [done|].
rewrite (N p Hne), Hn in Hs. by destruct Hs.
Qed.

Lemma fetch_slept id out f (w : world) :
slept (trace (exec (download_arxiv_pdf http_get id out f) w)) = slept (trace w).
Proof.
apply (emits_slept (download_arxiv_pdf http_get id out f)).
apply fetch_emits. auto.
Qed.

Lemma download_one_frame dt out n i id (w : world) :
let w' := exec (download_one http_get dt out n i id) w in
extends_at (fun p => p = Path.join out (encode_filename dt i id)) w w' /\
(exists rs, requests (trace w') = requests (trace w) ++ rs /\ rs `sublist_of` [pdf_url id]) /\
slept (trace w') <= slept (trace w) + (if i <? n then 1 else 0).
Proof.
cbn zeta. unfold exec. rewrite download_one_run.
pose proof (fetch_extends id out (encode_filename dt i id) w) as Hx.
pose proof (fetch_slept id out (encode_filename dt i id) w) as Hs.
destruct (download_arxiv_pdf_frame http_get id out (encode_filename dt i id) w)
  as (_ & _ & Hr).
assert (Hrs : exists rs,
  requests (trace (exec (download_arxiv_pdf http_get id out (encode_filename dt i id)) w)) =
    requests (trace w) ++ rs /\ rs `sublist_of` [pdf_url id]).
{ destruct Hr as [Hr|Hr].
  - exists []. rewrite Hr, app_nil_r. split; [done | apply sublist_nil_l].
  - by exists [pdf_url id]. }
clear Hr. unfold exec in Hx, Hs, Hrs.
destruct (download_arxiv_pdf http_get id out (encode_filename dt i id) w) as [[[]|e] w1];
  cbn [snd] in *.
- destruct (i <? n); cbn [snd files trace].
  + split; [exact Hx|]. rewrite requests_app, slept_app.
    change (requests [Log DEBUG "Sleeping for 1 second before next download"; Sleep 1])
      with (@nil string).
    change (slept [Log DEBUG "Sleeping for 1 second before next download"; Sleep 1])
      with 1.
    rewrite app_nil_r. split; [done | lia].
  + split; [done|]. split; [done | lia].
- cbn [snd files trace]. split; [exact Hx|]. rewrite requests_app, slept_app.
  change (requests [Log ERROR ("Error downloading " +:+ id +:+ ": " +:+ exn_msg e);
                    Print ("    ❌ " +:+ "Error downloading " +:+ id +:+ ": " +:+ exn_msg e)])
    with (@nil string).
  change (slept [Log ERROR ("Error downloading " +:+ id +:+ ": " +:+ exn_msg e);
                 Print ("    ❌ " +:+ "Error downloading " +:+ id +:+ ": " +:+ exn_msg e)])
    with 0.
  rewrite app_nil_r. split; [done | lia].
Qed.

Lemma download_all_cons dt out n i id ids (w : world) :
exec (download_all http_get dt out n i (id :: ids)) w =
exec (download_all http_get dt out n (S i) ids) (exec (download_one http_get dt out n i id) w).
Proof.
unfold exec. cbn [download_all]. unfold bind at 1.
pose proof (download_one_ok http_get dt out n i id w) as Hok.
destruct (download_one http_get dt out n i id w) as [[[]|e] w1]; [done|].
discriminate Hok.
Qed.

Lemma download_all_frame dt out n ids : forall i (w : world),
let w' := exec (download_all http_get dt out n i ids) w in
extends_at (fun p => exists j id, ids !! j = Some id /\
                       p = Path.join out (encode_filename dt (i + j) id)) w w' /\
(exists rs, requests (trace w') = requests (trace w) ++ rs /\
            rs `sublist_of` (pdf_url <$> ids)) /\
(i + length ids = S n -> slept (trace w') <= slept (trace w) + (length ids - 1)).
Proof.
induction ids as [|id ids IH]; intros i w; cbn zeta.
{ split; [by apply extends_at_files|]. split; [|cbn; lia].
  exists []. by rewrite app_nil_r. }
rewrite download_all_cons.
destruct (download_one_frame dt out n i id w) as (Hx1 & (rs1 & Hr1 & Hsub1) & Hs1).
destruct (IH (S i) (exec (download_one http_get dt out n i id) w))
  as (Hx2 & (rs2 & Hr2 & Hsub2) & Hs2).
split; [|split].
- eapply extends_at_trans.
  + eapply extends_at_mono; [|exact Hx1].
    intros p ->. exists 0, id. by rewrite Nat.add_0_r.
  + eapply extends_at_mono; [|exact Hx2].
    intros p (j & id' & Hj & ->). exists (S j), id'.
    split; [done|]. by rewrite Nat.add_succ_r.
- exists (rs1 ++ rs2). rewrite Hr2, Hr1, app_assoc. split; [done|].
  change (pdf_url <$> id :: ids) with ([pdf_url id] ++ (pdf_url <$> ids)).
  by apply sublist_app.
- cbn [length]. intros Hn. specialize (Hs2 ltac:(lia)).
  destruct (Nat.ltb_spec i n); destruct ids; cbn [length] in *; lia.
Qed.

Lemma announced_frame dt (w : world) :
files (announced dt w) = files w /\
requests (trace (announced dt w)) = requests (trace w) /\
slept (trace (announced dt w)) = slept (trace w).
Proof.
split; [done|]. rewrite announced_trace, requests_app, slept_app.
change (requests [Log INFO ("Processing date: " +:+ strftime_iso dt);
                  Print (nl +:+ "=== " +:+ strftime_iso dt +:+ " ===")]) with (@nil string).
change (slept [Log INFO ("Processing date: " +:+ strftime_iso dt);
               Print (nl +:+ "=== " +:+ strftime_iso dt +:+ " ===")]) with 0.
rewrite app_nil_r. split; [done | lia].
Qed.

(** The paths [main] may create for the date [dt], and the URLs it may
  request after the listing. *)
Lemma process_date_frame out dt (w : world) :
let w' := exec (process_date http_get select_anchors out dt) w in
extends_at (fun p => exists i id, 1 <= i <= 5 /\ Str.mem "/" id = false /\
                       p = Path.join out (encode_filename dt i id)) w w' /\
(exists rs, requests (trace w') = requests (trace w) ++ listing_url dt :: rs /\
            length rs <= 5 /\
            forall url, url ∈ rs -> exists id, Str.mem "/" id = false /\ url = pdf_url id) /\
slept (trace w') <= slept (trace w) + 4.
Proof.
cbn zeta. unfold exec. rewrite process_date_run.
destruct (announced_frame dt w) as (Hf0 & Hr0 & Hs0).
destruct (get_arxiv_ids_frame http_get select_anchors dt (announced dt w))
  as (Hf & Hr & Hs & Hids).
rewrite Hf0 in Hf. rewrite Hr0 in Hr. rewrite Hs0 in Hs.
destruct (get_arxiv_ids http_get select_anchors dt (announced dt w)) as [[ids|e] wl];
  cbn [fst snd] in *.
- destruct (Hids ids eq_refl) as [Hlen Hslash]. clear Hids.
  destruct (download_all_frame dt out (length ids) ids 1 wl)
    as (Hx & (rs & Hrs & Hsub) & Hsl).
  unfold exec in Hx, Hrs, Hsl. split; [|split].
  + eapply extends_at_trans; [by apply extends_at_files|].
    eapply extends_at_mono; [|exact Hx].
    intros p (j & id & Hj & ->). exists (1 + j), id.
    pose proof (lookup_lt_Some _ _ _ Hj). split; [lia|].
    split; [|done]. by eapply Hslash, list_elem_of_lookup_2.
  + exists rs. rewrite Hrs, Hr, <- app_assoc. split; [done|]. split.
    * apply sublist_length in Hsub. rewrite length_fmap in Hsub. lia.
    * intros url Hurl.
      pose proof (elem_of_submseteq _ _ _ Hurl (sublist_submseteq _ _ Hsub)) as Hin.
      apply list_elem_of_fmap in Hin as (id & -> & Hid). exists id. by auto.
  + specialize (Hsl eq_refl). lia.
- cbn [files trace]. split; [by apply extends_at_files|]. split.
  + exists []. rewrite requests_app, Hr. split; [|split; [cbn; lia|]].
    * by rewrite <- app_assoc.
    * intros url Hurl. by apply elem_of_nil in Hurl.
  + rewrite slept_app.
    change (slept [Log ERROR ("Failed to get paper links for " +:+ str_datetime dt
                              +:+ ": " +:+ exn_msg e);
                   Print ("❌ " +:+ "Failed to get paper links for " +:+ str_datetime dt
                          +:+ ": " +:+ exn_msg e)]) with 0.
    lia.
Qed.

Lemma main_prelude_frame start_date end_date out (w : world) :
let w0 := exec (main_prelude start_date end_date out) w in
files w0 = files w /\ requests (trace w0) = requests (trace w) /\
slept (trace w0) = slept (trace w).
Proof.
cbn zeta. unfold exec, main_prelude, bind, log, emit. cbn [snd files trace].
split; [done|]. rewrite !requests_app, !slept_app. cbn.
rewrite !app_nil_r. split; [done | lia].
Qed.

Lemma for_each_cons_dates out dt dates (w : world) :
exec (for_each (dt :: dates) (process_date http_get select_anchors out)) w =
exec (for_each dates (process_date http_get select_anchors out))
     (exec (process_date http_get select_anchors out dt) w).
Proof.
unfold exec. cbn [for_each]. unfold bind at 1.
pose proof (process_date_ok http_get select_anchors out dt w) as Hok.
destruct (process_date http_get select_anchors out dt w) as [[[]|e] w1]; [done|].
discriminate Hok.
Qed.

Lemma for_each_dates_frame out dates : forall (w : world),
let w' := exec (for_each dates (process_date http_get select_anchors out)) w in
extends_at (fun p => exists dt i id, dt ∈ dates /\ 1 <= i <= 5 /\ Str.mem "/" id = false /\
                       p = Path.join out (encode_filename dt i id)) w w' /\
(exists urls, requests (trace w') = requests (trace w) ++ urls /\
   length urls <= 6 * length dates /\
   forall url, url ∈ urls ->
     (exists dt, dt ∈ dates /\ url = listing_url dt) \/
     (exists id, Str.mem "/" id = false /\ url = pdf_url id)) /\
slept (trace w') <= slept (trace w) + 4 * length dates.
Proof.
induction dates as [|dt dates IH]; intros w; cbn zeta.
{ split; [by apply extends_at_files|]. split; [|cbn; lia].
  exists []. rewrite app_nil_r. split; [done|]. split; [cbn; lia|].
  intros url Hurl. by apply elem_of_nil in Hurl. }
rewrite for_each_cons_dates.
destruct (process_date_frame out dt w) as (Hx1 & (rs & Hr1 & Hlen1 & Hurl1) & Hs1).
destruct (IH (exec (process_date http_get select_anchors out dt) w))
  as (Hx2 & (urls & Hr2 & Hlen2 & Hurl2) & Hs2).
split; [|split].
- eapply extends_at_trans.
  + eapply extends_at_mono; [|exact Hx1].
    intros p (i & id & Hi & Hid & ->). exists dt, i, id.
    split; [apply list_elem_of_here | done].
  + eapply extends_at_mono; [|exact Hx2].
    intros p (dt' & i & id & Hdt & Hi & Hid & ->). exists dt', i, id.
    split; [by apply list_elem_of_further | done].
- exists ((listing_url dt :: rs) ++ urls). rewrite Hr2, Hr1, app_assoc.
  split; [done|]. split.
  + rewrite length_app. cbn [length]. lia.
  + intros url [Hin|Hin]%elem_of_app.
    * apply elem_of_cons in Hin as [->|Hin].
      -- left. exists dt. split; [apply list_elem_of_here | done].
      -- right. by apply Hurl1.
    * destruct (Hurl2 url Hin) as [(dt' & Hdt & ->)|Hid]; [left | by right].
      exists dt'. split; [by apply list_elem_of_further | done].
- cbn [length]. lia.
Qed.

Lemma main_frame start_date end_date out (w : world) :
let dates := (daterange start_date end_date).1 in
let w' := exec (main http_get select_anchors start_date end_date out) w in
extends_at (fun p => exists dt i id, dt ∈ dates /\ 1 <= i <= 5 /\ Str.mem "/" id = false /\
                       p = Path.join out (encode_filename dt i id)) w w' /\
(exists urls, requests (trace w') = requests (trace w) ++ urls /\
   length urls <= 6 * length dates /\
   forall url, url ∈ urls ->
     (exists dt, dt ∈ dates /\ url = listing_url dt) \/
     (exists id, Str.mem "/" id = false /\ url = pdf_url id)) /\
slept (trace w') <= slept (trace w) + 4 * length dates.
Proof.
cbn zeta.
assert (exec (main http_get select_anchors start_date end_date out) w =
        exec (for_each (daterange start_date end_date).1
                (process_date http_get select_anchors out))
             (exec (main_prelude start_date end_date out) w)) as ->.
{ unfold exec at 1. by rewrite main_run. }
destruct (main_prelude_frame start_date end_date out w) as (Hf & Hr & Hs).
destruct (for_each_dates_frame out (daterange start_date end_date).1
            (exec (main_prelude start_date end_date out) w)) as (Hx & Hreq & Hsl).
rewrite Hr in Hreq. rewrite Hs in Hsl. split; [|done].
eapply extends_at_trans; [by apply extends_at_files | exact Hx].
Qed.

(** X9: a run of [main] leaves every file that exists as it is, whatever
  the network answers: it never overwrites, truncates or removes one. *)
Theorem main_keeps_existing_files start_date end_date out (w : world) p c :
files w !! p = Some c ->
files (exec (main http_get select_anchors start_date end_date out) w) !! p = Some c.
Proof. intros Hp. by apply (main_frame start_date end_date out w). Qed.

(** X10: every file a run of [main] creates stands, in the output
  directory, under the name built from a date of the range, an ordinal
  from 1 to 5 and an identifier without a slash. *)
Theorem main_creates_only_paper_files start_date end_date out (w : world) p :
files w !! p = None ->
is_Some (files (exec (main http_get select_anchors start_date end_date out) w) !! p) ->
exists dt i id,
  dt ∈ (daterange start_date end_date).1 /\ 1 <= i <= 5 /\ Str.mem "/" id = false /\
  p = Path.join out (encode_filename dt i id).
Proof. intros Hn Hs. by apply (main_frame start_date end_date out w). Qed.

(** X11: a run of [main] requests nothing but the listing of a date of
  the range and documents of the document host, no more than six URLs
  for each date, and it sleeps no more than four seconds for each
  date. *)
Theorem main_budget start_date end_date out (w : world) :
let dates := (daterange start_date end_date).1 in
let w' := exec (main http_get select_anchors start_date end_date out) w in
(exists urls, requests (trace w') = requests (trace w) ++ urls /\
   length urls <= 6 * length dates /\
   forall url, url ∈ urls ->
     (exists dt, dt ∈ dates /\ url = listing_url dt) \/
     (exists id, Str.mem "/" id = false /\ url = pdf_url id)) /\
slept (trace w') <= slept (trace w) + 4 * length dates.
Proof. apply main_frame. Qed.

(** X12: the summary side reads back what the download side wrote: a
  file that a run of [main] creates, over valid dates that start in
  the year 1000 or later, is decoded by [extract_paper_info] to its
  date, which lies in the range, its ordinal and its identifier,
  unless the identifier is empty or holds a line feed. *)
Theorem pulled_files_decode start_date end_date out (w : world) p :
valid_date start_date = true -> valid_date end_date = true ->
1000 <= year start_date ->
files w !! p = None ->
is_Some (files (exec (main http_get select_anchors start_date end_date out) w) !! p) ->
exists dt i id,
  p = Path.join out (encode_filename dt i id) /\
  valid_date dt = true /\
  date_leb start_date dt = true /\ date_leb dt end_date = true /\
  1 <= i <= 5 /\
  (id <> "" -> Str.mem "010" id = false ->
   extract_paper_info p =
     Ok (Some {| p_date := strftime_iso dt;
                 p_number := i;
                 p_arxiv_id := id;
                 p_filename := encode_filename dt i id;
                 p_path := p |}) /\
   date_of_iso (strftime_iso dt) = dt).
Proof.
intros Hs He Hy Hn Hp.
destruct (main_frame start_date end_date out w) as [[_ Hnew] _].
destruct (Hnew p Hn Hp) as (dt & i & id & Hdt & Hi & Hid & ->).
destruct (yields_bounds _ _ _ _ (daterange_yields _ _ Hs He) Hs He dt Hdt)
  as (Hv & Hlo & Hhi).
exists dt, i, id. split; [done|]. split; [done|]. split; [done|]. split; [done|].
split; [done|]. intros Hne Hnl.
assert (1000 <= year dt) by (apply date_leb_iff in Hlo; lia).
split; [by apply encode_decodes | by apply date_of_iso_strftime].
Qed.

End MainMore.

Lemma main_keeps_existing_files_witness :
  files (exec (main http_up two_anchors (Date 2024 6 15) (Date 2024 6 15) "papers")
              w_downloaded) !! "papers/20240615_paper1_2401.00001.pdf" = Some "%PDF-1.7".
Proof.
  apply (main_keeps_existing_files http_up two_anchors (Date 2024 6 15) (Date 2024 6 15)
           "papers" w_downloaded).
  reflexivity.
Defined.

Lemma main_creates_only_paper_files_witness :
  exists dt i id,
    dt ∈ (daterange (Date 2024 6 15) (Date 2024 6 15)).1 /\ 1 <= i <= 5 /\
    Str.mem "/" id = false /\
    "papers/20240615_paper2_2401.00002.pdf" = Path.join "papers" (encode_filename dt i id).
Proof.
  apply (main_creates_only_paper_files http_up two_anchors (Date 2024 6 15) (Date 2024 6 15)
           "papers" w_downloaded "papers/20240615_paper2_2401.00002.pdf").
  - reflexivity.
  - vm_compute. eexists. reflexivity.
Defined.

Lemma pulled_files_decode_witness :
  exists dt i id,
    "papers/20240615_paper2_2401.00002.pdf" = Path.join "papers" (encode_filename dt i id) /\
    valid_date dt = true /\
    date_leb (Date 2024 6 15) dt = true /\ date_leb dt (Date 2024 6 15) = true /\
    1 <= i <= 5 /\
    (id <> "" -> Str.mem "010" id = false ->
     extract_paper_info "papers/20240615_paper2_2401.00002.pdf" =
       Ok (Some {| p_date := strftime_iso dt;
                   p_number := i;
                   p_arxiv_id := id;
                   p_filename := encode_filename dt i id;
                   p_path := "papers/20240615_paper2_2401.00002.pdf" |}) /\
     date_of_iso (strftime_iso dt) = dt).
Proof.
  apply (pulled_files_decode http_up two_anchors (Date 2024 6 15) (Date 2024 6 15)
           "papers" w_empty "papers/20240615_paper2_2401.00002.pdf").
  - reflexivity.
  - reflexivity.
  - apply Nat.leb_le. reflexivity.
  - reflexivity.
  - vm_compute. eexists. reflexivity.
Defined.

(** ** The filename codec, continued *)

Section CodecMore.

Lemma take_drop_s n (s : string) : Str.take n s +:+ Str.drop n s = s.
Proof.
revert s. induction n as [|n IH]; intros [|x s]; simpl; [done..|]. by rewrite IH.
Qed.

Lemma length_take_s n (s : string) :
n <= String.length s -> String.length (Str.take n s) = n.
Proof.
revert s. induction n as [|n IH]; intros [|x s]; simpl; try done; try lia.
intros H. rewrite IH; lia.
Qed.

Lemma length_drop_s n (s : string) :
String.length (Str.drop n s) = String.length s - n.
Proof.
revert s. induction n as [|n IH]; intros [|x s]; simpl; try done; try lia.
Qed.

Lemma all_take_drop p n (s : string) :
Str.all p s = true -> Str.all p (Str.take n s) = true /\ Str.all p (Str.drop n s) = true.
Proof.
intros H. rewrite <- (take_drop_s n s), all_app_s in H. by apply andb_prop in H.
Qed.

(** Eight digits are the digits of the date read off them. *)
Lemma digits_date_of_Ymd (D : string) :
String.length D = 8 -> Str.all Str.is_digit D = true ->
Ymd_digits (date_of_Ymd D) = D.
Proof.
intros Hl Hd. unfold Ymd_digits, date_of_Ymd. cbn [year month day].
destruct (all_take_drop _ 4 D Hd) as [Ha Hd4].
destruct (all_take_drop _ 2 _ Hd4) as [Hb Hd6].
assert (Str.drop 2 (Str.drop 4 D) = Str.drop 6 D) as E6 by (symmetry; apply (drop_add 4 2)).
assert (Str.take 2 (Str.drop 6 D) = Str.drop 6 D) as E.
{ apply take_all. rewrite length_drop_s. lia. }
rewrite E.
destruct (fixed_int 4 (Str.take 4 D)) as [-> _];
  [apply length_take_s; lia | done|].
destruct (fixed_int 2 (Str.take 2 (Str.drop 4 D))) as [-> _];
  [apply length_take_s; rewrite length_drop_s; lia | done|].
destruct (fixed_int 2 (Str.drop 6 D)) as [-> _];
  [rewrite length_drop_s; lia | by rewrite <- E6|].
rewrite <- E6, take_drop_s. apply take_drop_s.
Qed.

Lemma app_inv_len (a b c d : string) :
String.length a = String.length c -> a +:+ b = c +:+ d -> a = c /\ b = d.
Proof.
revert c. induction a as [|x a IH]; intros [|y c]; simpl; try done.
intros [= Hl] [= -> H]. destruct (IH c Hl H) as [-> ->]. done.
Qed.

(** A run of digits that stops at an underscore is read in one way. *)
Lemma digits_underscore_inv (a b x y : string) :
Str.all Str.is_digit a = true -> Str.all Str.is_digit b = true ->
a +:+ String "_" x = b +:+ String "_" y -> a = b /\ x = y.
Proof.
revert b. induction a as [|c a IH]; intros [|c' b]; simpl.
- intros _ _ [= ->]. done.
- intros _ [Hc _]%andb_prop [= <- _]. done.
- intros [Hc _]%andb_prop _ [= -> _]. done.
- intros [_ Ha]%andb_prop [_ Hb]%andb_prop [= -> H].
  destruct (IH b Ha Hb H) as [-> ->]. done.
Qed.

(** The parts of a name that [encode_filename] built. *)
Lemma encode_parts dt i (id D N x : string) :
encode_filename dt i id = D +:+ "_paper" +:+ N +:+ "_" +:+ x ->
Str.all Str.is_digit D = true -> Str.all Str.is_digit N = true ->
D = strftime_Ymd dt /\ N = Str.of_nat i /\ x = id +:+ ".pdf".
Proof.
unfold encode_filename. intros H Hd Hn.
assert (Hp : forall r : string, "_paper" +:+ r = String "_" ("paper" +:+ r)) by done.
assert (Hu : forall r : string, "_" +:+ r = String "_" r) by done.
rewrite !Hp, !Hu in H.
apply digits_underscore_inv in H as [<- H]; [|apply strftime_Ymd_shape | done].
apply (app_inv_head_s "paper") in H.
apply digits_underscore_inv in H as [<- <-]; [done | apply of_nat_digits | done].
Qed.

(** Over valid dates, the digits [strftime] writes tell the date. *)
Lemma strftime_Ymd_inj dt dt' :
valid_date dt = true -> valid_date dt' = true ->
strftime_Ymd dt = strftime_Ymd dt' -> dt = dt'.
Proof.
intros (_ & Hm & Hd)%valid_date_bounds (_ & Hm' & Hd')%valid_date_bounds.
unfold strftime_Ymd. intros H.
assert (String.length (Str.of_nat (year dt)) = String.length (Str.of_nat (year dt'))) as Hl.
{ apply (f_equal String.length) in H. rewrite !length_app_s, !length_fixed in H. lia. }
apply app_inv_len in H as [Hy H]; [|done].
apply app_inv_len in H as [Hmm Hdd]; [|by rewrite !length_fixed].
apply (f_equal Str.int) in Hy, Hmm, Hdd.
rewrite !int_of_nat in Hy. rewrite !int_fixed in Hmm, Hdd by done.
by apply date_eq_fields.
Qed.

Lemma encode_inj dt i (id : string) dt' i' (id' : string) :
valid_date dt = true -> valid_date dt' = true ->
encode_filename dt i id = encode_filename dt' i' id' ->
dt = dt' /\ i = i' /\ id = id'.
Proof.
intros Hv Hv' H.
apply encode_parts in H as (Hd & Hn & Hx);
  [|apply strftime_Ymd_shape | apply of_nat_digits].
split; [|split].
- by apply strftime_Ymd_inj.
- rewrite <- (int_of_nat i), <- (int_of_nat i'). by rewrite Hn.
- symmetry. by apply (app_inv_tail_s _ _ ".pdf").
Qed.

(** X13: the name of a paper file tells its paper: over valid dates, two
  names that [main] builds are equal only if the date, the ordinal and
  the identifier are. *)
Theorem encode_filename_inj dt i (id : string) dt' i' (id' : string) :
valid_date dt = true -> valid_date dt' = true ->
encode_filename dt i id = encode_filename dt' i' id' ->
dt = dt' /\ i = i' /\ id = id'.
Proof. apply encode_inj. Qed.

Lemma encode_filename_inj_witness :
Date 2024 6 15 = Date 2024 6 15 /\ 1 = 1 /\ "2401.00001" = "2401.00001".
Proof.
apply (encode_filename_inj (Date 2024 6 15) 1 "2401.00001" (Date 2024 6 15) 1 "2401.00001");
  reflexivity.
Defined.

(** X14: what [extract_paper_info] returns for a path is read off the
  name of the file: the name starts with eight digits that name a date
  that exists, [_paper], the digits of the ordinal, an underscore, the
  identifier, which is neither empty nor broken over lines, and
  [.pdf].  The record carries that date as [strftime] writes it with
  ['%Y-%m-%d'] (the year unpadded, so in ISO form from the year 1000
  on), the value of the ordinal, the identifier, the name and the path
  as given. *)
Theorem decode_sound (pdf_path : string) p :
extract_paper_info pdf_path = Ok (Some p) ->
exists dt D N rest,
  valid_date dt = true /\
  String.length D = 8 /\ Str.all Str.is_digit D = true /\ date_of_Ymd D = dt /\
  Path.basename pdf_path =
    D +:+ "_paper" +:+ N +:+ "_" +:+ p_arxiv_id p +:+ ".pdf" +:+ rest /\
  p_date p = strftime_iso dt /\ date_of_iso (p_date p) = dt /\
  (1000 <= year dt -> p_date p = Str.fixed 4 (year dt) +:+ "-" +:+
                                 Str.fixed 2 (month dt) +:+ "-" +:+ Str.fixed 2 (day dt)) /\
  N <> "" /\ Str.all Str.is_digit N = true /\ p_number p = Str.int N /\
  p_arxiv_id p <> "" /\ Str.mem "010" (p_arxiv_id p) = false /\
  p_filename p = Path.basename pdf_path /\ p_path p = pdf_path.
Proof.
intros (D & N & rest & dt & Hshape & Hdt & Hdate & Hnum & Hname & Hpath)%decode_some_shape.
destruct Hshape as (Hn & Hl & Hd & HN & HNd & Hid & Hnl).
destruct (strptime_sound D dt Hl Hd Hdt) as [Hv HD].
exists dt, D, N, rest. rewrite Hdate, date_of_iso_strftime by done.
split; [done|]. split; [done|]. split; [done|].
split; [by rewrite <- HD, date_of_Ymd_digits|]. split; [done|].
split; [done|]. split; [done|]. split; [|done].
intros Hy. unfold strftime_iso. rewrite (of_nat_fixed 3); [done|].
destruct (valid_date_bounds _ Hv) as (Hy4 & _). change (10 ^ 3) with 1000. lia.
Qed.

Lemma decode_sound_witness :
exists dt D N rest,
  valid_date dt = true /\
  String.length D = 8 /\ Str.all Str.is_digit D = true /\ date_of_Ymd D = dt /\
  Path.basename (Path.join "papers" sample_name) =
    D +:+ "_paper" +:+ N +:+ "_" +:+ p_arxiv_id (sample_paper "papers") +:+ ".pdf" +:+ rest /\
  p_date (sample_paper "papers") = strftime_iso dt /\
  date_of_iso (p_date (sample_paper "papers")) = dt /\
  (1000 <= year dt ->
   p_date (sample_paper "papers") =
     Str.fixed 4 (year dt) +:+ "-" +:+ Str.fixed 2 (month dt) +:+ "-" +:+
     Str.fixed 2 (day dt)) /\
  N <> "" /\ Str.all Str.is_digit N = true /\ p_number (sample_paper "papers") = Str.int N /\
  p_arxiv_id (sample_paper "papers") <> "" /\
  Str.mem "010" (p_arxiv_id (sample_paper "papers")) = false /\
  p_filename (sample_paper "papers") = Path.basename (Path.join "papers" sample_name) /\
  p_path (sample_paper "papers") = Path.join "papers" sample_name.
Proof.
apply (decode_sound (Path.join "papers" sample_name) (sample_paper "papers")).
vm_compute. reflexivity.
Defined.

(** X15: [extract_paper_info] raises nothing but [ValueError], and only
  for a name that has the shape of a paper name and whose eight digits
  are no date. *)
Theorem decode_raise_origin (pdf_path : string) e :
extract_paper_info pdf_path = Raise e ->
exn_kind e = ValueError /\
exists D N id rest,
  codec_shape D N id rest (Path.basename pdf_path) /\
  valid_date (date_of_Ymd D) = false.
Proof.
unfold extract_paper_info.
destruct (Re.re_match codec_pattern (Path.basename pdf_path)) as [[caps rest]|] eqn:Hm;
  [|done].
destruct (codec_match_sound _ _ _ Hm) as (D & N & id & -> & Hshape).
destruct (strptime_Ymd D) as [dt|e0] eqn:Hs; [done|]. intros [= <-].
split; [by eapply strptime_raise_kind|].
exists D, N, id, rest. split; [done|].
destruct Hshape as (_ & Hl & Hd & _).
destruct (valid_date (date_of_Ymd D)) eqn:Hv; [|done].
apply strptime_digits in Hv. rewrite digits_date_of_Ymd in Hv by done. congruence.
Qed.

Lemma decode_raise_origin_witness :
exn_kind (Exn ValueError "day is out of range for month") = ValueError /\
exists D N id rest,
  codec_shape D N id rest (Path.basename "papers/20240230_paper1_2401.00001.pdf") /\
  valid_date (date_of_Ymd D) = false.
Proof.
apply (decode_raise_origin "papers/20240230_paper1_2401.00001.pdf").
vm_compute. reflexivity.
Defined.

Lemma shape_length (D N id rest name : string) :
codec_shape D N id rest name ->
Str.take 8 name = D /\ 21 <= String.length name.
Proof.
intros (-> & Hl & Hd & HN & HNd & Hid & Hnl). split; [by apply take_len|].
rewrite !length_app_s, Hl. destruct N; [done|]. destruct id; [done|]. cbn. lia.
Qed.

(** X16: a name shorter than 21 characters, or one that does not start
  with eight digits, is no paper name: [extract_paper_info] returns
  [None] for it and raises nothing. *)
Theorem decode_ignores_other_names (pdf_path : string) :
String.length (Path.basename pdf_path) < 21 \/
Str.all Str.is_digit (Str.take 8 (Path.basename pdf_path)) = false ->
extract_paper_info pdf_path = Ok None.
Proof.
intros H. apply decode_none_unless_shape. intros D N id rest Hshape.
destruct (shape_length _ _ _ _ _ Hshape) as [Ht Hlen].
destruct Hshape as (_ & _ & Hd & _). rewrite Ht in H. destruct H; [lia | congruence].
Qed.

Lemma decode_ignores_other_names_witness :
extract_paper_info "papers/daily_paper_job.log" = Ok None.
Proof.
apply (decode_ignores_other_names "papers/daily_paper_job.log").
right. reflexivity.
Defined.

(** X17: a document listed with an empty identifier (a link that ends in
  a slash) gets a file name that the decoder does not take for a paper:
  whatever the date, the ordinal and the directory, the name built for
  the empty identifier decodes to [None]. *)
Theorem empty_identifier_not_decoded (dir : string) dt i :
extract_paper_info (Path.join dir (encode_filename dt i "")) = Ok None.
Proof.
apply decode_none_unless_shape. intros D N id rest Hshape.
rewrite basename_join in Hshape by (by apply encode_no_slash).
destruct Hshape as (Hn & Hl & Hd & HN & HNd & Hid & Hnl).
apply encode_parts in Hn as (_ & _ & Hx); [|done..].
apply (f_equal String.length) in Hx. rewrite !length_app_s in Hx.
destruct id; [done|]. cbn in Hx. lia.
Qed.

Lemma digit_not_dot c : Str.is_digit c = true -> Ascii.eqb c "." = false.
Proof. intros H. destruct (Ascii.eqb_spec c "."%char) as [->|]; done. Qed.

Lemma drop_ext_app (a e : string) : forall b,
Str.mem "." e = false ->
b || negb (Str.all (fun c => Ascii.eqb c ".") a) = true ->
Path.drop_ext (a +:+ String "." e) b = a.
Proof.
induction a as [|c a IH]; intros b He Hb.
- cbn [Str.all negb] in Hb. rewrite orb_false_r in Hb. subst b.
  cbn [String.append Path.drop_ext]. by rewrite He.
- cbn [String.append Path.drop_ext]. rewrite mem_app_s.
  cbn [Str.mem]. rewrite Ascii.eqb_refl. cbn [orb]. rewrite orb_true_r. cbn [negb].
  rewrite andb_false_r. rewrite IH; [done | done |].
  cbn [Str.all] in Hb. destruct b, (Ascii.eqb c "."); cbn in *; done.
Qed.

(** The name of a paper file without its extension. *)
Lemma encode_stem dt i (id : string) :
Str.mem "/" id = false ->
Path.splitext_root (encode_filename dt i id) =
  strftime_Ymd dt +:+ "_paper" +:+ Str.of_nat i +:+ "_" +:+ id.
Proof.
intros Hid. rewrite splitext_root_name by (by apply encode_no_slash).
unfold encode_filename.
replace (strftime_Ymd dt +:+ "_paper" +:+ Str.of_nat i +:+ "_" +:+ id +:+ ".pdf")
  with ((strftime_Ymd dt +:+ "_paper" +:+ Str.of_nat i +:+ "_" +:+ id) +:+ String "." "pdf")
  by (by rewrite !app_assoc_s).
apply drop_ext_app; [done|]. cbn [orb]. rewrite all_app_s.
destruct (strftime_Ymd_shape dt) as [Hl Hd].
destruct (strftime_Ymd dt) as [|c s]; [cbn in Hl; lia|].
cbn [Str.all] in Hd |- *. apply andb_prop in Hd as [Hc _].
by rewrite (digit_not_dot c Hc).
Qed.

(** X21: the summary of a paper file that [main] named stands in the
  summary directory under the same name with [.md] for [.pdf], also
  when the identifier has dots of its own. *)
Theorem summary_path_of_paper md dt i (id : string) p :
Str.mem "/" id = false ->
p_filename p = encode_filename dt i id ->
md_path md p =
  Path.join md (strftime_Ymd dt +:+ "_paper" +:+ Str.of_nat i +:+ "_" +:+ id +:+ ".md").
Proof.
intros Hid Hname. unfold md_path. rewrite Hname, encode_stem by done.
by rewrite !app_assoc_s.
Qed.

Lemma summary_path_of_paper_witness :
md_path "summaries" (sample_paper "papers") =
  Path.join "summaries"
    (strftime_Ymd (Date 2024 6 15) +:+ "_paper" +:+ Str.of_nat 1 +:+ "_" +:+ "2401.00001"
     +:+ ".md").
Proof.
apply (summary_path_of_paper "summaries" (Date 2024 6 15) 1 "2401.00001"
         (sample_paper "papers")); reflexivity.
Defined.

(** X22: papers of different dates, ordinals or identifiers have
  different summaries: over valid dates, two paper files that [main]
  named get the same summary path only if they are the same file. *)
Theorem summary_paths_distinct md dt i (id : string) dt' i' (id' : string) p p' :
valid_date dt = true -> valid_date dt' = true ->
Str.mem "/" id = false -> Str.mem "/" id' = false ->
p_filename p = encode_filename dt i id ->
p_filename p' = encode_filename dt' i' id' ->
md_path md p = md_path md p' ->
dt = dt' /\ i = i' /\ id = id'.
Proof.
intros Hv Hv' Hid Hid' Hn Hn'. unfold md_path. rewrite Hn, Hn', !encode_stem by done.
assert (Hstem : forall d k (x : string), Str.mem "/" x = false ->
  Str.startswith "/"
    ((strftime_Ymd d +:+ "_paper" +:+ Str.of_nat k +:+ "_" +:+ x) +:+ ".md") = false).
{ intros d k x Hx. apply startswith_slash.
  destruct (strftime_Ymd_shape d) as [_ Hd].
  rewrite !mem_app_s, Hx, (digits_no_slash _ Hd), (digits_no_slash _ (of_nat_digits k)).
  done. }
intros H%join_inj; [|by apply Hstem..].
apply app_inv_tail_s in H. apply encode_inj; [done..|].
unfold encode_filename.
apply (f_equal (fun s => s +:+ ".pdf")) in H. by rewrite !app_assoc_s in H.
Qed.

Lemma summary_paths_distinct_witness :
Date 2024 6 15 = Date 2024 6 15 /\ 1 = 1 /\ "2401.00001" = "2401.00001".
Proof.
apply (summary_paths_distinct "summaries" (Date 2024 6 15) 1 "2401.00001"
         (Date 2024 6 15) 1 "2401.00001" (sample_paper "papers") (sample_paper "papers"));
  reflexivity.
Defined.

End CodecMore.

(** ** The summary loop, continued *)

Section SummaryMore.

Variable markitdown_convert : string -> result string.

(** The loop in the model, where every summary can be written. *)
Lemma process_papers_run md papers : forall processed (w : world),
let handled := omap (fun p => match markitdown_convert (p_path p) with
                              | Ok _ => Some (md_path md p)
                              | Raise _ => None
                              end) papers in
let out := process_papers markitdown_convert md processed papers w in
out.1 = Ok (processed ++ handled) /\
(forall path, files out.2 !! path <> files w !! path -> path ∈ handled).
Proof.
induction papers as [|p papers IH]; intros processed w; cbn zeta.
{ cbn. by rewrite app_nil_r. }
cbn [process_papers omap list_omap]. unfold bind. rewrite process_paper_run.
destruct (markitdown_convert (p_path p)) as [summary|e].
- destruct (IH (processed ++ [md_path md p])
               {| files := <[md_path md p := md_content p summary]> (files w);
                  trace := trace w ++
                    [Log INFO ("Processing PDF with MarkItDown: " +:+ p_path p);
                     Log INFO ("Created markdown for paper: " +:+ md_path md p)] |})
    as [Hl Hf].
  split; [by rewrite Hl, <- app_assoc|].
  intros path Hne. destruct (decide (path = md_path md p)) as [->|Hp].
  + apply list_elem_of_here.
  + apply list_elem_of_further, Hf. cbn [files]. by rewrite lookup_insert_ne.
- apply (IH processed
            {| files := files w;
               trace := trace w ++
                 [Log INFO ("Processing PDF with MarkItDown: " +:+ p_path p);
                  Log ERROR ("Error processing PDF " +:+ p_path p +:+ ": "
                             +:+ exn_msg e)] |}).
Qed.


Lemma process_papers_content md papers p summary : forall processed (w : world),
NoDup (md_path md <$> papers) ->
p ∈ papers -> markitdown_convert (p_path p) = Ok summary ->
files (exec (process_papers markitdown_convert md processed papers) w) !! md_path md p
  = Some (md_content p summary).
Proof.
induction papers as [|p0 papers IH]; intros processed w Hnd Hin Hc.
{ by apply elem_of_nil in Hin. }
rewrite fmap_cons in Hnd. apply NoDup_cons in Hnd as [Hfresh Hnd].
unfold exec. cbn [process_papers]. unfold bind. rewrite process_paper_run.
apply elem_of_cons in Hin as [->|Hin].
- rewrite Hc.
  destruct (process_papers_writes markitdown_convert md papers
              (processed ++ [md_path md p0])
              {| files := <[md_path md p0 := md_content p0 summary]> (files w);
                 trace := trace w ++
                   [Log INFO ("Processing PDF with MarkItDown: " +:+ p_path p0);
                    Log INFO ("Created markdown for paper: " +:+ md_path md p0)] |})
    as (written & w' & -> & Hw & Hf).
  cbn [snd]. cbn [files] in Hf.
  destruct (decide (files w' !! md_path md p0 =
                    <[md_path md p0 := md_content p0 summary]> (files w) !! md_path md p0))
    as [E|Hne].
  + rewrite E. apply lookup_insert_eq.
  + destruct (Hw _ (Hf _ Hne)) as (p' & Hp' & E'). exfalso. apply Hfresh.
    rewrite E'. apply list_elem_of_fmap. by exists p'.
- destruct (markitdown_convert (p_path p0)); by apply IH.
Qed.

Lemma NoDup_fmap_eq {A B} (f : A -> B) (l : list A) x y :
NoDup (f <$> l) -> x ∈ l -> y ∈ l -> f x = f y -> x = y.
Proof.
induction l as [|a l IH]; [by intros _ ?%elem_of_nil|].
rewrite fmap_cons. intros [Hfresh Hnd]%NoDup_cons Hx Hy E.
apply elem_of_cons in Hx as [->|Hx], Hy as [->|Hy].
- done.
- exfalso. apply Hfresh. rewrite E. apply list_elem_of_fmap. by exists y.
- exfalso. apply Hfresh. rewrite <- E. apply list_elem_of_fmap. by exists x.
- by apply IH.
Qed.

(** X19: when no two papers share a summary path, every path the loop
  returns leads to the summary of its own paper: if the summary path
  of a paper is among the paths returned, the converter handled the
  document of that paper, and the file holds the header of that paper
  followed by the text extracted from that document, whatever papers
  came before or after it. *)
Theorem summary_holds_paper_text md papers p (w : world) listed :
NoDup (md_path md <$> papers) -> p ∈ papers ->
(process_papers markitdown_convert md [] papers w).1 = Ok listed ->
md_path md p ∈ listed ->
exists summary,
  markitdown_convert (p_path p) = Ok summary /\
  files (exec (process_papers markitdown_convert md [] papers) w) !! md_path md p
    = Some (md_content p summary).
Proof.
intros Hnd Hp Hl Hin.
destruct (process_papers_run md papers [] w) as [Hrun _].
rewrite Hl in Hrun. injection Hrun as ->. cbn [app] in Hin.
apply list_elem_of_omap in Hin as (p' & Hp' & Hc).
destruct (markitdown_convert (p_path p')) as [summary|] eqn:Hc'; [|done].
injection Hc as E. assert (p' = p) as -> by (by eapply NoDup_fmap_eq).
exists summary. split; [done|]. by apply process_papers_content.
Qed.

Lemma first_line_app (a b : string) :
Str.mem "010" a = false -> Str.first_line (a +:+ b) = a +:+ Str.first_line b.
Proof.
induction a as [|x a IH]; cbn [Str.mem Str.first_line String.append]; [done|].
intros [Hx Ha]%orb_false_elim.
rewrite Ascii.eqb_sym in Hx. rewrite Hx, IH; done.
Qed.

Lemma contains_here (p b : string) : Str.contains p (p +:+ b) = true.
Proof. destruct (p +:+ b) eqn:E; simpl; rewrite <- E, startswith_app_l; done. Qed.

(** X20: the summary of a decoded paper starts with the line
  [# Paper: <identifier>] and holds the links to the paper on both
  sites; with nothing extracted it ends with the notice of failure,
  otherwise with the extracted text. *)
Theorem summary_content_shape (pdf_path : string) p summary :
extract_paper_info pdf_path = Ok (Some p) ->
let content := md_content p summary in
Str.first_line content = "# Paper: " +:+ p_arxiv_id p /\
Str.contains ("https://arxiv.org/abs/" +:+ p_arxiv_id p) content = true /\
Str.contains ("https://huggingface.co/papers/" +:+ p_arxiv_id p) content = true /\
exists head,
  content = head +:+
    (if String.eqb summary ""
     then "## Summary" +:+ nl +:+ nl +:+ "Failed to extract paper as markdown." +:+ nl
     else "## Paper" +:+ nl +:+ nl +:+ summary +:+ nl).
Proof.
intros (D & N & rest & dt & Hshape & _)%decode_some_shape. cbn zeta.
destruct Hshape as (_ & _ & _ & _ & _ & _ & Hnl).
unfold md_content, arxiv_url, huggingface_url. split; [|split; [|split]].
- rewrite (first_line_app "# Paper: ") by done.
  rewrite (first_line_app (p_arxiv_id p)) by done.
  cbn. by rewrite app_nil_r_s.
- do 13 apply contains_app_r. apply contains_here.
- do 17 apply contains_app_r. apply contains_here.
- eexists. rewrite <- !app_assoc_s. reflexivity.
Qed.

End SummaryMore.

Lemma summary_holds_paper_text_witness :
  exists summary,
    convert_echo (p_path (sample_paper "papers")) = Ok summary /\
    files (exec (process_papers convert_echo "summaries" []
                   [sample_paper "papers"; earlier_paper "papers"]) w_empty)
      !! md_path "summaries" (sample_paper "papers")
    = Some (md_content (sample_paper "papers") summary).
Proof.
  apply (summary_holds_paper_text convert_echo "summaries"
           [sample_paper "papers"; earlier_paper "papers"] (sample_paper "papers") w_empty
           [md_path "summaries" (sample_paper "papers");
            md_path "summaries" (earlier_paper "papers")]).
  - apply NoDup_cons. split; [|apply NoDup_singleton].
    intros H%list_elem_of_singleton. discriminate H.
  - apply list_elem_of_here.
  - vm_compute. reflexivity.
  - apply list_elem_of_here.
Defined.

Lemma summary_content_shape_witness :
  let content := md_content (sample_paper "papers") "" in
  Str.first_line content = "# Paper: " +:+ p_arxiv_id (sample_paper "papers") /\
  Str.contains ("https://arxiv.org/abs/" +:+ p_arxiv_id (sample_paper "papers")) content = true /\
  Str.contains ("https://huggingface.co/papers/" +:+ p_arxiv_id (sample_paper "papers"))
               content = true /\
  exists head,
    content = head +:+
      (if String.eqb "" ""
       then "## Summary" +:+ nl +:+ nl +:+ "Failed to extract paper as markdown." +:+ nl
       else "## Paper" +:+ nl +:+ nl +:+ "" +:+ nl).
Proof.
  apply (summary_content_shape (Path.join "papers" sample_name) (sample_paper "papers") "").
  vm_compute. reflexivity.
Defined.

(** ** The command line and the daily window *)

Section CommandLine.

Lemma iso_table_valid :
forallb iso_check_valid (m ← seq 1 12; d ← seq 1 31; [(m, d)]) = true.
Proof. vm_compute. reflexivity. Qed.

Lemma iso_match (Y4 tail : string) :
String.length Y4 = 4 -> Str.all Str.is_digit Y4 = true ->
Re.re_match iso_regex (Y4 +:+ tail) = lift [Y4] (iso_md_found tail).
Proof.
intros Hl Hd. unfold Re.re_match, iso_regex, iso_md_found.
change (Re.seq (?r :: ?rs)) with (Re.Cat r (Re.seq rs)).
rewrite run_Cat, run_Group, run_rep_class by done.
rewrite consumed_app. apply run_frame_final.
Qed.

(** After the four digits of the year the pattern wants a hyphen. *)
Lemma iso_needs_hyphen (s : string) :
Str.all Str.is_digit s = true -> 4 < String.length s ->
Re.re_match iso_regex s = None.
Proof.
intros Hd Hl. rewrite <- (take_drop_s 4 s).
destruct (all_take_drop _ 4 s Hd) as [Ht Hdr].
rewrite iso_match; [|apply length_take_s; lia | done].
destruct (iso_md_found _) as [m|] eqn:Hf; [|done]. exfalso.
unfold iso_md_found in Hf.
change (Re.seq (?r :: ?rs)) with (Re.Cat r (Re.seq rs)) in Hf.
rewrite run_Cat in Hf. apply run_lit_inv in Hf as (v & Hv & _).
rewrite Hv in Hdr. done.
Qed.

Lemma digits_before_hyphen (u v a t : string) :
Str.all Str.is_digit u = true -> String.length a < String.length u ->
u +:+ v = a +:+ String "-" t -> False.
Proof.
revert u. induction a as [|x a IH]; intros [|c u]; cbn [String.length String.append Str.all];
  try lia.
- intros [Hc _]%andb_prop _ [= -> _]. done.
- intros [_ Hu]%andb_prop Hl [= _ H]. apply (IH u); [done | lia | done].
Qed.

(** A year written on fewer than four digits is not read back. *)
Lemma iso_rejects_short_year (a t : string) :
String.length a < 4 -> Re.re_match iso_regex (a +:+ String "-" t) = None.
Proof.
intros Hl. unfold Re.re_match, iso_regex.
change (Re.seq (?r :: ?rs)) with (Re.Cat r (Re.seq rs)).
destruct (Re.run _ _ _ _) as [m|] eqn:Hr; [|done]. exfalso.
rewrite run_Cat, run_Group in Hr.
apply run_rep_class_inv in Hr as (u & v & Hs & Hlu & Hd & _).
apply (digits_before_hyphen u v a t); [done | lia | done].
Qed.

(** X23: from the year 1000 on, the dates [run_paper_puller] writes on
  the command line are the dates [pull_papers.py] reads from it:
  parsing with ['%Y-%m-%d'] what [strftime] wrote with the same format
  gives the date back.  A date of an earlier year is written with
  fewer than four digits of year, and reading it raises [ValueError]. *)
Theorem command_line_dates_roundtrip dt :
valid_date dt = true ->
(1000 <= year dt -> strptime_iso (strftime_iso dt) = Ok dt) /\
(year dt < 1000 ->
 strptime_iso (strftime_iso dt) =
   Raise (Exn ValueError ("time data '" +:+ strftime_iso dt
                          +:+ "' does not match format '%Y-%m-%d'"))).
Proof.
intros Hv. split.
- intros Hlo. destruct (valid_date_inv _ Hv) as (Hy & Hm & Hd).
  pose proof (days_in_month_bounds (year dt) (month dt)) as Hb.
  assert (Hmd : (month dt, day dt) ∈ (m ← seq 1 12; d ← seq 1 31; [(m, d)])).
  { apply list_elem_of_bind. exists (month dt). split.
    - apply list_elem_of_bind. exists (day dt). split; [apply list_elem_of_here|].
      apply list_elem_of_In, in_seq. lia.
    - apply list_elem_of_In, in_seq. lia. }
  pose proof (forallb_elem _ _ _ iso_table_valid Hmd) as Hchk.
  unfold iso_check_valid in Hchk. cbn [fst snd] in Hchk.
  destruct (valid_date_bounds _ Hv) as (Hy4 & Hm2 & Hd2).
  unfold strptime_iso, strftime_iso.
  rewrite (of_nat_fixed 3) by (change (10 ^ 3) with 1000; lia).
  rewrite iso_match by (apply length_fixed || apply fixed_digits).
  destruct (iso_md_found _) as [[caps rest]|]; [|done].
  destruct caps as [|m [|d [|? ?]]]; try done; destruct rest; try done.
  apply andb_prop in Hchk as [->%String.eqb_eq ->%String.eqb_eq]. cbn [lift app].
  rewrite !int_fixed by lia. by apply datetime_new_valid.
- intros Hhi. unfold strptime_iso.
  assert (Re.re_match iso_regex (strftime_iso dt) = None) as ->; [|done].
  unfold strftime_iso.
  assert (Hh : forall x : string, "-" +:+ x = String "-" x) by done.
  rewrite (Hh (Str.fixed 2 (month dt) +:+ _)).
  apply iso_rejects_short_year.
  pose proof (of_nat_short 2 (year dt)) as Hs. change (10 ^ 3) with 1000 in Hs. lia.
Qed.

Lemma command_line_dates_roundtrip_witness :
strptime_iso (strftime_iso (Date 2024 2 29)) = Ok (Date 2024 2 29) /\
strptime_iso (strftime_iso (Date 999 1 1)) =
  Raise (Exn ValueError ("time data '" +:+ strftime_iso (Date 999 1 1)
                         +:+ "' does not match format '%Y-%m-%d'")).
Proof.
destruct (command_line_dates_roundtrip (Date 2024 2 29)) as [H _]; [reflexivity|].
destruct (command_line_dates_roundtrip (Date 999 1 1)) as [_ H']; [reflexivity|].
split; [apply H; apply Nat.leb_le; reflexivity | apply H'; apply Nat.ltb_lt; reflexivity].
Defined.

Lemma days_in_december y : days_in_month y 12 = 31.
Proof. reflexivity. Qed.

Lemma prev_day_next_day today yesterday :
valid_date today = true -> prev_day today = Some yesterday ->
valid_date yesterday = true /\ next_day yesterday = Some today.
Proof.
intros (Hy & Hm & Hd)%valid_date_inv. destruct today as [y m d].
unfold prev_day. cbn [year month day] in *.
pose proof (days_in_month_bounds y (m - 1)) as Hb.
pose proof MAXYEAR_lt as HM. change (10 ^ 4) with 10000 in HM.
destruct (Nat.ltb_spec 1 d) as [H1|H1];
  [|destruct (Nat.ltb_spec 1 m) as [H2|H2]; [|destruct (Nat.ltb_spec 1 y) as [H3|H3]]].
- intros [= <-]. split; [apply valid_date_intro; lia|].
  unfold next_day. cbn [year month day].
  destruct (Nat.ltb_spec (d - 1) (days_in_month y m)); [|lia].
  f_equal. f_equal. lia.
- intros [= <-]. split; [apply valid_date_intro; lia|].
  unfold next_day. cbn [year month day].
  destruct (Nat.ltb_spec (days_in_month y (m - 1)) (days_in_month y (m - 1))); [lia|].
  destruct (Nat.ltb_spec (m - 1) 12); [|lia].
  f_equal. apply date_eq_fields; cbn [year month day]; lia.
- intros [= <-]. split; [apply valid_date_intro; rewrite ?days_in_december; lia|].
  unfold next_day. cbn [year month day]. rewrite days_in_december.
  destruct (Nat.ltb_spec 31 31); [lia|].
  destruct (Nat.ltb_spec 12 12); [lia|].
  destruct (Nat.ltb_spec (y - 1) MAXYEAR); [|lia].
  f_equal. apply date_eq_fields; cbn [year month day]; lia.
- done.
Qed.

Lemma next_day_after d d' e :
valid_date d = true -> valid_date e = true -> next_day d = Some d' ->
date_leb e d = true -> date_leb d' e = false.
Proof.
intros Hd He Hn Hle. destruct (next_day_valid _ _ Hd Hn) as [Hd' Hk].
apply date_leb_key in Hle; [|done..].
apply not_true_iff_false. intros H. apply date_leb_key in H; [lia|done..].
Qed.

Lemma yields_from_end end_date ds overflow :
valid_date end_date = true ->
yields end_date end_date ds overflow -> ds = [end_date].
Proof.
intros Hv Hy. inversion Hy as [cur Hle|cur Hle Hn|cur next ds' ovf Hle Hn Hy']; subst.
- by rewrite date_leb_refl in Hle.
- done.
- pose proof (next_day_after _ _ end_date Hv Hv Hn (date_leb_refl _)) as Hf.
  inversion Hy'; subst; congruence.
Qed.

(** X24: the window of the daily job is two days long.  From midnight
  today, the day before is a date whose next day is today, and
  [daterange] over the two yields exactly yesterday and today. *)
Theorem daily_window today yesterday :
valid_date today = true -> prev_day today = Some yesterday ->
valid_date yesterday = true /\
next_day yesterday = Some today /\
(daterange yesterday today).1 = [yesterday; today].
Proof.
intros Hv Hp. destruct (prev_day_next_day _ _ Hv Hp) as [Hvy Hn].
split; [done|]. split; [done|].
pose proof (daterange_yields _ _ Hvy Hv) as Hy.
destruct (next_day_valid _ _ Hvy Hn) as [_ Hk].
destruct (daterange yesterday today) as [ds ovf]. cbn [fst snd] in *.
inversion Hy as [cur Hle|cur Hle Hn'|cur next ds' ovf' Hle Hn' Hy']; subst.
- exfalso. apply not_true_iff_false in Hle. apply Hle.
  apply date_leb_key; [done..|lia].
- congruence.
- rewrite Hn in Hn'. injection Hn' as <-.
  by rewrite (yields_from_end today ds' ovf Hv Hy').
Qed.

Lemma daily_window_witness :
valid_date (Date 2024 2 29) = true /\
next_day (Date 2024 2 29) = Some (Date 2024 3 1) /\
(daterange (Date 2024 2 29) (Date 2024 3 1)).1 = [Date 2024 2 29; Date 2024 3 1].
Proof. apply (daily_window (Date 2024 3 1) (Date 2024 2 29)); reflexivity. Defined.

(** X25: the command line does not take the compact form of a date
  that the file names use: on the digits that ['%Y%m%d'] writes,
  parsing with ['%Y-%m-%d'] raises [ValueError], whatever the date. *)
Theorem command_line_rejects_compact_dates dt :
strptime_iso (strftime_Ymd dt) =
  Raise (Exn ValueError ("time data '" +:+ strftime_Ymd dt
                         +:+ "' does not match format '%Y-%m-%d'")).
Proof.
unfold strptime_iso. destruct (strftime_Ymd_shape dt) as [Hl Hd].
by rewrite iso_needs_hyphen.
Qed.

End CommandLine.

(** ** How a run of [main] ends *)

Section MainOutcome.

Variable http_get : list event -> string -> http_result.
Variable select_anchors : string -> list (option string).

(** X26: whether a run of [main] returns or raises, and what it raises,
  does not depend on the network or on the pages: every failure of a
  listing or of a download is caught in the loop, so two runs from the
  same world over the same dates end alike whatever the two networks
  answer. *)
Theorem main_outcome_independent_of_network
  (http_get' : list event -> string -> http_result)
  (select_anchors' : string -> list (option string))
  start_date end_date out (w : world) :
(main http_get select_anchors start_date end_date out w).1 =
(main http_get' select_anchors' start_date end_date out w).1.
Proof. by rewrite !main_run. Qed.

(** X27: when the listing of a date cannot be had, [main] gives the
  date up and goes on: the turn of the loop returns, it has requested
  the listing and nothing else, created no file and slept no second,
  and the last thing it did was to report the failure. *)
Theorem listing_failure_skips_date out dt (w : world) e wl :
get_arxiv_ids http_get select_anchors dt (announced dt w) = (Raise e, wl) ->
exists w',
  process_date http_get select_anchors out dt w = (Ok tt, w') /\
  files w' = files w /\
  requests (trace w') = requests (trace w) ++ [listing_url dt] /\
  slept (trace w') = slept (trace w) /\
  last (trace w') = Some (Print ("❌ " +:+ "Failed to get paper links for "
                                 +:+ str_datetime dt +:+ ": " +:+ exn_msg e)).
Proof.
intros Hl. rewrite process_date_run.
destruct (announced_frame dt w) as (Hf0 & Hr0 & Hs0).
destruct (get_arxiv_ids_frame http_get select_anchors dt (announced dt w))
  as (Hf & Hr & Hs & _).
rewrite Hl in *. cbn [fst snd] in *.
eexists. split; [reflexivity|]. cbn [files trace].
split; [congruence|]. split; [|split].
- rewrite requests_app, Hr, Hr0.
  change (requests [Log ERROR ("Failed to get paper links for " +:+ str_datetime dt
                               +:+ ": " +:+ exn_msg e);
                    Print ("❌ " +:+ "Failed to get paper links for " +:+ str_datetime dt
                           +:+ ": " +:+ exn_msg e)]) with (@nil string).
  by rewrite app_nil_r.
- rewrite slept_app, Hs, Hs0.
  change (slept [Log ERROR ("Failed to get paper links for " +:+ str_datetime dt
                            +:+ ": " +:+ exn_msg e);
                 Print ("❌ " +:+ "Failed to get paper links for " +:+ str_datetime dt
                        +:+ ": " +:+ exn_msg e)]) with 0.
  lia.
- apply last_app_pair.
Qed.

End MainOutcome.

Lemma listing_failure_skips_date_witness :
  exists w',
    process_date http_listing_down_once two_anchors "papers" (Date 2024 6 14) w_empty
      = (Ok tt, w') /\
    files w' = files w_empty /\
    requests (trace w') = requests (trace w_empty) ++ [listing_url (Date 2024 6 14)] /\
    slept (trace w') = slept (trace w_empty) /\
    last (trace w') = Some (Print ("❌ " +:+ "Failed to get paper links for "
                                   +:+ str_datetime (Date 2024 6 14) +:+ ": "
                                   +:+ exn_msg (Exn RequestException "connection refused"))).
Proof.
  eapply (listing_failure_skips_date http_listing_down_once two_anchors "papers"
            (Date 2024 6 14) w_empty).
  vm_compute. reflexivity.
Defined.
